(** * Tracking and storage subsystem of the BOP Malaga downloader

    A shallow embedding of [src/tracker.py] (class [BOPMalagaTracker] and
    the command line [main]), the properties its specification states
    about it, and further properties that the code itself shows.

    Modelling conventions.
    - The file system is a finite map from path strings to nodes; paths are
      compared as strings (no normalisation, no symbolic links).  The empty
      directory name stands for the current directory, which always exists.
    - [float] quantities (megabytes) are exact rationals ([Q]).
    - Every call of [datetime.now()] inside one operation reads the same
      instant, passed as the argument [now] (microseconds of naive local
      time, counted from 1970-01-01T00:00:00).
    - Library functions whose code is not part of the repository ([json],
      [datetime.fromisoformat], [hashlib], [gzip]) are fields of the class
      [PyRuntime].
    - The in-memory dictionary [tracking_data] is the record [TrackingData];
      a [downloads] dictionary is an association list in insertion order
      whose values are [DownloadRecord]s, so [DownloadRecord.from_dict] and
      [to_dict] are the identity.  A tracking file that parses is a JSON
      object ([Document]) whose records have these fields.
    - An exception is a value of [exn]; operations that can raise return a
      [res].  Effects that happened before an exception are kept. *)

From Stdlib Require Import ZArith QArith Lqa String Ascii List Bool Lia.
From stdpp Require Import gmap strings list fin_maps sorting.

Local Open Scope Z_scope.
Local Open Scope string_scope.

(** ** Exceptions and results *)

Inductive exn : Type :=
  | FileNotFoundError
  | FileExistsError
  | IsADirectoryError
  | NotADirectoryError
  | SameFileError
  | TypeError
  | ValueError
  | KeyError
  | JSONDecodeError
  | UnicodeDecodeError
  | OverflowError.

Inductive res (A : Type) : Type :=
  | Ok (a : A)
  | Raise (e : exn).

Arguments Ok {A} a.
Arguments Raise {A} e.

Definition is_ok {A} (r : res A) : bool :=
  match r with Ok _ => true | Raise _ => false end.

(** ** Strings: the [str] methods the tracker uses *)

Module Str.

(** [s.endswith(suf)] *)
Fixpoint endswith (s suf : string) : bool :=
  String.eqb s suf ||
  match s with
  | EmptyString => false
  | String _ s' => endswith s' suf
  end.

(** [s.startswith(pre)] *)
Fixpoint startswith (s pre : string) : bool :=
  match pre, s with
  | EmptyString, _ => true
  | String a pre', String b s' => Ascii.eqb a b && startswith s' pre'
  | String _ _, EmptyString => false
  end.

(** [s.replace('Z', '+00:00')] *)
Fixpoint replace_Z (s : string) : string :=
  match s with
  | EmptyString => EmptyString
  | String c s' =>
      if Ascii.eqb c "Z" then "+00:00" +:+ replace_Z s'
      else String c (replace_Z s')
  end.

(** Truth value of a [str]: the empty string is false. *)
Definition truthy (s : string) : bool :=
  match s with EmptyString => false | String _ _ => true end.

Fixpoint has_slash (s : string) : bool :=
  match s with
  | EmptyString => false
  | String c s' => Ascii.eqb c "/" || has_slash s'
  end.

End Str.

(** ** [os.path] (posixpath) *)

Module Path.

(** [(p[:i], p[i:])] for [i = p.rfind('/') + 1]. *)
Fixpoint rsplit (p : string) : string * string :=
  match p with
  | EmptyString => (EmptyString, EmptyString)
  | String c p' =>
      let '(h, t) := rsplit p' in
      match h with
      | String _ _ => (String c h, t)
      | EmptyString =>
          if Ascii.eqb c "/" then (String c EmptyString, t)
          else (EmptyString, String c t)
      end
  end.

(** [s.rstrip('/')] *)
Fixpoint rstrip (s : string) : string :=
  match s with
  | EmptyString => EmptyString
  | String c s' =>
      match rstrip s' with
      | EmptyString => if Ascii.eqb c "/" then EmptyString else String c EmptyString
      | r => String c r
      end
  end.

(** [os.path.dirname]: the head, without its trailing slashes unless it
    consists of slashes only. *)
Definition dirname (p : string) : string :=
  let head := fst (rsplit p) in
  match rstrip head with
  | EmptyString => head
  | r => r
  end.

(** [os.path.basename] *)
Definition basename (p : string) : string := snd (rsplit p).

(** [os.path.join(a, b)] *)
Definition join (a b : string) : string :=
  if Str.startswith b "/" then b
  else if negb (Str.truthy a) || Str.endswith a "/" then a +:+ b
  else a +:+ "/" +:+ b.

End Path.

(** ** The file system *)

Inductive node : Type :=
  | Dir (mtime : Z)
  | File (data : string) (mtime : Z).

Abbreviation fsys := (gmap string node).

Module FS.

(** Size reported for a directory by [os.path.getsize]. *)
Definition dir_size : Z := 4096.

(** [os.path.exists] *)
Definition path_exists (fs : fsys) (p : string) : bool :=
  match fs !! p with Some _ => true | None => false end.

Definition is_dir (fs : fsys) (p : string) : bool :=
  match fs !! p with Some (Dir _) => true | _ => false end.

Definition is_file (fs : fsys) (p : string) : bool :=
  match fs !! p with Some (File _ _) => true | _ => false end.

(** [os.path.getsize] *)
Definition getsize (fs : fsys) (p : string) : res Z :=
  match fs !! p with
  | Some (File data _) => Ok (Z.of_nat (String.length data))
  | Some (Dir _) => Ok dir_size
  | None => Raise FileNotFoundError
  end.

(** [os.path.getmtime] *)
Definition getmtime (fs : fsys) (p : string) : res Z :=
  match fs !! p with
  | Some (File _ m) => Ok m
  | Some (Dir m) => Ok m
  | None => Raise FileNotFoundError
  end.

(** [os.remove] *)
Definition remove (fs : fsys) (p : string) : res fsys :=
  match fs !! p with
  | Some (File _ _) => Ok (delete p fs)
  | Some (Dir _) => Raise IsADirectoryError
  | None => Raise FileNotFoundError
  end.

(** [open(p, 'rb').read()] *)
Definition read (fs : fsys) (p : string) : res string :=
  match fs !! p with
  | Some (File data _) => Ok data
  | Some (Dir _) => Raise IsADirectoryError
  | None => Raise FileNotFoundError
  end.

(** A file can be created in the directory of [p] when that directory
    exists; the empty directory name is the current directory. *)
Definition parent_check (fs : fsys) (p : string) : res unit :=
  match Path.basename p with
  | EmptyString => Raise IsADirectoryError
  | _ =>
      match Path.dirname p with
      | EmptyString => Ok tt
      | d =>
          match fs !! d with
          | Some (Dir _) => Ok tt
          | Some (File _ _) => Raise NotADirectoryError
          | None => Raise FileNotFoundError
          end
      end
  end.

(** [open(p, 'w')], write [data], close: creates or truncates [p]. *)
Definition write (mtime : Z) (fs : fsys) (p data : string) : res fsys :=
  match fs !! p with
  | Some (Dir _) => Raise IsADirectoryError
  | _ =>
      match parent_check fs p with
      | Ok _ => Ok (<[p := File data mtime]> fs)
      | Raise e => Raise e
      end
  end.

(** [shutil.copy2]: content and modification time are copied; a
    directory as destination receives the file under its base name. *)
Definition copy2 (fs : fsys) (src dst : string) : res fsys :=
  match fs !! src with
  | None => Raise FileNotFoundError
  | Some (Dir _) => Raise IsADirectoryError
  | Some (File data m) =>
      let dst' := if is_dir fs dst then Path.join dst (Path.basename src) else dst in
      if String.eqb src dst' then Raise SameFileError
      else write m fs dst' data
  end.

(** [os.rename] of a regular file; a directory as source is refused
    (the tracker only renames the temporary file it has just written). *)
Definition rename (fs : fsys) (src dst : string) : res fsys :=
  match fs !! src with
  | None => Raise FileNotFoundError
  | Some (Dir _) => Raise IsADirectoryError
  | Some (File data m) =>
      match fs !! dst with
      | Some (Dir _) => Raise IsADirectoryError
      | _ =>
          match parent_check fs dst with
          | Ok _ => Ok (<[dst := File data m]> (delete src fs))
          | Raise e => Raise e
          end
      end
  end.

(** The entry name of [p] inside directory [d], when [p] lies directly
    in [d]. *)
Fixpoint strip_prefix (pre s : string) : option string :=
  match pre, s with
  | EmptyString, _ => Some s
  | String a pre', String b s' =>
      if Ascii.eqb a b then strip_prefix pre' s' else None
  | String _ _, EmptyString => None
  end.

Definition entry_of (d p : string) : option string :=
  match strip_prefix (if Str.endswith d "/" then d else d +:+ "/") p with
  | Some n => if Str.truthy n && negb (Str.has_slash n) then Some n else None
  | None => None
  end.

(** [os.listdir]; the order is the key order of the map. *)
Definition listdir (fs : fsys) (d : string) : res (list string) :=
  match fs !! d with
  | Some (Dir _) => Ok (omap (fun kv => entry_of d (fst kv)) (map_to_list fs))
  | Some (File _ _) => Raise NotADirectoryError
  | None => Raise FileNotFoundError
  end.

(** [Path(p).mkdir(parents=True, exist_ok=True)]: an existing directory
    is accepted, a regular file at [p] raises [FileExistsError], a regular
    file in the place of the parent raises [NotADirectoryError], and a
    missing parent is created first. *)
Fixpoint mkdir_p (fuel : nat) (now : Z) (fs : fsys) (p : string) : res fsys :=
  match fs !! p with
  | Some (Dir _) => Ok fs
  | Some (File _ _) => Raise FileExistsError
  | None =>
      match Path.dirname p with
      | EmptyString => Ok (<[p := Dir now]> fs)
      | d =>
          match fuel with
          | O => Ok (<[p := Dir now]> fs)
          | S fuel' =>
              if String.eqb d p then Ok (<[p := Dir now]> fs)
              else match fs !! d with
                   | Some (File _ _) => Raise NotADirectoryError
                   | _ =>
                       match mkdir_p fuel' now fs d with
                       | Ok fs' => Ok (<[p := Dir now]> fs')
                       | Raise e => Raise e
                       end
                   end
          end
      end
  end.

End FS.

(** ** Data model *)

(** [datetime]: naive (no offset) or aware; the number is the instant in
    microseconds since 1970-01-01T00:00:00 (local wall clock for naive
    values, UTC for aware ones). *)
Inductive datetime : Type :=
  | Naive (t : Z)
  | Aware (t : Z).

(** [a < b] on [datetime]: comparing a naive with an aware value raises
    [TypeError]. *)
Definition dt_lt (a b : datetime) : res bool :=
  match a, b with
  | Naive x, Naive y => Ok (x <? y)%Z
  | Aware x, Aware y => Ok (x <? y)%Z
  | _, _ => Raise TypeError
  end.

Definition microseconds_per_day : Z := 86400000000.

(** [datetime.min] is 0001-01-01T00:00:00 and [datetime.max] is
    9999-12-31T23:59:59.999999. *)
Definition datetime_min : Z := -62135596800000000.
Definition datetime_max : Z := 253402300799999999.

(** The largest magnitude of the [days] of a [timedelta]. *)
Definition max_delta_days : Z := 999999999.

(** [timedelta(days=n)], in microseconds: [OverflowError] when the
    magnitude of [n] is above 999999999. *)
Definition timedelta_days (days : Z) : res Z :=
  if (Z.abs days <=? max_delta_days)%Z then Ok (days * microseconds_per_day)
  else Raise OverflowError.

(** [d - timedelta(days=n)] for a naive [d]: [OverflowError] when the
    [timedelta] cannot be built or the result is outside
    [datetime.min .. datetime.max]. *)
Definition minus_days (now : Z) (days : Z) : res Z :=
  match timedelta_days days with
  | Ok delta =>
      let t := now - delta in
      if (datetime_min <=? t)%Z && (t <=? datetime_max)%Z then Ok t
      else Raise OverflowError
  | Raise e => Raise e
  end.

(** [@dataclass class DownloadRecord] *)
Record DownloadRecord : Type := mkRecord {
  edicto_id : string;
  filename : string;
  download_date : string;
  file_size : Z;
  file_path : string;
  checksum : option string;
  compressed : bool }.

(** [@dataclass class StorageStats] *)
Record StorageStats : Type := mkStats {
  total_files : Z;
  total_size_mb : Q;
  compressed_files : Z;
  compressed_size_mb : Q;
  oldest_file_date : option string;
  newest_file_date : option string }.

(** [tracking_data['statistics']] *)
Record Statistics : Type := mkStatistics {
  total_downloads : Z;
  stat_total_size_mb : Q;
  last_cleanup : option string;
  last_compression : option string }.

(** A Python [dict] with string keys, in insertion order. *)
Abbreviation dict V := (list (string * V)).

(** [tracking_data] once it has been validated: every key the tracker
    reads is present and [downloads] is a dictionary. *)
Record TrackingData : Type := mkData {
  version : string;
  created : option string;
  last_updated : string;
  downloads : dict DownloadRecord;
  statistics : Statistics }.

(** The value of [tracking_data['downloads']] in a parsed file: a
    dictionary of records, or the legacy list of ids. *)
Inductive downloads_json : Type :=
  | DownloadsDict (d : dict DownloadRecord)
  | DownloadsList (ids : list string).

(** A parsed tracking file (the [dict] returned by [json.load]); any
    top-level key may be missing. *)
Record Document : Type := mkDocument {
  doc_version : option string;
  doc_created : option string;
  doc_last_updated : option string;
  doc_downloads : option downloads_json;
  doc_statistics : option Statistics }.

(** The document that [json.dump] writes for a validated store. *)
Definition document_of (d : TrackingData) : Document :=
  {| doc_version := Some (version d);
     doc_created := created d;
     doc_last_updated := Some (last_updated d);
     doc_downloads := Some (DownloadsDict (downloads d));
     doc_statistics := Some (statistics d) |}.

(** Outcome of [open(..., encoding='utf-8')] followed by [json.load]. *)
Inductive parse_result : Type :=
  | Parsed (doc : Document)
  | DecodeError          (* [json.JSONDecodeError] *)
  | UnicodeError.        (* [UnicodeDecodeError] *)

(** ** Dictionary operations *)

Module Dict.
Section Dict.
Context {V : Type}.

(** [d.get(k)] *)
Fixpoint get (k : string) (d : dict V) : option V :=
  match d with
  | [] => None
  | (k', v) :: d' => if String.eqb k k' then Some v else get k d'
  end.

(** [k in d] *)
Definition mem (k : string) (d : dict V) : bool :=
  match get k d with Some _ => true | None => false end.

(** [d[k] = v]: an existing key keeps its position. *)
Fixpoint set (k : string) (v : V) (d : dict V) : dict V :=
  match d with
  | [] => [(k, v)]
  | (k', v') :: d' =>
      if String.eqb k k' then (k, v) :: d' else (k', v') :: set k v d'
  end.

Fixpoint remove (k : string) (d : dict V) : dict V :=
  match d with
  | [] => []
  | (k', v') :: d' =>
      if String.eqb k k' then d' else (k', v') :: remove k d'
  end.

(** [del d[k]] *)
Definition del (k : string) (d : dict V) : res (dict V) :=
  if mem k d then Ok (remove k d) else Raise KeyError.

Definition keys (d : dict V) : list string := map fst d.

(** The keys of a dictionary are pairwise distinct. *)
Definition wf (d : dict V) : Prop := NoDup (keys d).

End Dict.
End Dict.

(** ** Library functions *)

Class PyRuntime : Type := {
  (* [json.dump(tracking_data, f, indent=2, ensure_ascii=False)] *)
  json_dump : TrackingData -> string;
  (* reading a file as UTF-8 text and [json.load] *)
  json_load : string -> parse_result;
  (* [datetime.fromisoformat]; [None] is [ValueError] *)
  fromisoformat : string -> option datetime;
  (* [datetime.isoformat] of a naive instant *)
  isoformat : Z -> string;
  (* [strftime('%Y%m%d_%H%M%S')] of a naive instant *)
  strftime : Z -> string;
  (* [hashlib.sha256(data).hexdigest()] *)
  sha256_hexdigest : string -> string;
  (* the bytes of the gzip file for the given content *)
  gzip_compress : string -> string }.

(** ** A state and exception monad

    [M S A] is a computation over a mutable state [S] that returns an [A]
    or raises.  The state reached when an exception is raised is kept,
    as in Python, so that an [except] clause sees every effect that
    happened before the exception. *)

Definition M (S A : Type) : Type := S -> res A * S.

Definition ret {S A} (a : A) : M S A := fun s => (Ok a, s).

Definition bind {S A B} (m : M S A) (k : A -> M S B) : M S B :=
  fun s =>
    match m s with
    | (Ok a, s') => k a s'
    | (Raise e, s') => (Raise e, s')
    end.

Definition raise {S A} (e : exn) : M S A := fun s => (Raise e, s).

Definition get {S} : M S S := fun s => (Ok s, s).
Definition put {S} (s : S) : M S unit := fun _ => (Ok tt, s).
Definition modify {S} (f : S -> S) : M S unit := fun s => (Ok tt, f s).

(** [try: m except Exception: h] *)
Definition try_except {S A} (m : M S A) (h : exn -> M S A) : M S A :=
  fun s =>
    match m s with
    | (Ok a, s') => (Ok a, s')
    | (Raise e, s') => h e s'
    end.

(** Lifting a value that was computed without touching the state. *)
Definition of_res {S A} (r : res A) : M S A :=
  match r with Ok a => ret a | Raise e => raise e end.

(** A computation on the second component of a pair of states: [L] holds
    the local variables of a method, which survive an exception. *)
Definition lift {L S A} (m : M S A) : M (L * S) A :=
  fun ls => let '(r, s') := m (snd ls) in (r, (fst ls, s')).

Definition get_locals {L S} : M (L * S) L := fun ls => (Ok (fst ls), ls).
Definition set_locals {L S} (l : L) : M (L * S) unit := fun ls => (Ok tt, (l, snd ls)).

Declare Scope monad_scope.
Delimit Scope monad_scope with monad.
Notation "'let*' x ':=' m 'in' k" := (bind m (fun x => k))
  (at level 10, x pattern, m at level 100, k at level 200) : monad_scope.
Notation "m ;; k" := (bind m (fun _ => k))
  (at level 100, k at level 200, right associativity) : monad_scope.

Local Open Scope monad_scope.

(** [for x in xs: body] *)
Fixpoint for_each {S X} (xs : list X) (body : X -> M S unit) : M S unit :=
  match xs with
  | [] => ret tt
  | x :: xs' => body x ;; for_each xs' body
  end.

(** A loop whose body may [break]. *)
Inductive ctl : Type := Next | Break.

Fixpoint for_break {S X} (xs : list X) (body : X -> M S ctl) : M S unit :=
  match xs with
  | [] => ret tt
  | x :: xs' =>
      let* c := body x in
      match c with
      | Next => for_break xs' body
      | Break => ret tt
      end
  end.

(** ** Sorting

    [list.sort] is stable; [insert_sorted lt x l] puts [x] in front of the
    first element that is not strictly before it. *)

Section Sort.
Context {A : Type} (lt : A -> A -> bool).

Fixpoint insert_sorted (x : A) (l : list A) : list A :=
  match l with
  | [] => [x]
  | y :: l' => if lt y x then y :: insert_sorted x l' else x :: y :: l'
  end.

Definition stable_sort (l : list A) : list A := foldr insert_sorted [] l.

End Sort.

(** Megabytes of a byte count: [n / (1024 * 1024)]. *)
Definition mb (n : Z) : Q := inject_Z n / inject_Z (1024 * 1024).

Definition is_naive (d : datetime) : bool :=
  match d with Naive _ => true | Aware _ => false end.

Definition instant (d : datetime) : Z :=
  match d with Naive t => t | Aware t => t end.

(** [l.sort(key=lambda x: x[0])] on a list keyed by [datetime]: the
    comparison of a naive with an aware key raises [TypeError]. *)
Definition sort_by_date {X} (l : list (datetime * X)) : res (list (datetime * X)) :=
  if forallb (fun x => is_naive (fst x)) l || forallb (fun x => negb (is_naive (fst x))) l
  then Ok (stable_sort (fun a b => (instant (fst a) <? instant (fst b))%Z) l)
  else Raise TypeError.

(** The value of [report['file_integrity']] in [get_summary_report]. *)
Record FileIntegrity : Type := mkIntegrity {
  missing_files : Z;
  corrupted_files : Z;
  missing_file_ids : list string;
  corrupted_file_ids : list string }.

(** The dictionary that [get_summary_report] returns. *)
Record SummaryReport : Type := mkReport {
  report_tracking_file : string;
  download_directory : string;
  total_tracked_downloads : Z;
  storage_stats : StorageStats;
  file_integrity : FileIntegrity;
  report_last_updated : option string;
  report_last_cleanup : option string;
  report_last_compression : option string }.

(** ** The tracker object *)

(** The state a method of [BOPMalagaTracker] works on: the disk and
    [self.tracking_data]. *)
Record tracker : Type := mkTracker {
  disk : fsys;
  tracking_data : TrackingData }.

Class HasDisk (S : Type) : Type := {
  get_disk : S -> fsys;
  set_disk : fsys -> S -> S }.

Class HasData (S : Type) : Type := {
  get_data : S -> TrackingData;
  set_data : TrackingData -> S -> S }.

#[export] Instance fsys_disk : HasDisk fsys :=
  {| get_disk d := d; set_disk d _ := d |}.

#[export] Instance tracker_disk : HasDisk tracker :=
  {| get_disk := disk;
     set_disk d t := {| disk := d; tracking_data := tracking_data t |} |}.

#[export] Instance tracker_data : HasData tracker :=
  {| get_data := tracking_data;
     set_data d t := {| disk := disk t; tracking_data := d |} |}.

#[export] Instance locals_disk {L S} `{HasDisk S} : HasDisk (L * S) :=
  {| get_disk ls := get_disk (snd ls);
     set_disk d ls := (fst ls, set_disk d (snd ls)) |}.

#[export] Instance locals_data {L S} `{HasData S} : HasData (L * S) :=
  {| get_data ls := get_data (snd ls);
     set_data d ls := (fst ls, set_data d (snd ls)) |}.

(** Running a method body that has local variables [L]: the locals start
    at [l0] and their final value is returned. *)
Definition run_locals {L S} (l0 : L) (m : M (L * S) unit) : M S L :=
  fun s => let '(_, (l, s')) := m (l0, s) in (Ok l, s').

Fixpoint collect {S X Y} (xs : list X) (f : X -> M S (option Y)) : M S (list Y) :=
  match xs with
  | [] => ret []
  | x :: xs' =>
      let* o := f x in
      let* ys := collect xs' f in
      ret (match o with Some y => y :: ys | None => ys end)
  end.

(** ** Operating-system calls as computations *)

Section OS.
Context {S : Type} `{HasDisk S}.

Definition query {A} (f : fsys -> res A) : M S A := fun s => (f (get_disk s), s).

Definition update (f : fsys -> res fsys) : M S unit :=
  fun s =>
    match f (get_disk s) with
    | Ok d => (Ok tt, set_disk d s)
    | Raise e => (Raise e, s)
    end.

Definition os_exists (p : string) : M S bool := query (fun d => Ok (FS.path_exists d p)).
Definition os_getsize (p : string) : M S Z := query (fun d => FS.getsize d p).
Definition os_getmtime (p : string) : M S Z := query (fun d => FS.getmtime d p).
Definition os_read (p : string) : M S string := query (fun d => FS.read d p).
Definition os_listdir (p : string) : M S (list string) := query (fun d => FS.listdir d p).
Definition os_remove (p : string) : M S unit := update (fun d => FS.remove d p).
Definition os_write (mtime : Z) (p data : string) : M S unit :=
  update (fun d => FS.write mtime d p data).
Definition os_copy2 (src dst : string) : M S unit := update (fun d => FS.copy2 d src dst).
Definition os_rename (src dst : string) : M S unit := update (fun d => FS.rename d src dst).
Definition os_mkdir_p (now : Z) (p : string) : M S unit :=
  update (fun d => FS.mkdir_p (String.length p) now d p).

End OS.

Section Data.
Context {S : Type} `{HasData S}.

Definition read_data : M S TrackingData := fun s => (Ok (get_data s), s).

Definition modify_data (f : TrackingData -> TrackingData) : M S unit :=
  fun s => (Ok tt, set_data (f (get_data s)) s).

Definition set_last_updated (v : string) (d : TrackingData) : TrackingData :=
  {| version := version d; created := created d; last_updated := v;
     downloads := downloads d; statistics := statistics d |}.

Definition set_downloads (v : dict DownloadRecord) (d : TrackingData) : TrackingData :=
  {| version := version d; created := created d; last_updated := last_updated d;
     downloads := v; statistics := statistics d |}.

Definition set_statistics (v : Statistics) (d : TrackingData) : TrackingData :=
  {| version := version d; created := created d; last_updated := last_updated d;
     downloads := downloads d; statistics := v |}.

(** [del self.tracking_data['downloads'][edicto_id]] *)
Definition del_download (edicto_id : string) : M S unit :=
  let* d := read_data in
  let* ds := of_res (Dict.del edicto_id (downloads d)) in
  modify_data (set_downloads ds).

(** [self.tracking_data['downloads'][edicto_id] = record.to_dict()] *)
Definition set_download (edicto_id : string) (record : DownloadRecord) : M S unit :=
  modify_data (fun d => set_downloads (Dict.set edicto_id record (downloads d)) d).

End Data.

(** ** [class BOPMalagaTracker] *)

Section Tracker.
Context `{RT : PyRuntime}.
Variables tracking_file download_dir : string.

(** [self.backup_dir] *)
Definition backup_dir : string :=
  Path.join (Path.dirname tracking_file) "backups".

Definition _ensure_directories (now : Z) : M fsys unit :=
  for_each [download_dir; backup_dir; Path.dirname tracking_file]
    (fun directory =>
       if Str.truthy directory then os_mkdir_p now directory else ret tt).

Definition _create_empty_tracking_data (now : Z) : TrackingData :=
  {| version := "1.0";
     created := Some (isoformat now);
     last_updated := isoformat now;
     downloads := [];
     statistics :=
       {| total_downloads := 0;
          stat_total_size_mb := 0;
          last_cleanup := None;
          last_compression := None |} |}.

(** The record written for an id of the legacy list format. *)
Definition legacy_record (now : Z) (edicto_id : string) : DownloadRecord :=
  {| edicto_id := edicto_id;
     filename := edicto_id +:+ ".pdf";
     download_date := isoformat now;
     file_size := 0;
     file_path := Path.join download_dir (edicto_id +:+ ".pdf");
     checksum := None;
     compressed := false |}.

Definition _validate_and_migrate_data (now : Z) (data : Document) : TrackingData :=
  let version := match doc_version data with Some v => v | None => "1.0" end in
  let downloads := match doc_downloads data with Some d => d | None => DownloadsDict [] end in
  let statistics :=
    match doc_statistics data with
    | Some s => s
    | None =>
        {| total_downloads :=
             match downloads with
             | DownloadsDict d => Z.of_nat (length d)
             | DownloadsList l => Z.of_nat (length l)
             end;
           stat_total_size_mb := 0;
           last_cleanup := None;
           last_compression := None |}
    end in
  let downloads :=
    match downloads with
    | DownloadsDict d => d
    | DownloadsList old_downloads =>
        fold_left (fun d edicto_id => Dict.set edicto_id (legacy_record now edicto_id) d)
                  old_downloads []
    end in
  {| version := version;
     created := doc_created data;
     last_updated := isoformat now;
     downloads := downloads;
     statistics := statistics |}.

Definition corrupted_backup_path (now : Z) : string :=
  Path.join backup_dir ("corrupted_tracking_" +:+ strftime now +:+ ".json").

Definition load_tracking_data (now : Z) : M fsys TrackingData :=
  let* present := os_exists tracking_file in
  if negb present then ret (_create_empty_tracking_data now)
  else
    try_except
      (let* text := os_read tracking_file in
       let* data :=
         match json_load text with
         | Parsed doc => ret doc
         | DecodeError => raise JSONDecodeError
         | UnicodeError => raise UnicodeDecodeError
         end in
       ret (_validate_and_migrate_data now data))
      (fun e =>
         match e with
         | JSONDecodeError | FileNotFoundError =>
             let* present := os_exists tracking_file in
             (if present then os_copy2 tracking_file (corrupted_backup_path now)
              else ret tt) ;;
             ret (_create_empty_tracking_data now)
         | _ => raise e
         end).

(** [__init__]: the tracking data is loaded before the directories are
    created. *)
Definition init (now : Z) : M fsys tracker :=
  let* data := load_tracking_data now in
  _ensure_directories now ;;
  let* d := get in
  ret {| disk := d; tracking_data := data |}.

Definition is_backup_name (file : string) : bool :=
  Str.startswith file "tracking_backup_" && Str.endswith file ".json".

(** The body of the first loop of [_cleanup_old_backups]. *)
Definition backup_entry (file : string) : M tracker (option (string * Z)) :=
  if is_backup_name file then
    let file_path := Path.join backup_dir file in
    let* mtime := os_getmtime file_path in
    ret (Some (file_path, mtime))
  else ret None.

Definition _cleanup_old_backups (keep_count : nat) : M tracker unit :=
  try_except
    (let* files := os_listdir backup_dir in
     let* backup_files := collect files backup_entry in
     let sorted := stable_sort (fun a b => (snd b <? snd a)%Z) backup_files in
     for_each (drop keep_count sorted) (fun x => os_remove (fst x)))
    (fun _ => ret tt).

Definition backup_path (now : Z) : string :=
  Path.join backup_dir ("tracking_backup_" +:+ strftime now +:+ ".json").

Definition _create_backup (now : Z) : M tracker unit :=
  let* present := os_exists tracking_file in
  if negb present then ret tt
  else
    try_except
      (os_copy2 tracking_file (backup_path now) ;;
       _cleanup_old_backups 10)
      (fun _ => ret tt).

Definition temp_file : string := tracking_file +:+ ".tmp".

Definition save_tracking_data (now : Z) : M tracker unit :=
  try_except
    (modify_data (set_last_updated (isoformat now)) ;;
     _create_backup now ;;
     let* data := read_data in
     os_write now temp_file (json_dump data) ;;
     os_rename temp_file tracking_file)
    (fun e =>
       let* present := os_exists temp_file in
       (if present then os_remove temp_file else ret tt) ;;
       raise e).

Definition _calculate_checksum (file_path : string) : M tracker string :=
  try_except
    (let* content := os_read file_path in
     ret (sha256_hexdigest content))
    (fun _ => ret "").

Definition empty_stats : StorageStats :=
  {| total_files := 0; total_size_mb := 0; compressed_files := 0;
     compressed_size_mb := 0; oldest_file_date := None; newest_file_date := None |}.

Definition count_file (record : DownloadRecord) (stats : StorageStats) : StorageStats :=
  let file_size_mb := mb (file_size record) in
  {| total_files := total_files stats + 1;
     total_size_mb := total_size_mb stats + file_size_mb;
     compressed_files :=
       if compressed record then compressed_files stats + 1 else compressed_files stats;
     compressed_size_mb :=
       if compressed record then compressed_size_mb stats + file_size_mb
       else compressed_size_mb stats;
     oldest_file_date := oldest_file_date stats;
     newest_file_date := newest_file_date stats |}.

Definition set_dates (dates : list string) (stats : StorageStats) : StorageStats :=
  let sorted := stable_sort String.ltb dates in
  {| total_files := total_files stats;
     total_size_mb := total_size_mb stats;
     compressed_files := compressed_files stats;
     compressed_size_mb := compressed_size_mb stats;
     oldest_file_date := head sorted;
     newest_file_date := last sorted |}.

Definition get_storage_stats : M tracker StorageStats :=
  let* r :=
    run_locals (empty_stats, ([] : list string))
      (try_except
         (let* data := read_data in
          for_each (map snd (downloads data)) (fun record =>
            let* present := os_exists (file_path record) in
            if present then
              let* l := get_locals in
              set_locals (count_file record (fst l), (snd l ++ [download_date record])%list)
            else ret tt) ;;
          let* l := get_locals in
          match snd l with
          | [] => ret tt
          | download_dates => set_locals (set_dates download_dates (fst l), download_dates)
          end)
         (fun _ => ret tt)) in
  ret (fst r).

(** [datetime.fromisoformat(s.replace('Z', '+00:00'))] *)
Definition parse_date (s : string) : res datetime :=
  match fromisoformat (Str.replace_Z s) with
  | Some d => Ok d
  | None => Raise ValueError
  end.

(** Local variables of the two retention policies. *)
Record cleanup_locals : Type := mkCleanup {
  removed_count : Z;
  removed_size_mb : Q;
  current_size : Q }.

Definition subtract_removed (l : cleanup_locals) (s : Statistics) : Statistics :=
  {| total_downloads := total_downloads s - removed_count l;
     stat_total_size_mb := stat_total_size_mb s - removed_size_mb l;
     last_cleanup := last_cleanup s;
     last_compression := last_compression s |}.

Definition set_last_cleanup (v : string) (s : Statistics) : Statistics :=
  {| total_downloads := total_downloads s;
     stat_total_size_mb := stat_total_size_mb s;
     last_cleanup := Some v;
     last_compression := last_compression s |}.

Definition set_last_compression (v : string) (s : Statistics) : Statistics :=
  {| total_downloads := total_downloads s;
     stat_total_size_mb := stat_total_size_mb s;
     last_cleanup := last_cleanup s;
     last_compression := Some v |}.

(** The removal of one record, which the second loop of both retention
    policies performs with the same statements: the file of the record is
    deleted if present and its on-disk size is added to [removed_size_mb]
    and taken from [current_size]; then the record is dropped from the
    store and counted.  [cleanup_old_files] has no [current_size]; the
    field is never read there. *)
Definition remove_record (edicto_id : string) (record : DownloadRecord)
  : M (cleanup_locals * tracker) unit :=
  let* present := os_exists (file_path record) in
  (if present then
     let* size := os_getsize (file_path record) in
     let file_size_mb := mb size in
     os_remove (file_path record) ;;
     let* l := get_locals in
     set_locals {| removed_count := removed_count l;
                   removed_size_mb := removed_size_mb l + file_size_mb;
                   current_size := current_size l - file_size_mb |}
   else ret tt) ;;
  del_download edicto_id ;;
  let* l := get_locals in
  set_locals {| removed_count := removed_count l + 1;
                removed_size_mb := removed_size_mb l;
                current_size := current_size l |}.

(** The body of the first loop of [cleanup_old_files]: a record is
    selected when its date is before the cutoff. *)
Definition select_old (cutoff_date : datetime) (item : string * DownloadRecord)
  : M (cleanup_locals * tracker) (option (string * DownloadRecord)) :=
  let* download_date := of_res (parse_date (download_date (snd item))) in
  let* old := of_res (dt_lt download_date cutoff_date) in
  ret (if old : bool then Some item else None).

(** The [try] block of [cleanup_old_files]. *)
Definition cleanup_old_files_try (now : Z) (cutoff_date : datetime)
  : M (cleanup_locals * tracker) unit :=
  let* data := read_data in
  let* to_remove := collect (downloads data) (select_old cutoff_date) in
  for_each to_remove (fun item => remove_record (fst item) (snd item)) ;;
  let* l := get_locals in
  modify_data (fun d =>
    set_statistics
      (subtract_removed l (set_last_cleanup (isoformat now) (statistics d))) d).

(** The cutoff is computed before the [try] block: an exception of that
    computation reaches the caller. *)
Definition cleanup_old_files (now max_age_days : Z) : M tracker (Z * Q) :=
  let* cutoff := of_res (minus_days now max_age_days) in
  let cutoff_date := Naive cutoff in
  let* l :=
    run_locals {| removed_count := 0; removed_size_mb := 0; current_size := 0 |}
      (try_except (cleanup_old_files_try now cutoff_date) (fun _ => ret tt)) in
  ret (removed_count l, removed_size_mb l).

(** The body of the first loop of [cleanup_by_storage_limit]. *)
Definition select_existing (item : string * DownloadRecord)
  : M (cleanup_locals * tracker) (option (datetime * (string * DownloadRecord))) :=
  let* present := os_exists (file_path (snd item)) in
  if present : bool then
    let* download_date := of_res (parse_date (download_date (snd item))) in
    ret (Some (download_date, item))
  else ret None.

(** The body of the second loop of [cleanup_by_storage_limit]. *)
Definition evict (max_storage_mb : Q) (x : datetime * (string * DownloadRecord))
  : M (cleanup_locals * tracker) ctl :=
  let* l := get_locals in
  if Qle_bool (current_size l) max_storage_mb then ret Break
  else
    remove_record (fst (snd x)) (snd (snd x)) ;;
    ret Next.

(** The [try] block of [cleanup_by_storage_limit]. *)
Definition cleanup_by_storage_limit_try (max_storage_mb : Q)
  : M (cleanup_locals * tracker) unit :=
  let* data := read_data in
  let* records_with_dates := collect (downloads data) select_existing in
  let* sorted := of_res (sort_by_date records_with_dates) in
  for_break sorted (evict max_storage_mb) ;;
  let* l := get_locals in
  modify_data (fun d => set_statistics (subtract_removed l (statistics d)) d).

Definition cleanup_by_storage_limit (max_storage_mb : Q) : M tracker (Z * Q) :=
  let* current_stats := get_storage_stats in
  if Qle_bool (total_size_mb current_stats) max_storage_mb then ret (0%Z, 0%Q)
  else
    let* l :=
      run_locals {| removed_count := 0; removed_size_mb := 0;
                    current_size := total_size_mb current_stats |}
        (try_except (cleanup_by_storage_limit_try max_storage_mb) (fun _ => ret tt)) in
    ret (removed_count l, removed_size_mb l).

Definition compress_record (record : DownloadRecord) (compressed_path : string)
    (compressed_size : Z) : DownloadRecord :=
  {| edicto_id := edicto_id record;
     filename := filename record;
     download_date := download_date record;
     file_size := compressed_size;
     file_path := compressed_path;
     checksum := checksum record;
     compressed := true |}.

(** The body of the loop of [compress_old_files]; the locals are
    [(compressed_count, space_saved_mb)]. *)
Definition compress_step (now : Z) (cutoff_date : datetime)
    (item : string * DownloadRecord) : M ((Z * Q) * tracker) unit :=
  let edicto_id := fst item in
  let record := snd item in
  let* present := os_exists (file_path record) in
  if compressed record || negb present then ret tt
  else
    let* download_date := of_res (parse_date (download_date record)) in
    let* old := of_res (dt_lt download_date cutoff_date) in
    if old : bool then
      let compressed_path := file_path record +:+ ".gz" in
      let* original_size := os_getsize (file_path record) in
      let* content := os_read (file_path record) in
      os_write now compressed_path (gzip_compress content) ;;
      let* written := os_exists compressed_path in
      if written : bool then
        let* compressed_size := os_getsize compressed_path in
        let space_saved := mb (original_size - compressed_size) in
        os_remove (file_path record) ;;
        set_download edicto_id
          (compress_record record compressed_path compressed_size) ;;
        let* l := get_locals in
        set_locals ((fst l + 1)%Z, (snd l + space_saved)%Q)
      else ret tt
    else ret tt.

(** The [try] block of [compress_old_files]. *)
Definition compress_old_files_try (now : Z) (cutoff_date : datetime)
  : M ((Z * Q) * tracker) unit :=
  let* data := read_data in
  for_each (downloads data) (compress_step now cutoff_date) ;;
  let* l := get_locals in
  if (0 <? fst l)%Z then
    modify_data (fun d =>
      set_statistics (set_last_compression (isoformat now) (statistics d)) d)
  else ret tt.

(** As in [cleanup_old_files], the cutoff is computed before the [try]
    block. *)
Definition compress_old_files (now compress_age_days : Z) : M tracker (Z * Q) :=
  let* cutoff := of_res (minus_days now compress_age_days) in
  let cutoff_date := Naive cutoff in
  run_locals (0%Z, 0%Q)
    (try_except (compress_old_files_try now cutoff_date) (fun _ => ret tt)).

(** The body of the loop of [verify_files]; the locals are
    [(missing_files, corrupted_files)]. *)
Definition verify_step (item : string * DownloadRecord)
  : M ((list string * list string) * tracker) unit :=
  let edicto_id := fst item in
  let record := snd item in
  let* present := os_exists (file_path record) in
  if negb present then
    let* l := get_locals in
    set_locals ((fst l ++ [edicto_id])%list, snd l)
  else
    match checksum record with
    | Some recorded =>
        if Str.truthy recorded then
          if compressed record && Str.endswith (file_path record) ".gz"
          then ret tt
          else
            let* current_checksum := lift (_calculate_checksum (file_path record)) in
            if negb (String.eqb current_checksum recorded) then
              let* l := get_locals in
              set_locals (fst l, (snd l ++ [edicto_id])%list)
            else ret tt
        else ret tt
    | None => ret tt
    end.

Definition verify_files : M tracker (list string * list string) :=
  run_locals (([] : list string), ([] : list string))
    (try_except
       (let* data := read_data in
        for_each (downloads data) verify_step)
       (fun _ => ret tt)).

(** [statistics['total_downloads'] += 1] and
    [statistics['total_size_mb'] += file_size / (1024 * 1024)] *)
Definition count_download (file_size : Z) (s : Statistics) : Statistics :=
  {| total_downloads := total_downloads s + 1;
     stat_total_size_mb := stat_total_size_mb s + mb file_size;
     last_cleanup := last_cleanup s;
     last_compression := last_compression s |}.

Definition add_download (now : Z) (edicto_id filename file_path : string)
  : M tracker bool :=
  try_except
    (let* data := read_data in
     if Dict.mem edicto_id (downloads data) then ret false
     else
       let* present := os_exists file_path in
       let* info :=
         if present : bool then
           let* file_size := os_getsize file_path in
           let* checksum := _calculate_checksum file_path in
           ret (file_size, Some checksum)
         else ret (0, None) in
       let record :=
         {| edicto_id := edicto_id;
            filename := filename;
            download_date := isoformat now;
            file_size := fst info;
            file_path := file_path;
            checksum := snd info;
            compressed := false |} in
       set_download edicto_id record ;;
       modify_data (fun d => set_statistics (count_download (fst info) (statistics d)) d) ;;
       ret true)
    (fun _ => ret false).

Definition is_downloaded (edicto_id : string) : M tracker bool :=
  let* data := read_data in
  ret (Dict.mem edicto_id (downloads data)).

Definition get_downloaded_ids : M tracker (gset string) :=
  let* data := read_data in
  ret (list_to_set (Dict.keys (downloads data))).

(** A stored record is a dictionary with seven keys, hence true as a
    condition: [None] is returned for an id that is not tracked only. *)
Definition get_download_record (edicto_id : string) : M tracker (option DownloadRecord) :=
  let* data := read_data in
  ret (Dict.get edicto_id (downloads data)).

Definition get_summary_report : M tracker SummaryReport :=
  let* stats := get_storage_stats in
  let* verified := verify_files in
  let missing := fst verified in
  let corrupted := snd verified in
  let* data := read_data in
  ret {| report_tracking_file := tracking_file;
         download_directory := download_dir;
         total_tracked_downloads := Z.of_nat (length (downloads data));
         storage_stats := stats;
         file_integrity :=
           {| missing_files := Z.of_nat (length missing);
              corrupted_files := Z.of_nat (length corrupted);
              missing_file_ids := take 10 missing;
              corrupted_file_ids := take 10 corrupted |};
         report_last_updated := Some (last_updated data);
         report_last_cleanup := last_cleanup (statistics data);
         report_last_compression := last_compression (statistics data) |}.

End Tracker.

(** ** The command line ([main])

    The parsed arguments are the record [Args].  What [main] prints is
    kept as a list of [Output] values that carry the numbers of the
    printed lines; the layout of the lines is not modelled.  The instants
    at which the constructor and the passes read the clock are the fields
    of [Clock]. *)

Record Args : Type := mkArgs {
  args_tracking_file : string;
  args_download_dir : string;
  cleanup_days : Z;
  compress_days : Z;
  max_storage_mb : Q;
  verify : bool;
  report : bool;
  cleanup : bool }.

Record Clock : Type := mkClock {
  at_init : Z;
  at_cleanup : Z;
  at_compress : Z;
  at_save : Z }.

Inductive Output : Type :=
  | VerificationComplete (missing corrupted : Z)
  | CleanupComplete (removed_old : Z) (size_old : Q)
      (removed_storage : Z) (size_storage : Q) (compressed_count : Z) (space_saved : Q)
  | Report (r : SummaryReport)
  | Error (e : exn).

Section Main.
Context `{RT : PyRuntime}.

Definition print {S} (o : Output) : M (list Output * S) unit :=
  fun ls => (Ok tt, ((fst ls ++ [o])%list, snd ls)).

(** The [try] block of [main]. *)
Definition main_try (clock : Clock) (args : Args) : M (list Output * tracker) unit :=
  let tracking_file := args_tracking_file args in
  let download_dir := args_download_dir args in
  (if verify args then
     let* verified := lift verify_files in
     print (VerificationComplete (Z.of_nat (length (fst verified)))
                                 (Z.of_nat (length (snd verified))))
   else ret tt) ;;
  (if cleanup args then
     let* old := lift (cleanup_old_files (at_cleanup clock) (cleanup_days args)) in
     let* storage := lift (cleanup_by_storage_limit (max_storage_mb args)) in
     let* packed := lift (compress_old_files (at_compress clock) (compress_days args)) in
     print (CleanupComplete (fst old) (snd old) (fst storage) (snd storage)
                            (fst packed) (snd packed)) ;;
     lift (save_tracking_data tracking_file (at_save clock))
   else ret tt) ;;
  (if report args then
     let* r := lift (get_summary_report tracking_file download_dir) in
     print (Report r)
   else ret tt).

(** [main]: the exit status and the output, with the disk that is left.
    An exception of the constructor is not caught. *)
Definition main (clock : Clock) (args : Args) : M fsys (Z * list Output) :=
  fun fs =>
    match init (args_tracking_file args) (args_download_dir args) (at_init clock) fs with
    | (Raise e, fs') => (Raise e, fs')
    | (Ok tracker, fs') =>
        match main_try clock args ([], tracker) with
        | (Ok _, (out, t)) => (Ok (0, out), disk t)
        | (Raise e, (out, t)) => (Ok (1, (out ++ [Error e])%list), disk t)
        end
    end.

End Main.

(** ** A concrete runtime

    Used to run the tracker on concrete inputs.  Timestamps follow
    [datetime]: [fromisoformat] reads [YYYY-MM-DDTHH:MM:SS], an optional
    [.ffffff] and an optional UTC offset [+HH:MM] or [-HH:MM]. *)

Module Demo.

Definition digit_of (c : ascii) : option Z :=
  let n := Z.of_nat (nat_of_ascii c) in
  if (48 <=? n)%Z && (n <=? 57)%Z then Some (n - 48) else None.

(** Reads exactly [width] decimal digits. *)
Fixpoint read_digits (width : nat) (acc : Z) (s : string) : option (Z * string) :=
  match width with
  | O => Some (acc, s)
  | S w =>
      match s with
      | String c s' =>
          match digit_of c with
          | Some d => read_digits w (acc * 10 + d) s'
          | None => None
          end
      | EmptyString => None
      end
  end.

Definition read_char (c : ascii) (s : string) : option string :=
  match s with
  | String c' s' => if Ascii.eqb c c' then Some s' else None
  | EmptyString => None
  end.

(** Days since 1970-01-01 of a date of the proleptic Gregorian calendar. *)
Definition days_from_civil (y m d : Z) : Z :=
  let y := if (m <=? 2)%Z then y - 1 else y in
  let era := y / 400 in
  let yoe := y - era * 400 in
  let doy := (153 * (if (2 <? m)%Z then m - 3 else m + 9) + 2) / 5 + d - 1 in
  let doe := yoe * 365 + yoe / 4 - yoe / 100 + doy in
  era * 146097 + doe - 719468.

Definition civil_from_days (z : Z) : Z * Z * Z :=
  let z := z + 719468 in
  let era := z / 146097 in
  let doe := z - era * 146097 in
  let yoe := (doe - doe / 1460 + doe / 36524 - doe / 146096) / 365 in
  let doy := doe - (365 * yoe + yoe / 4 - yoe / 100) in
  let mp := (5 * doy + 2) / 153 in
  let d := doy - (153 * mp + 2) / 5 + 1 in
  let m := if (mp <? 10)%Z then mp + 3 else mp - 9 in
  let y := yoe + era * 400 in
  ((if (m <=? 2)%Z then y + 1 else y), m, d).

Definition valid_date (y m d : Z) : bool :=
  (1 <=? y)%Z && (1 <=? m)%Z && (m <=? 12)%Z && (1 <=? d)%Z &&
  match civil_from_days (days_from_civil y m d) with
  | (y', m', d') => (y' =? y)%Z && (m' =? m)%Z && (d' =? d)%Z
  end.

Definition micros (days h mi s us : Z) : Z :=
  (((days * 24 + h) * 60 + mi) * 60 + s) * 1000000 + us.

Definition read_fraction (s : string) : option (Z * string) :=
  match read_char "." s with
  | Some s' => read_digits 6 0 s'
  | None => Some (0, s)
  end.

Definition read_offset (s : string) : option (option Z) :=
  match s with
  | EmptyString => Some None
  | String c s' =>
      let sign :=
        if Ascii.eqb c "+" then Some 1
        else if Ascii.eqb c "-" then Some (-1) else None in
      match sign, read_digits 2 0 s' with
      | Some sg, Some (h, s1) =>
          match read_char ":" s1 with
          | Some s2 =>
              match read_digits 2 0 s2 with
              | Some (mi, EmptyString) =>
                  if (h <? 24)%Z && (mi <? 60)%Z
                  then Some (Some (sg * (h * 60 + mi) * 60000000))
                  else None
              | _ => None
              end
          | None => None
          end
      | _, _ => None
      end
  end.

Definition demo_fromisoformat (s : string) : option datetime :=
  match read_digits 4 0 s with
  | Some (y, s) =>
  match read_char "-" s with
  | Some s =>
  match read_digits 2 0 s with
  | Some (m, s) =>
  match read_char "-" s with
  | Some s =>
  match read_digits 2 0 s with
  | Some (d, s) =>
  match read_char "T" s with
  | Some s =>
  match read_digits 2 0 s with
  | Some (h, s) =>
  match read_char ":" s with
  | Some s =>
  match read_digits 2 0 s with
  | Some (mi, s) =>
  match read_char ":" s with
  | Some s =>
  match read_digits 2 0 s with
  | Some (sec, s) =>
  match read_fraction s with
  | Some (us, s) =>
      if valid_date y m d && (h <? 24)%Z && (mi <? 60)%Z && (sec <? 60)%Z then
        let local := micros (days_from_civil y m d) h mi sec us in
        match read_offset s with
        | Some None => Some (Naive local)
        | Some (Some off) => Some (Aware (local - off))
        | None => None
        end
      else None
  | None => None end
  | None => None end
  | None => None end
  | None => None end
  | None => None end
  | None => None end
  | None => None end
  | None => None end
  | None => None end
  | None => None end
  | None => None end
  | None => None end.

Definition digit_char (n : Z) : ascii := ascii_of_nat (Z.to_nat (48 + n mod 10)).

(** [n] in decimal, zero-padded to [width] digits. *)
Fixpoint pad (width : nat) (n : Z) : string :=
  match width with
  | O => EmptyString
  | S w => pad w (n / 10) +:+ String (digit_char n) EmptyString
  end.

Definition demo_isoformat (t : Z) : string :=
  let us := t mod 1000000 in
  let secs := t / 1000000 in
  let days := secs / 86400 in
  let rest := secs mod 86400 in
  match civil_from_days days with
  | (y, m, d) =>
      pad 4 y +:+ "-" +:+ pad 2 m +:+ "-" +:+ pad 2 d +:+ "T" +:+
      pad 2 (rest / 3600) +:+ ":" +:+ pad 2 (rest / 60 mod 60) +:+ ":" +:+
      pad 2 (rest mod 60) +:+
      (if (us =? 0)%Z then EmptyString else "." +:+ pad 6 us)
  end.

Definition demo_strftime (t : Z) : string :=
  let secs := t / 1000000 in
  let days := secs / 86400 in
  let rest := secs mod 86400 in
  match civil_from_days days with
  | (y, m, d) =>
      pad 4 y +:+ pad 2 m +:+ pad 2 d +:+ "_" +:+
      pad 2 (rest / 3600) +:+ pad 2 (rest / 60 mod 60) +:+ pad 2 (rest mod 60)
  end.

(** The instant of a naive timestamp. *)
Definition at_time (s : string) : Z :=
  match demo_fromisoformat s with
  | Some d => instant d
  | None => 0
  end.

(** A rendering of a store as text.  It stands for the JSON text: it
    lists the timestamps and, per record, id, path, size and flag. *)
Definition render_record (kv : string * DownloadRecord) : string :=
  "[" +:+ fst kv +:+ "|" +:+ filename (snd kv) +:+ "|" +:+ download_date (snd kv) +:+ "|" +:+
  pad 12 (file_size (snd kv)) +:+ "|" +:+ file_path (snd kv) +:+ "|" +:+
  match checksum (snd kv) with Some c => c | None => "null" end +:+ "|" +:+
  (if compressed (snd kv) then "true" else "false") +:+ "]".

Definition demo_dump (d : TrackingData) : string :=
  "{" +:+ version d +:+ "|" +:+ last_updated d +:+ "|" +:+
  String.concat "," (map render_record (downloads d)) +:+ "|" +:+
  pad 12 (total_downloads (statistics d)) +:+ "}".

(** A parser that knows the texts of the stores in [known] and rejects
    every other text. *)
Fixpoint demo_load (known : list TrackingData) (text : string) : parse_result :=
  match known with
  | [] => DecodeError
  | d :: known' =>
      if String.eqb text (demo_dump d) then Parsed (document_of d)
      else demo_load known' text
  end.

Definition runtime (known : list TrackingData) : PyRuntime :=
  {| json_dump := demo_dump;
     json_load := demo_load known;
     fromisoformat := demo_fromisoformat;
     isoformat := demo_isoformat;
     strftime := demo_strftime;
     sha256_hexdigest := fun data => "sha256:" +:+ data;
     gzip_compress := fun data => "gz:" +:+ data |}.

End Demo.

(** ** Specification-level notions *)

Section Notions.
Context `{RT : PyRuntime}.

(** What [_calculate_checksum] returns for a path: the digest of the
    content, or the empty string when the path cannot be read. *)
Definition checksum_of (fs : fsys) (p : string) : string :=
  match FS.read fs p with
  | Ok data => sha256_hexdigest data
  | Raise _ => EmptyString
  end.

(** The file of the record does not exist. *)
Definition is_missing (fs : fsys) (r : DownloadRecord) : bool :=
  negb (FS.path_exists fs (file_path r)).

(** The record is one that [verify_files] compares and the recomputed
    checksum differs from the recorded one. *)
Definition is_corrupted (fs : fsys) (r : DownloadRecord) : bool :=
  FS.path_exists fs (file_path r) &&
  match checksum r with
  | Some c =>
      Str.truthy c &&
      negb (compressed r && Str.endswith (file_path r) ".gz") &&
      negb (String.eqb (checksum_of fs (file_path r)) c)
  | None => false
  end.

End Notions.

(** A path lies under a prefix. *)
Definition under (prefix p : string) : Prop := exists rest, p = prefix +:+ rest.

(** Two disks agree on every path that is not under [prefix]. *)
Definition agree_outside (prefix : string) (fs fs' : fsys) : Prop :=
  forall p, ~ under prefix p -> fs' !! p = fs !! p.

(** What a backup step may change: files under the backup directory. *)
Definition backup_effect (tracking_file : string) (t t' : tracker) : Prop :=
  tracking_data t' = tracking_data t /\
  agree_outside (backup_dir tracking_file +:+ "/") (disk t) (disk t').

Section SaveNotions.
Context `{RT : PyRuntime}.
Variable tracking_file : string.

(** The tracker after [last_updated] has been rewritten. *)
Definition stamped (now : Z) (t : tracker) : tracker :=
  {| disk := disk t;
     tracking_data := set_last_updated (isoformat now) (tracking_data t) |}.

(** The state in which [save_tracking_data] writes the temporary file. *)
Definition prepared (now : Z) (t : tracker) : tracker :=
  snd (_create_backup tracking_file now (stamped now t)).

(** Writing the temporary file or replacing the tracking file fails. *)
Definition write_or_replace_fails (now : Z) (t : tracker) : bool :=
  let t1 := prepared now t in
  match FS.write now (disk t1) (temp_file tracking_file) (json_dump (tracking_data t1)) with
  | Raise _ => true
  | Ok d => negb (is_ok (FS.rename d (temp_file tracking_file) tracking_file))
  end.

(** What the [except] clause of [save_tracking_data] does. *)
Definition save_handler (e : exn) (s : tracker) : res unit * tracker :=
  if FS.path_exists (disk s) (temp_file tracking_file) then
    match FS.remove (disk s) (temp_file tracking_file) with
    | Ok d => (Raise e, {| disk := d; tracking_data := tracking_data s |})
    | Raise e' => (Raise e', s)
    end
  else (Raise e, s).

End SaveNotions.

(** Bytes held by regular files. *)
Definition node_bytes (n : node) : Z :=
  match n with
  | File data _ => Z.of_nat (String.length data)
  | Dir _ => 0
  end.

Definition used_bytes (fs : fsys) : Z :=
  map_fold (fun _ n acc => acc + node_bytes n)%Z 0%Z fs.

(** The state after the record [id] has been dropped from the store. *)
Definition without_record (id : string) (t : tracker) : tracker :=
  {| disk := disk t;
     tracking_data :=
       set_downloads (Dict.remove id (downloads (tracking_data t))) (tracking_data t) |}.

Definition without_file (p : string) (t : tracker) : tracker :=
  {| disk := delete p (disk t); tracking_data := tracking_data t |}.

Definition count_one (l : cleanup_locals) : cleanup_locals :=
  {| removed_count := removed_count l + 1;
     removed_size_mb := removed_size_mb l;
     current_size := current_size l |}.

Definition count_size (size : Z) (l : cleanup_locals) : cleanup_locals :=
  {| removed_count := removed_count l;
     removed_size_mb := removed_size_mb l + mb size;
     current_size := current_size l - mb size |}.

(** Dropping the record [id] from the store of [t] and counting it. *)
Definition drop_record (id : string) (l : cleanup_locals) (t : tracker)
  : res unit * (cleanup_locals * tracker) :=
  if Dict.mem id (downloads (tracking_data t))
  then (Ok tt, (count_one l, without_record id t))
  else (Raise KeyError, (l, t)).

(** Initial local variables of a retention pass. *)
Definition no_removals (size : Q) : cleanup_locals :=
  {| removed_count := 0; removed_size_mb := 0; current_size := size |}.

(** The computation returns without raising. *)
Definition completes {S A} (m : M S A) (s : S) : bool := is_ok (fst (m s)).

(** The facts that hold after a loop of [remove_record] over the
    selected records of a store has run to its end. *)
Record removal_facts (P : string * DownloadRecord -> bool)
    (l : cleanup_locals) (t : tracker) (l' : cleanup_locals) (t' : tracker) : Prop := {
  rf_data :
    tracking_data t' =
    set_downloads (List.filter (fun y => negb (P y)) (downloads (tracking_data t)))
      (tracking_data t);
  rf_count :
    removed_count l' =
    (removed_count l + Z.of_nat (length (List.filter P (downloads (tracking_data t)))))%Z;
  rf_size :
    (removed_size_mb l' ==
     removed_size_mb l + mb (used_bytes (disk t) - used_bytes (disk t')))%Q;
  rf_current :
    (current_size l' ==
     current_size l - mb (used_bytes (disk t) - used_bytes (disk t')))%Q;
  rf_frame : forall p, disk t' !! p = disk t !! p \/ disk t' !! p = None;
  rf_deleted :
    forall x, In x (List.filter P (downloads (tracking_data t))) ->
              disk t' !! file_path (snd x) = None }.

(** The size that [get_storage_stats] reports: the recorded sizes of the
    records whose file exists. *)
Fixpoint live_size (fs : fsys) (ds : dict DownloadRecord) : Q :=
  match ds with
  | [] => 0
  | item :: ds' =>
      (if FS.path_exists fs (file_path (snd item)) then mb (file_size (snd item)) else 0)
      + live_size fs ds'
  end.


(** From [t] to [t'] nothing was added or rewritten: the store differs
    at most in [downloads], which lost records, and the disk lost files. *)
Definition only_removes (t t' : tracker) : Prop :=
  set_downloads (downloads (tracking_data t)) (tracking_data t') = tracking_data t /\
  (forall item, In item (downloads (tracking_data t')) ->
                In item (downloads (tracking_data t))) /\
  (forall p, disk t' !! p = disk t !! p \/ disk t' !! p = None).


(** The key of a candidate of the capacity policy. *)
Definition candidate_key (x : datetime * (string * DownloadRecord)) : string :=
  fst (snd x).


Section RetentionNotions.
Context `{RT : PyRuntime}.

(** The date of the record can be compared with the cutoff. *)
Definition comparable (cutoff : datetime) (r : DownloadRecord) : bool :=
  match parse_date (download_date r) with
  | Ok d => is_ok (dt_lt d cutoff)
  | Raise _ => false
  end.

(** The date of the record is before the cutoff. *)
Definition older_than (cutoff : datetime) (r : DownloadRecord) : bool :=
  match parse_date (download_date r) with
  | Ok d => match dt_lt d cutoff with Ok b => b | Raise _ => false end
  | Raise _ => false
  end.

(** The record is one that [compress_old_files] compresses: it is not
    compressed, its path holds a regular file, and its date is before
    the cutoff. *)
Definition eligible (cutoff : datetime) (fs : fsys) (r : DownloadRecord) : bool :=
  negb (compressed r) && FS.is_file fs (file_path r) && older_than cutoff r.

(** The disk after the file at [p] has been replaced by its compressed
    form. *)
Definition compressed_disk (now : Z) (p content : string) (fs : fsys) : fsys :=
  delete p (<[p +:+ ".gz" := File (gzip_compress content) now]> fs).

(** The record after compression of its file with the given content. *)
Definition compressed_record (r : DownloadRecord) (content : string) : DownloadRecord :=
  compress_record r (file_path r +:+ ".gz")
    (Z.of_nat (String.length (gzip_compress content))).

(** The date of the record parses to a timestamp without a time zone. *)
Definition naive_date (r : DownloadRecord) : Prop :=
  exists t, parse_date (download_date r) = Ok (Naive t).

(** What one step of the compression loop needs in order not to raise:
    the record is compressed already, or its date can be compared with
    the cutoff, its path is no directory, and its compressed path can be
    written. *)
Definition step_ready (cutoff : datetime) (fs : fsys) (r : DownloadRecord) : Prop :=
  compressed r = true \/
  (comparable cutoff r = true /\
   FS.is_dir fs (file_path r) = false /\
   FS.is_dir fs (file_path r +:+ ".gz") = false /\
   FS.parent_check fs (file_path r +:+ ".gz") = Ok tt).

(** The two disks have the same directories. *)
Definition same_dirs (fs fs' : fsys) : Prop :=
  forall q, FS.is_dir fs' q = FS.is_dir fs q.

(** The live size as [get_storage_stats] computes it. *)
Definition storage_total (t : tracker) : Q :=
  match fst (get_storage_stats t) with
  | Ok stats => total_size_mb stats
  | Raise _ => 0
  end.

End RetentionNotions.

(** ** Concrete inputs *)

Module Scenario.

Definition now : Z := Demo.at_time "2025-03-01T12:00:00".

Definition record (id date path : string) (size : Z) : DownloadRecord :=
  {| edicto_id := id; filename := id +:+ ".pdf"; download_date := date;
     file_size := size; file_path := path; checksum := None; compressed := false |}.

Definition store (ds : dict DownloadRecord) : TrackingData :=
  {| version := "1.0";
     created := Some "2025-01-01T00:00:00";
     last_updated := "2025-02-28T00:00:00";
     downloads := ds;
     statistics :=
       {| total_downloads := Z.of_nat (length ds); stat_total_size_mb := 0;
          last_cleanup := None; last_compression := None |} |}.

(** A compressed record whose path does not end in [.gz] and whose file
    no longer has the recorded content. *)
Definition c6_record : DownloadRecord :=
  {| edicto_id := "A"; filename := "A.pdf"; download_date := "2025-02-01T00:00:00";
     file_size := 7; file_path := "downloads/A.pdf";
     checksum := Some "sha256:original"; compressed := true |}.

Definition c6_tracker : tracker :=
  {| disk := list_to_map [("downloads", Dir 0); ("downloads/A.pdf", File "changed" 1)];
     tracking_data := store [("A", c6_record)] |}.

(** Three records: the first file is missing, the second is intact, the
    third has been modified. *)
Definition verify_tracker : tracker :=
  {| disk := list_to_map [("downloads", Dir 0);
                          ("downloads/B.pdf", File "bbb" 1);
                          ("downloads/C.pdf", File "cc!" 1)];
     tracking_data :=
       store [("A", record "A" "2025-02-01T00:00:00" "downloads/A.pdf" 5);
              ("B", {| edicto_id := "B"; filename := "B.pdf";
                       download_date := "2025-02-01T00:00:00"; file_size := 3;
                       file_path := "downloads/B.pdf";
                       checksum := Some "sha256:bbb"; compressed := false |});
              ("C", {| edicto_id := "C"; filename := "C.pdf";
                       download_date := "2025-02-01T00:00:00"; file_size := 2;
                       file_path := "downloads/C.pdf";
                       checksum := Some "sha256:cc"; compressed := false |})] |}.

(** First run with a damaged tracking file: the backups directory has
    not been created yet. *)
Definition first_run_disk : fsys :=
  list_to_map [(".", Dir 0); ("./tracking.json", File "{ damaged" 10)].

(** The same with the backups directory present. *)
Definition later_run_disk : fsys :=
  list_to_map [(".", Dir 0); ("./backups", Dir 0);
               ("./tracking.json", File "{ damaged" 10)].

Definition two_records : dict DownloadRecord :=
  [("A", record "A" "2025-01-20T08:00:00" "./downloads/A.pdf" 5);
   ("B", record "B" "2025-02-20T08:00:00" "./downloads/B.pdf" 3)].

(** A tracker whose tracking file lives in a directory that no longer
    exists, so that the temporary file cannot be written. *)
Definition unwritable_tracker : tracker :=
  {| disk := list_to_map [("downloads", Dir 0)];
     tracking_data := store two_records |}.

(** A tracker in its working directory. *)
Definition saving_tracker : tracker :=
  {| disk := list_to_map [(".", Dir 0); ("./backups", Dir 0); ("./downloads", Dir 0);
                          ("./downloads/A.pdf", File "aaaaa" 1);
                          ("./downloads/B.pdf", File "bbb" 2)];
     tracking_data := store two_records |}.

(** The store that [save_tracking_data] writes for [saving_tracker]. *)
Definition saved_store : TrackingData :=
  set_last_updated (Demo.demo_isoformat now) (store two_records).

(** A record with a UTC timestamp that is three months old. *)
Definition aware_tracker : tracker :=
  {| disk := list_to_map [("downloads", Dir 0); ("downloads/A.pdf", File "aaaaa" 1)];
     tracking_data :=
       store [("A", record "A" "2024-12-01T10:00:00Z" "downloads/A.pdf" 5)] |}.

(** Records that are 40, 20 and 2 days old.  The file of the first one
    holds 5 bytes although 9 are recorded. *)
Definition aged_records : dict DownloadRecord :=
  [("A", record "A" "2025-01-20T12:00:00" "downloads/A.pdf" 9);
   ("B", record "B" "2025-02-09T12:00:00" "downloads/B.pdf" 3);
   ("C", record "C" "2025-02-27T12:00:00" "downloads/C.pdf" 2)].

Definition aged_tracker : tracker :=
  {| disk := list_to_map [("downloads", Dir 0);
                          ("downloads/A.pdf", File "aaaaa" 1);
                          ("downloads/B.pdf", File "bbb" 2);
                          ("downloads/C.pdf", File "cc" 3)];
     tracking_data := store aged_records |}.

(** Records that are 40, 20 and 2 days old, with files of 5, 3 and 2
    bytes, as recorded. *)
Definition sized_records : dict DownloadRecord :=
  [("A", record "A" "2025-01-20T12:00:00" "downloads/A.pdf" 5);
   ("B", record "B" "2025-02-09T12:00:00" "downloads/B.pdf" 3);
   ("C", record "C" "2025-02-27T12:00:00" "downloads/C.pdf" 2)].

Definition sized_tracker : tracker :=
  {| disk := list_to_map [("downloads", Dir 0);
                          ("downloads/A.pdf", File "aaaaa" 1);
                          ("downloads/B.pdf", File "bbb" 2);
                          ("downloads/C.pdf", File "cc" 3)];
     tracking_data := store sized_records |}.





(** The first record carries a date in a format that is not ISO 8601;
    the second one is an old, uncompressed record whose file exists. *)
Definition undated_records : dict DownloadRecord :=
  [("A", record "A" "01/12/2024" "downloads/A.pdf" 5);
   ("B", record "B" "2025-01-20T12:00:00" "downloads/B.pdf" 3)].

Definition undated_tracker : tracker :=
  {| disk := list_to_map [("downloads", Dir 0);
                          ("downloads/A.pdf", File "aaaaa" 1);
                          ("downloads/B.pdf", File "bbb" 2)];
     tracking_data := store undated_records |}.

(** Records that are 5, 10 and 1 days old, in this order in the store,
    with files of 2 bytes each. *)
Definition shuffled_records : dict DownloadRecord :=
  [("F", record "F" "2025-02-24T12:00:00" "downloads/F.pdf" 2);
   ("T", record "T" "2025-02-19T12:00:00" "downloads/T.pdf" 2);
   ("O", record "O" "2025-02-28T12:00:00" "downloads/O.pdf" 2)].

Definition shuffled_tracker : tracker :=
  {| disk := list_to_map [("downloads", Dir 0);
                          ("downloads/F.pdf", File "ff" 1);
                          ("downloads/T.pdf", File "tt" 2);
                          ("downloads/O.pdf", File "oo" 3)];
     tracking_data := store shuffled_records |}.


(** A tracker whose tracking file has been written before. *)
Definition resaving_tracker : tracker :=
  {| disk := list_to_map [(".", Dir 0); ("./backups", Dir 0); ("./downloads", Dir 0);
                          ("./tracking.json", File "previous" 5);
                          ("./downloads/A.pdf", File "aaaaa" 1)];
     tracking_data := store two_records |}.

(** A tracking file in the legacy format: a list of ids, one of them
    listed twice, and no statistics. *)
Definition legacy_document : Document :=
  {| doc_version := None;
     doc_created := None;
     doc_last_updated := None;
     doc_downloads := Some (DownloadsList ["A"; "B"; "A"]);
     doc_statistics := None |}.

(** A working directory whose tracking file holds [store two_records]. *)
Definition cli_disk : fsys :=
  list_to_map [(".", Dir 0); ("./backups", Dir 0); ("./downloads", Dir 0);
               ("./tracking.json", File (Demo.demo_dump (store two_records)) 5);
               ("./downloads/A.pdf", File "aaaaa" 1);
               ("./downloads/B.pdf", File "bbb" 2)].

Definition cleanup_args : Args :=
  {| args_tracking_file := "./tracking.json";
     args_download_dir := "./downloads";
     cleanup_days := 30;
     compress_days := 7;
     max_storage_mb := 1000;
     verify := true;
     report := true;
     cleanup := true |}.

(** A day count that takes the cutoff before the year 1. *)
Definition overflow_args : Args :=
  {| args_tracking_file := "./tracking.json";
     args_download_dir := "./downloads";
     cleanup_days := 1000000;
     compress_days := 7;
     max_storage_mb := 1000;
     verify := false;
     report := false;
     cleanup := true |}.

Definition report_args : Args :=
  {| args_tracking_file := "./tracking.json";
     args_download_dir := "./downloads";
     cleanup_days := 30;
     compress_days := 7;
     max_storage_mb := 1000;
     verify := true;
     report := true;
     cleanup := false |}.

Definition clock : Clock :=
  {| at_init := now; at_cleanup := now + 1; at_compress := now + 2; at_save := now + 3 |}.

End Scenario.

(** Distinctness of the keys of a concrete dictionary, by computation. *)
Ltac solve_wf :=
  unfold Dict.wf, Dict.keys; apply (bool_decide_unpack _); vm_compute; exact I.


(** ** Notions for the rest of the tracker *)

Section RecordStoreNotions.
Context `{RT : PyRuntime}.

(** The record that [add_download] builds for a file on the disk [fs]. *)
Definition new_record (now : Z) (fs : fsys) (id name p : string) : DownloadRecord :=
  {| edicto_id := id;
     filename := name;
     download_date := isoformat now;
     file_size :=
       match FS.getsize fs p with
       | Ok size => size
       | Raise _ => 0
       end;
     file_path := p;
     checksum := if FS.path_exists fs p then Some (checksum_of fs p) else None;
     compressed := false |}.

(** The tracker after [add_download] has added a record for [id]. *)
Definition with_download (now : Z) (id name p : string) (t : tracker) : tracker :=
  let r := new_record now (disk t) id name p in
  {| disk := disk t;
     tracking_data :=
       set_statistics (count_download (file_size r) (statistics (tracking_data t)))
         (set_downloads (Dict.set id r (downloads (tracking_data t))) (tracking_data t)) |}.

(** The cached counter agrees with the number of records. *)
Definition counted (d : TrackingData) : Prop :=
  total_downloads (statistics d) = Z.of_nat (length (downloads d)).

(** The records removed so far and the records still stored. *)
Definition tally (s : cleanup_locals * tracker) : Z :=
  (removed_count (fst s) + Z.of_nat (length (downloads (tracking_data (snd s)))))%Z.

(** One record has become another by compression, or is what it was. *)
Definition same_or_compressed (r r' : DownloadRecord) : Prop :=
  r' = r \/ exists content, compressed r = false /\ r' = compressed_record r content.

(** A compressed record points at a path that ends in [.gz]. *)
Definition gz_consistent (ds : dict DownloadRecord) : Prop :=
  forall id r, In (id, r) ds -> compressed r = true ->
               Str.endswith (file_path r) ".gz" = true.

(** What holds of the store throughout the compression loop over the
    records [ds0]. *)
Definition compress_inv (ds0 : dict DownloadRecord) (s : (Z * Q) * tracker) : Prop :=
  Dict.keys (downloads (tracking_data (snd s))) = Dict.keys ds0 /\
  forall id r, In (id, r) ds0 ->
    exists r', Dict.get id (downloads (tracking_data (snd s))) = Some r' /\
               same_or_compressed r r'.

(** The dictionary built from the legacy list of ids, starting from
    [acc]. *)
Definition migrated (download_dir : string) (now : Z) (ids : list string)
    (acc : dict DownloadRecord) : dict DownloadRecord :=
  fold_left (fun d edicto_id => Dict.set edicto_id (legacy_record download_dir now edicto_id) d)
            ids acc.

(** The tracker after the three passes of [main --cleanup]. *)
Definition after_passes (clock : Clock) (args : Args) (t : tracker) : tracker :=
  let t1 := snd (cleanup_old_files (at_cleanup clock) (cleanup_days args) t) in
  let t2 := snd (cleanup_by_storage_limit (max_storage_mb args) t1) in
  snd (compress_old_files (at_compress clock) (compress_days args) t2).

(** The third step of the [try] block of [main]. *)
Definition report_step (args : Args) : M (list Output * tracker) unit :=
  if report args then
    let* r := lift (get_summary_report (args_tracking_file args) (args_download_dir args)) in
    print (Report r)
  else ret tt.

End RecordStoreNotions.

(** The records whose file exists. *)
Definition existing (fs : fsys) (ds : dict DownloadRecord) : dict DownloadRecord :=
  List.filter (fun item => FS.path_exists fs (file_path (snd item))) ds.

(** [a <= b] on [str]. *)
Definition str_le (a b : string) : Prop := String.ltb b a = false.


(** From [fs] to [fs'] the regular files are the same and every
    directory is still a directory. *)
Definition keeps_files (fs fs' : fsys) : Prop :=
  (forall q data m, fs !! q = Some (File data m) <-> fs' !! q = Some (File data m)) /\
  (forall q, FS.is_dir fs q = true -> FS.is_dir fs' q = true).

Section BackupNotions.
Variable tracking_file : string.

(** The prefix of the paths of the backups [_create_backup] makes. *)
Definition backup_prefix : string := backup_dir tracking_file +:+ "/tracking_backup_".

(** The entry that [_cleanup_old_backups] notes for a name of the
    listing. *)
Definition noted (fs : fsys) (file : string) : option (string * Z) :=
  if is_backup_name file then
    match FS.getmtime fs (Path.join (backup_dir tracking_file) file) with
    | Ok m => Some (Path.join (backup_dir tracking_file) file, m)
    | Raise _ => None
    end
  else None.

(** The backups in the backups directory, in the order of the listing. *)
Definition backup_files (fs : fsys) : list (string * Z) :=
  match FS.listdir fs (backup_dir tracking_file) with
  | Ok files => omap (noted fs) files
  | Raise _ => []
  end.

End BackupNotions.

(** The disk once the tracking file has been copied to its backup. *)
Definition backed_up `{RT : PyRuntime} (tracking_file : string) (now : Z)
    (old : string) (m : Z) (fs : fsys) : fsys :=
  <[backup_path tracking_file now := File old m]> fs.


(** * Properties *)

(** ** Path and string functions on examples *)

Example dirname_dot : Path.dirname "./tracking.json" = ".".
Proof. reflexivity. Qed.
Example dirname_bare : Path.dirname "tracking.json" = "".
Proof. reflexivity. Qed.
Example dirname_slashes : Path.dirname "a//b" = "a".
Proof. reflexivity. Qed.
Example dirname_root : Path.dirname "/x" = "/".
Proof. reflexivity. Qed.
Example join_backups : Path.join "." "backups" = "./backups".
Proof. reflexivity. Qed.
Example join_empty : Path.join "" "backups" = "backups".
Proof. reflexivity. Qed.
Example replace_Z_utc :
  Str.replace_Z "2020-01-01T00:00:00Z" = "2020-01-01T00:00:00+00:00".
Proof. reflexivity. Qed.
Example fromisoformat_naive :
  Demo.demo_fromisoformat "1970-01-02T00:00:01" = Some (Naive 86401000000).
Proof. reflexivity. Qed.
Example fromisoformat_aware :
  Demo.demo_fromisoformat "1970-01-01T01:00:00+01:00" = Some (Aware 0).
Proof. reflexivity. Qed.
Example fromisoformat_bad : Demo.demo_fromisoformat "2025-02-30T00:00:00" = None.
Proof. reflexivity. Qed.
Example isoformat_round :
  Demo.demo_isoformat (Demo.at_time "2025-03-01T12:34:56") = "2025-03-01T12:34:56".
Proof. vm_compute. reflexivity. Qed.
Example strftime_stamp :
  Demo.demo_strftime (Demo.at_time "2025-03-01T12:34:56") = "20250301_123456".
Proof. vm_compute. reflexivity. Qed.

(** ** Dictionaries *)

Section DictFacts.
Context {V : Type}.
Implicit Types (d : dict V) (k : string) (v : V).

Lemma dict_get_In d k v : Dict.get k d = Some v -> In (k, v) d.
Proof.
  induction d as [|[k' v'] d IH]; simpl; [discriminate|].
  destruct (String.eqb_spec k k') as [->|Hne].
  - intros [= ->]. now left.
  - intros Hg. right. auto.
Qed.

Lemma dict_In_get d k v : Dict.wf d -> In (k, v) d -> Dict.get k d = Some v.
Proof.
  unfold Dict.wf, Dict.keys.
  induction d as [|[k' v'] d IH]; simpl; [tauto|].
  intros Hnd [Heq|Hin].
  - injection Heq as -> ->. now rewrite String.eqb_refl.
  - apply NoDup_cons in Hnd as [Hk Hd].
    destruct (String.eqb_spec k k') as [->|Hne]; [|auto].
    exfalso. apply Hk. apply list_elem_of_In.
    change k' with (fst (k', v)). now apply in_map.
Qed.

(** Selecting records by a predicate on the value and projecting the keys:
    with distinct keys, a key is selected exactly when its value is. *)
Lemma keys_filter_In (P : V -> bool) d k v :
  Dict.wf d -> In (k, v) d ->
  (In k (map fst (List.filter (fun kv => P (snd kv)) d)) <-> P v = true).
Proof.
  intros Hwf Hin. split.
  - intros Hk. apply in_map_iff in Hk as [[k' v'] [Hk Hf]]. simpl in Hk. subst k'.
    apply filter_In in Hf as [Hin' HP]. simpl in HP.
    pose proof (dict_In_get _ _ _ Hwf Hin) as E1.
    pose proof (dict_In_get _ _ _ Hwf Hin') as E2.
    congruence.
  - intros HP. apply in_map_iff. exists (k, v). split; [reflexivity|].
    apply filter_In. now split.
Qed.

End DictFacts.

(** ** The integrity verifier *)

Section VerifyFacts.
Context `{RT : PyRuntime}.

Lemma calculate_checksum_run p t :
  _calculate_checksum p t = (Ok (checksum_of (disk t) p), t).
Proof.
  unfold _calculate_checksum, checksum_of, try_except, bind, os_read, query, ret. simpl.
  destruct (FS.read (disk t) p); reflexivity.
Qed.

Lemma verify_step_run item l t :
  verify_step item (l, t) =
  (Ok tt,
   ((if is_missing (disk t) (snd item) then (fst l ++ [fst item])%list else fst l,
     if is_corrupted (disk t) (snd item) then (snd l ++ [fst item])%list else snd l), t)).
Proof.
  destruct item as [k r], l as [ms cs].
  unfold verify_step, is_missing, is_corrupted, bind, os_exists, query, ret,
    get_locals, set_locals, lift.
  simpl.
  destruct (FS.path_exists (disk t) (file_path r)); simpl; [|reflexivity].
  destruct (checksum r) as [c|]; [|reflexivity].
  destruct (Str.truthy c); simpl; [|reflexivity].
  destruct (compressed r && Str.endswith (file_path r) ".gz"); simpl; [reflexivity|].
  rewrite calculate_checksum_run. simpl.
  destruct (negb _); reflexivity.
Qed.

Lemma verify_loop_run items l t :
  for_each items verify_step (l, t) =
  (Ok tt,
   (((fst l ++ map fst (List.filter (fun kv => is_missing (disk t) (snd kv)) items))%list,
     (snd l ++ map fst (List.filter (fun kv => is_corrupted (disk t) (snd kv)) items))%list),
    t)).
Proof.
  revert l. induction items as [|item items IH]; intros [ms cs]; simpl.
  - unfold ret. now rewrite !app_nil_r.
  - unfold bind at 1. rewrite verify_step_run. rewrite IH. simpl.
    destruct (is_missing (disk t) (snd item)), (is_corrupted (disk t) (snd item));
      simpl; rewrite <- ?app_assoc; reflexivity.
Qed.

(** [verify_files] returns the ids of the missing and of the corrupted
    records, in store order, and leaves the tracker as it was. *)
Lemma verify_files_run t :
  verify_files t =
  (Ok (map fst (List.filter (fun kv => is_missing (disk t) (snd kv))
                            (downloads (tracking_data t))),
       map fst (List.filter (fun kv => is_corrupted (disk t) (snd kv))
                            (downloads (tracking_data t)))), t).
Proof.
  unfold verify_files, run_locals, try_except, bind at 1, read_data. simpl.
  rewrite verify_loop_run. reflexivity.
Qed.

End VerifyFacts.

(** C6 (as stated, refuted): a compressed record that has a checksum is
    classified as corrupted when its path does not end in [.gz]. *)
Lemma verify_files_compressed_counterexample :
  compressed Scenario.c6_record = true /\
  checksum Scenario.c6_record = Some "sha256:original" /\
  In ("A", Scenario.c6_record) (downloads (tracking_data Scenario.c6_tracker)) /\
  @verify_files (Demo.runtime []) Scenario.c6_tracker =
    (Ok ([], ["A"]), Scenario.c6_tracker).
Proof.
  split; [reflexivity|]. split; [reflexivity|]. split; [now left|].
  vm_compute. reflexivity.
Qed.

(** C6 (amended): [verify_files] classifies every record of a store.  A
    record whose file does not exist is missing and not corrupted.  A
    record whose file exists is not missing; when it has a non-empty
    checksum and is not a compressed record whose path ends in [.gz], it
    is corrupted exactly when the recomputed checksum differs from the
    recorded one; a compressed record whose path ends in [.gz] is never
    corrupted. *)
Theorem verify_files_classifies `{RT : PyRuntime} (t : tracker) :
  Dict.wf (downloads (tracking_data t)) ->
  exists missing corrupted,
    verify_files t = (Ok (missing, corrupted), t) /\
    forall id r, In (id, r) (downloads (tracking_data t)) ->
      (FS.path_exists (disk t) (file_path r) = false ->
         In id missing /\ ~ In id corrupted) /\
      (FS.path_exists (disk t) (file_path r) = true ->
         ~ In id missing /\
         (forall c, checksum r = Some c -> Str.truthy c = true ->
            compressed r && Str.endswith (file_path r) ".gz" = false ->
            (In id corrupted <-> checksum_of (disk t) (file_path r) <> c)) /\
         (compressed r = true -> Str.endswith (file_path r) ".gz" = true ->
            ~ In id corrupted)).
Proof.
  intros Hwf. eexists _, _. split; [apply verify_files_run|].
  intros id r Hin.
  pose proof (keys_filter_In (is_missing (disk t)) _ _ _ Hwf Hin) as Hm.
  pose proof (keys_filter_In (is_corrupted (disk t)) _ _ _ Hwf Hin) as Hc.
  unfold is_missing in Hm. unfold is_corrupted in Hc.
  split.
  - intros Hex. rewrite Hex in Hm, Hc. simpl in Hm, Hc. split.
    + now apply Hm.
    + intros Hin'. apply Hc in Hin'. discriminate.
  - intros Hex. rewrite Hex in Hm, Hc. simpl in Hm, Hc. split; [|split].
    + intros Hin'. apply Hm in Hin'. discriminate.
    + intros c Hck Htr Hgz. rewrite Hck, Htr, Hgz in Hc. simpl in Hc.
      rewrite Hc. rewrite negb_true_iff. apply String.eqb_neq.
    + intros Hcomp Hgz Hin'. apply Hc in Hin'.
      rewrite Hcomp, Hgz in Hin'. simpl in Hin'.
      destruct (checksum r) as [c|]; [|discriminate].
      now rewrite andb_false_r in Hin'.
Qed.

(** The classification instantiated on a store with distinct ids. *)
Lemma verify_files_classifies_witness :
  exists missing corrupted,
    @verify_files (Demo.runtime []) Scenario.verify_tracker =
      (Ok (missing, corrupted), Scenario.verify_tracker) /\
    missing = ["A"] /\ corrupted = ["C"].
Proof.
  assert (Hwf : Dict.wf (downloads (tracking_data Scenario.verify_tracker))).
  { solve_wf. }
  destruct (@verify_files_classifies (Demo.runtime []) Scenario.verify_tracker Hwf)
    as (missing & corrupted & Hrun & _).
  exists missing, corrupted. split; [exact Hrun|].
  assert (E : @verify_files (Demo.runtime []) Scenario.verify_tracker =
              (Ok (["A"], ["C"]), Scenario.verify_tracker)) by (vm_compute; reflexivity).
  rewrite E in Hrun. injection Hrun as <- <-. split; reflexivity.
Defined.

(** C10: [verify_files] is read-only.  For every tracker it returns
    without raising and leaves the disk and the in-memory tracking data
    exactly as they were. *)
Theorem verify_files_read_only `{RT : PyRuntime} (t : tracker) :
  exists result, verify_files t = (Ok result, t).
Proof. eexists. apply verify_files_run. Qed.

(** ** Strings and paths *)

Section StringFacts.
Implicit Types (s t u : string) (c : ascii).

Lemma app_cons_s c s t : String c s +:+ t = String c (s +:+ t).
Proof. reflexivity. Qed.

Lemma app_nil_l_s t : "" +:+ t = t.
Proof. reflexivity. Qed.

Lemma app_assoc_s s t u : (s +:+ t) +:+ u = s +:+ (t +:+ u).
Proof.
  induction s as [|c s IH]; [reflexivity|].
  rewrite !app_cons_s. f_equal. exact IH.
Qed.

Lemma length_app_s s t : String.length (s +:+ t) = (String.length s + String.length t)%nat.
Proof.
  induction s as [|c s IH]; [reflexivity|].
  rewrite app_cons_s. simpl. f_equal. exact IH.
Qed.

Lemma app_neq_self s t : t <> "" -> s +:+ t <> s.
Proof.
  intros Ht E. apply (f_equal String.length) in E. rewrite length_app_s in E.
  destruct t; [congruence|]. simpl in E. lia.
Qed.

Lemma app_cons_not_nil s c t : s +:+ String c t <> "".
Proof. destruct s; [rewrite app_nil_l_s | rewrite app_cons_s]; discriminate. Qed.

(** The last character decides [endswith s "/"]. *)
Lemma endswith_slash_app s c t :
  Str.endswith (s +:+ String c t) "/" = Str.endswith (String c t) "/".
Proof.
  induction s as [|a s IH]; [reflexivity|].
  rewrite app_cons_s. cbn [Str.endswith]. rewrite IH.
  replace (String.eqb (String a (s +:+ String c t)) "/") with false; [reflexivity|].
  symmetry. apply String.eqb_neq. intros E. injection E as _ E.
  now apply app_cons_not_nil in E.
Qed.

Lemma rsplit_app_slash s t :
  fst (Path.rsplit (s +:+ String "/" t)) = s +:+ String "/" (fst (Path.rsplit t)).
Proof.
  induction s as [|a s IH].
  - rewrite !app_nil_l_s. cbn [Path.rsplit].
    destruct (Path.rsplit t) as [h r]; simpl. destruct h; reflexivity.
  - rewrite !app_cons_s. cbn [Path.rsplit].
    destruct (Path.rsplit (s +:+ String "/" t)) as [h r] eqn:E. simpl in IH.
    subst h.
    destruct (s +:+ String "/" (Path.rsplit t).1) eqn:E2.
    + now apply app_cons_not_nil in E2.
    + reflexivity.
Qed.

Lemma rstrip_app_char s c t :
  c <> "/"%char ->
  Path.rstrip (s +:+ String c t) = s +:+ String c (Path.rstrip t).
Proof.
  intros Hc. induction s as [|a s IH].
  - rewrite !app_nil_l_s. cbn [Path.rstrip].
    destruct (Path.rstrip t); [|reflexivity].
    destruct (Ascii.eqb_spec c "/"); [contradiction|reflexivity].
  - rewrite !app_cons_s. cbn [Path.rstrip]. rewrite IH.
    destruct (s +:+ String c (Path.rstrip t)) eqn:E2.
    + now apply app_cons_not_nil in E2.
    + reflexivity.
Qed.

Lemma dirname_length_ge s c t :
  c <> "/"%char ->
  (String.length (s +:+ String c "") <=
   String.length (Path.dirname ((s +:+ String c "") +:+ String "/" t)))%nat.
Proof.
  intros Hc. unfold Path.dirname.
  rewrite rsplit_app_slash.
  rewrite (app_assoc_s s (String c "")). rewrite app_cons_s, app_nil_l_s.
  rewrite (rstrip_app_char s c _ Hc).
  destruct (s +:+ String c (Path.rstrip (String "/" (fst (Path.rsplit t))))) eqn:E.
  - now apply app_cons_not_nil in E.
  - rewrite <- E. rewrite !length_app_s. simpl. lia.
Qed.

Lemma join_relative a b :
  Str.startswith b "/" = false -> Str.truthy a = true -> Str.endswith a "/" = false ->
  Path.join a b = a +:+ "/" +:+ b.
Proof. intros Hb Ha He. unfold Path.join. now rewrite Hb, Ha, He. Qed.

Lemma rsplit_tail_no_slash s : Str.has_slash (snd (Path.rsplit s)) = false.
Proof.
  induction s as [|c s IH]; simpl; [reflexivity|].
  destruct (Path.rsplit s) as [h t]. simpl in IH.
  destruct h; simpl; [|exact IH].
  destruct (Ascii.eqb c "/") eqn:E; simpl; [exact IH|]. now rewrite E.
Qed.

Lemma no_slash_not_absolute s : Str.has_slash s = false -> Str.startswith s "/" = false.
Proof.
  destruct s as [|c s]; [reflexivity|]. cbn [Str.has_slash Str.startswith].
  destruct (Ascii.eqb_spec c "/") as [->|Hne]; [discriminate|].
  intros _. destruct (Ascii.eqb_spec "/" c) as [E|]; [congruence|reflexivity].
Qed.

End StringFacts.

Section BackupPaths.
Variable tracking_file : string.

Lemma backup_dir_shape :
  exists s, (backup_dir tracking_file) = (s +:+ "s") /\
            (String.length (Path.dirname tracking_file) < String.length (s +:+ "s"))%nat.
Proof.
  unfold backup_dir, Path.join.
  replace (Str.startswith "backups" "/") with false by reflexivity.
  destruct (negb (Str.truthy (Path.dirname tracking_file))
            || Str.endswith (Path.dirname tracking_file) "/").
  - exists (Path.dirname tracking_file +:+ "backup"). split.
    + now rewrite app_assoc_s.
    + rewrite !length_app_s. simpl. lia.
  - exists (Path.dirname tracking_file +:+ "/backup"). split.
    + now rewrite app_assoc_s.
    + rewrite !length_app_s. simpl. lia.
Qed.

Lemma backup_dir_truthy : Str.truthy (backup_dir tracking_file) = true.
Proof.
  destruct backup_dir_shape as (s & -> & _).
  destruct (s +:+ "s") eqn:E; [now apply app_cons_not_nil in E|reflexivity].
Qed.

Lemma backup_dir_no_trailing_slash : Str.endswith (backup_dir tracking_file) "/" = false.
Proof. destruct backup_dir_shape as (s & -> & _). now rewrite endswith_slash_app. Qed.

(** The tracking file is never inside its own backup directory. *)
Lemma tracking_file_not_backup : ~ under (backup_dir tracking_file +:+ "/") tracking_file.
Proof.
  intros [rest E]. destruct backup_dir_shape as (s & Hs & Hlen).
  rewrite Hs in E.
  assert (Ha : "s"%char <> "/"%char) by discriminate.
  pose proof (dirname_length_ge s "s" rest Ha) as Hge.
  rewrite app_assoc_s in E. rewrite app_cons_s, app_nil_l_s in E.
  rewrite <- E in Hge. lia.
Qed.

Lemma temp_file_not_tracking : temp_file tracking_file <> tracking_file.
Proof. unfold temp_file. apply app_neq_self. discriminate. Qed.

Lemma join_backup_dir name :
  Str.startswith name "/" = false -> Path.join (backup_dir tracking_file) name = (backup_dir tracking_file) +:+ "/" +:+ name.
Proof.
  intros H. apply join_relative; auto using backup_dir_truthy, backup_dir_no_trailing_slash.
Qed.

Lemma join_backup_dir_under name :
  Str.startswith name "/" = false -> under (backup_dir tracking_file +:+ "/") (Path.join (backup_dir tracking_file) name).
Proof.
  intros H. rewrite join_backup_dir by exact H. exists name. now rewrite app_assoc_s.
Qed.

End BackupPaths.

(** ** Sorting and frames *)

Section SortFacts.
Context {A : Type} (lt : A -> A -> bool).

Lemma insert_sorted_perm x l : Permutation (insert_sorted lt x l) (x :: l).
Proof.
  induction l as [|y l IH]; simpl; [reflexivity|].
  destruct (lt y x); [|reflexivity].
  rewrite IH. apply perm_swap.
Qed.

Lemma stable_sort_perm l : Permutation (stable_sort lt l) l.
Proof.
  induction l as [|x l IH]; simpl; [reflexivity|].
  rewrite insert_sorted_perm. now constructor.
Qed.

Lemma stable_sort_Forall (P : A -> Prop) l : Forall P l -> Forall P (stable_sort lt l).
Proof. intros H. now rewrite stable_sort_perm. Qed.

End SortFacts.

Section Frame.
Implicit Types (fs : fsys) (p pre : string).

Lemma agree_outside_refl pre fs : agree_outside pre fs fs.
Proof. intros p _. reflexivity. Qed.

Lemma agree_outside_trans pre fs1 fs2 fs3 :
  agree_outside pre fs1 fs2 -> agree_outside pre fs2 fs3 -> agree_outside pre fs1 fs3.
Proof. intros H1 H2 p Hp. rewrite (H2 p Hp). apply (H1 p Hp). Qed.

Lemma agree_outside_insert pre fs p n :
  under pre p -> agree_outside pre fs (<[p := n]> fs).
Proof. intros Hu q Hq. apply lookup_insert_ne. intros ->. contradiction. Qed.

Lemma agree_outside_delete pre fs p :
  under pre p -> agree_outside pre fs (delete p fs).
Proof. intros Hu q Hq. apply lookup_delete_ne. intros ->. contradiction. Qed.

Lemma under_app pre p x : under pre p -> under pre (p +:+ x).
Proof. intros [r ->]. exists (r +:+ x). apply app_assoc_s. Qed.

Lemma join_under a b : Str.startswith b "/" = false -> under a (Path.join a b).
Proof.
  intros Hb. unfold Path.join. rewrite Hb.
  destruct (negb (Str.truthy a) || Str.endswith a "/"); eexists; reflexivity.
Qed.

Lemma under_trans a b c : under a b -> under b c -> under a c.
Proof. intros [r ->] [r' ->]. exists (r +:+ r'). apply app_assoc_s. Qed.

Lemma write_frame pre m fs p data fs' :
  FS.write m fs p data = Ok fs' -> under pre p -> agree_outside pre fs fs'.
Proof.
  unfold FS.write. intros H Hu.
  destruct (fs !! p) as [[]|]; try discriminate;
    destruct (FS.parent_check fs p); try discriminate;
    injection H as <-; now apply agree_outside_insert.
Qed.

Lemma copy2_frame pre fs src dst fs' :
  FS.copy2 fs src dst = Ok fs' -> under pre dst -> agree_outside pre fs fs'.
Proof.
  unfold FS.copy2. intros H Hu.
  destruct (fs !! src) as [[|data m]|]; try discriminate.
  destruct (String.eqb _ _); [discriminate|].
  eapply write_frame; [exact H|].
  destruct (FS.is_dir fs dst); [|exact Hu].
  eapply under_trans; [exact Hu|]. apply join_under.
  apply no_slash_not_absolute. apply rsplit_tail_no_slash.
Qed.

Lemma remove_frame pre fs p fs' :
  FS.remove fs p = Ok fs' -> under pre p -> agree_outside pre fs fs'.
Proof.
  unfold FS.remove. intros H Hu.
  destruct (fs !! p) as [[]|]; try discriminate.
  injection H as <-. now apply agree_outside_delete.
Qed.

End Frame.

(** ** Monadic computations *)

Section MonadFacts.
Context {S : Type}.

Lemma bind_run {A B} (m : M S A) (k : A -> M S B) s :
  bind m k s =
  match m s with
  | (Ok a, s') => k a s'
  | (Raise e, s') => (Raise e, s')
  end.
Proof. reflexivity. Qed.

Lemma for_each_cons {X} (x : X) xs (body : X -> M S unit) s :
  for_each (x :: xs) body s =
  match body x s with
  | (Ok _, s') => for_each xs body s'
  | (Raise e, s') => (Raise e, s')
  end.
Proof. reflexivity. Qed.

Lemma for_each_app {X} (xs ys : list X) (body : X -> M S unit) s :
  for_each (xs ++ ys) body s =
  match for_each xs body s with
  | (Ok _, s') => for_each ys body s'
  | (Raise e, s') => (Raise e, s')
  end.
Proof.
  revert s. induction xs as [|x xs IH]; intros s; [reflexivity|].
  rewrite <- app_comm_cons, !for_each_cons.
  destruct (body x s) as [[|e] s']; [apply IH|reflexivity].
Qed.

End MonadFacts.

Lemma os_remove_run p (t : tracker) :
  os_remove p t =
  match FS.remove (disk t) p with
  | Ok d => (Ok tt, {| disk := d; tracking_data := tracking_data t |})
  | Raise e => (Raise e, t)
  end.
Proof. reflexivity. Qed.

Section Persistence.
Context `{RT : PyRuntime}.
Variables tracking_file download_dir : string.

Lemma backup_effect_refl t : backup_effect tracking_file t t.
Proof. split; [reflexivity|apply agree_outside_refl]. Qed.

Lemma backup_effect_trans t1 t2 t3 :
  backup_effect tracking_file t1 t2 -> backup_effect tracking_file t2 t3 -> backup_effect tracking_file t1 t3.
Proof.
  intros [D1 A1] [D2 A2]. split; [congruence|].
  eapply agree_outside_trans; eassumption.
Qed.

Lemma backup_name_relative file :
  Str.startswith file "tracking_backup_" = true -> Str.startswith file "/" = false.
Proof.
  destruct file as [|c file]; [discriminate|]. cbn [Str.startswith].
  destruct (Ascii.eqb_spec "t" c) as [<-|]; [reflexivity|discriminate].
Qed.

Lemma backup_entry_run file t :
  exists r, backup_entry tracking_file file t = (r, t) /\
            forall x, r = Ok (Some x) -> under (backup_dir tracking_file +:+ "/") (fst x).
Proof.
  unfold backup_entry, is_backup_name.
  destruct (Str.startswith file "tracking_backup_") eqn:Hs; simpl.
  2:{ eexists. split; [reflexivity|]. intros x [=]. }
  destruct (Str.endswith file ".json").
  2:{ eexists. split; [reflexivity|]. intros x [=]. }
  unfold bind, os_getmtime, query, ret. simpl.
  destruct (FS.getmtime _ _) as [m|e].
  - eexists. split; [reflexivity|]. intros x [= <-]. simpl.
    apply join_backup_dir_under. now apply backup_name_relative.
  - eexists. split; [reflexivity|]. intros x [=].
Qed.

Lemma collect_backups_run files t :
  exists r, collect files (backup_entry tracking_file) t = (r, t) /\
            forall l, r = Ok l -> Forall (fun x => under (backup_dir tracking_file +:+ "/") (fst x)) l.
Proof.
  induction files as [|file files IH]; simpl.
  - eexists. split; [reflexivity|]. intros l [= <-]. constructor.
  - unfold bind at 1.
    destruct (backup_entry_run file t) as (r & -> & Hr).
    destruct r as [o|e].
    2:{ eexists. split; [reflexivity|]. intros l [=]. }
    unfold bind at 1. destruct IH as (r' & -> & Hr').
    destruct r' as [ys|e].
    2:{ eexists. split; [reflexivity|]. intros l [=]. }
    eexists. split; [reflexivity|]. intros l [= <-].
    specialize (Hr' ys eq_refl). destruct o as [x|]; [|exact Hr'].
    constructor; [now apply Hr|exact Hr'].
Qed.

Lemma remove_loop_effect (xs : list (string * Z)) t :
  Forall (fun x => under (backup_dir tracking_file +:+ "/") (fst x)) xs ->
  exists r t', for_each xs (fun x => os_remove (fst x)) t = (r, t') /\ backup_effect tracking_file t t'.
Proof.
  revert t. induction xs as [|x xs IH]; intros t Hall.
  - eexists _, _. split; [reflexivity|apply backup_effect_refl].
  - apply Forall_cons in Hall as [Hx Hall].
    rewrite for_each_cons, os_remove_run.
    destruct (FS.remove (disk t) (fst x)) as [d|e] eqn:E.
    + destruct (IH {| disk := d; tracking_data := tracking_data t |} Hall)
        as (r & t' & -> & Hb).
      eexists _, _. split; [reflexivity|].
      eapply backup_effect_trans; [|exact Hb].
      split; [reflexivity|]. simpl. eapply remove_frame; eassumption.
    + eexists _, _. split; [reflexivity|apply backup_effect_refl].
Qed.

Lemma cleanup_old_backups_effect keep t :
  exists t', _cleanup_old_backups tracking_file keep t = (Ok tt, t') /\ backup_effect tracking_file t t'.
Proof.
  unfold _cleanup_old_backups, try_except, bind at 1, os_listdir, query. simpl.
  destruct (FS.listdir (disk t) (backup_dir tracking_file)) as [files|e].
  2:{ eexists. split; [reflexivity|apply backup_effect_refl]. }
  unfold bind at 1.
  destruct (collect_backups_run files t) as (r & -> & Hr).
  destruct r as [l|e].
  2:{ eexists. split; [reflexivity|apply backup_effect_refl]. }
  specialize (Hr l eq_refl).
  destruct (remove_loop_effect
              (drop keep (stable_sort (fun a b => (snd b <? snd a)%Z) l)) t)
    as (r & t' & -> & Hb).
  { apply Forall_drop. now apply stable_sort_Forall. }
  destruct r as [[]|]; eexists; (split; [reflexivity|exact Hb]).
Qed.

Lemma backup_path_under now : under (backup_dir tracking_file +:+ "/") (backup_path tracking_file now).
Proof. unfold backup_path. apply join_backup_dir_under. reflexivity. Qed.

Lemma create_backup_effect now t :
  exists t', _create_backup tracking_file now t = (Ok tt, t') /\ backup_effect tracking_file t t'.
Proof.
  unfold _create_backup, bind at 1, os_exists, query. simpl.
  destruct (FS.path_exists (disk t) tracking_file); simpl.
  2:{ eexists. split; [reflexivity|apply backup_effect_refl]. }
  unfold try_except, bind at 1, os_copy2, update. simpl.
  destruct (FS.copy2 (disk t) tracking_file (backup_path tracking_file now)) as [d|e] eqn:E.
  2:{ eexists. split; [reflexivity|apply backup_effect_refl]. }
  destruct (cleanup_old_backups_effect 10 {| disk := d; tracking_data := tracking_data t |})
    as (t' & -> & Hb).
  eexists. split; [reflexivity|].
  eapply backup_effect_trans; [|exact Hb].
  split; [reflexivity|]. simpl. eapply copy2_frame; [exact E|apply backup_path_under].
Qed.

End Persistence.

(** ** Saving and loading *)

Section SaveLoad.
Context `{RT : PyRuntime}.
Variables tracking_file download_dir : string.

Lemma prepared_run now t :
  _create_backup tracking_file now (stamped now t) = (Ok tt, prepared tracking_file now t) /\
  backup_effect tracking_file (stamped now t) (prepared tracking_file now t).
Proof.
  unfold prepared.
  destruct (create_backup_effect tracking_file now (stamped now t)) as (t' & E & Hb).
  rewrite E. now split.
Qed.

Lemma save_run now t :
  save_tracking_data tracking_file now t =
  let t1 := prepared tracking_file now t in
  match FS.write now (disk t1) (temp_file tracking_file) (json_dump (tracking_data t1)) with
  | Raise e => save_handler tracking_file e t1
  | Ok d2 =>
      match FS.rename d2 (temp_file tracking_file) tracking_file with
      | Raise e => save_handler tracking_file e {| disk := d2; tracking_data := tracking_data t1 |}
      | Ok d3 => (Ok tt, {| disk := d3; tracking_data := tracking_data t1 |})
      end
  end.
Proof.
  destruct (prepared_run now t) as [E _].
  unfold save_tracking_data, try_except.
  rewrite bind_run. unfold modify_data at 1. cbn [get_data set_data tracker_data].
  change {| disk := disk t;
            tracking_data := set_last_updated (isoformat now) (tracking_data t) |}
    with (stamped now t).
  rewrite bind_run, E. cbn zeta.
  set (t1 := prepared tracking_file now t).
  rewrite bind_run. unfold read_data at 1. cbn [get_data tracker_data].
  rewrite bind_run. unfold os_write at 1, update. cbn [get_disk set_disk tracker_disk].
  unfold save_handler.
  destruct (FS.write now (disk t1) (temp_file tracking_file) (json_dump (tracking_data t1))) as [d2|e].
  - unfold os_rename, update. cbn [get_disk set_disk tracker_disk disk tracking_data].
    destruct (FS.rename d2 (temp_file tracking_file) tracking_file) as [d3|e].
    + reflexivity.
    + rewrite !bind_run. unfold os_exists, query. cbn [get_disk tracker_disk disk].
      destruct (FS.path_exists d2 (temp_file tracking_file)); [|reflexivity].
      rewrite bind_run, os_remove_run. cbn [disk tracking_data].
      destruct (FS.remove d2 (temp_file tracking_file)); reflexivity.
  - rewrite !bind_run. unfold os_exists, query. cbn [get_disk tracker_disk disk].
    destruct (FS.path_exists (disk t1) (temp_file tracking_file)); [|reflexivity].
    rewrite bind_run, os_remove_run.
    destruct (FS.remove (disk t1) (temp_file tracking_file)); [|reflexivity]. destruct t1; reflexivity.
Qed.

Lemma save_handler_effect e s r s' :
  save_handler tracking_file e s = (r, s') ->
  (exists e', r = Raise e') /\
  FS.is_file (disk s') (temp_file tracking_file) = false /\
  tracking_data s' = tracking_data s /\
  (forall p, p <> (temp_file tracking_file) -> disk s' !! p = disk s !! p).
Proof.
  unfold save_handler, FS.path_exists, FS.remove, FS.is_file.
  destruct (disk s !! (temp_file tracking_file)) as [[m|data m]|] eqn:E; intros [= <- <-]; simpl.
  - rewrite E. eauto.
  - rewrite lookup_delete_eq. repeat split; eauto.
    intros p Hp. now apply lookup_delete_ne.
  - rewrite E. eauto.
Qed.

Lemma prepared_tracking_file now t :
  disk (prepared tracking_file now t) !! tracking_file = disk t !! tracking_file /\
  tracking_data (prepared tracking_file now t) =
    set_last_updated (isoformat now) (tracking_data t).
Proof.
  destruct (prepared_run now t) as [_ [Hd Ha]]. split; [|exact Hd].
  apply Ha. apply tracking_file_not_backup.
Qed.


Lemma write_other m fs p data fs' q :
  FS.write m fs p data = Ok fs' -> q <> p -> fs' !! q = fs !! q.
Proof.
  unfold FS.write. intros H Hq.
  destruct (fs !! p) as [[]|]; try discriminate;
    destruct (FS.parent_check fs p); try discriminate;
    injection H as <-; now apply lookup_insert_ne.
Qed.

Lemma write_same m fs p data fs' :
  FS.write m fs p data = Ok fs' -> fs' !! p = Some (File data m).
Proof.
  unfold FS.write. intros H.
  destruct (fs !! p) as [[]|]; try discriminate;
    destruct (FS.parent_check fs p); try discriminate;
    injection H as <-; apply lookup_insert_eq.
Qed.

Lemma rename_target fs src dst fs' n :
  FS.rename fs src dst = Ok fs' -> fs !! src = Some n -> fs' !! dst = Some n.
Proof.
  unfold FS.rename. intros H Hn. rewrite Hn in H.
  destruct n as [|data m]; [discriminate|].
  destruct (fs !! dst) as [[]|]; try discriminate;
    destruct (FS.parent_check fs dst); try discriminate;
    injection H as <-; apply lookup_insert_eq.
Qed.

(** A successful save leaves the serialised store in the tracking file. *)
Lemma save_ok now t t' :
  save_tracking_data tracking_file now t = (Ok tt, t') ->
  disk t' !! tracking_file = Some (File (json_dump (tracking_data t')) now) /\
  tracking_data t' = set_last_updated (isoformat now) (tracking_data t).
Proof.
  rewrite save_run. cbn zeta.
  destruct (prepared_tracking_file now t) as [_ Hd].
  destruct (FS.write _ _ _ _) as [d2|e] eqn:Ew.
  2:{ intros H. apply save_handler_effect in H as [[e' [=]] _]. }
  destruct (FS.rename _ _ _) as [d3|e] eqn:Er.
  2:{ intros H. apply save_handler_effect in H as [[e' [=]] _]. }
  intros [= <-]. simpl. split; [|exact Hd].
  eapply rename_target; [exact Er|]. eapply write_same. exact Ew.
Qed.

(** Loading a tracking file whose text parses. *)
Lemma load_parsed now fs text m doc :
  fs !! tracking_file = Some (File text m) ->
  json_load text = Parsed doc ->
  load_tracking_data tracking_file download_dir now fs =
    (Ok (_validate_and_migrate_data download_dir now doc), fs).
Proof.
  intros Hf Hp. unfold load_tracking_data.
  rewrite bind_run. unfold os_exists at 1, query, FS.path_exists.
  cbn [get_disk fsys_disk]. rewrite Hf. cbn [negb].
  unfold try_except. rewrite bind_run. unfold os_read at 1, query, FS.read.
  cbn [get_disk fsys_disk]. rewrite Hf. rewrite bind_run, Hp. reflexivity.
Qed.

(** Loading a tracking file whose text is not JSON: the recovery
    succeeds exactly when the file can be copied to the backups
    directory. *)
Lemma load_corrupt now fs text m :
  fs !! tracking_file = Some (File text m) ->
  json_load text = DecodeError ->
  load_tracking_data tracking_file download_dir now fs =
    match FS.copy2 fs tracking_file (corrupted_backup_path tracking_file now) with
    | Ok fs' => (Ok (_create_empty_tracking_data now), fs')
    | Raise e => (Raise e, fs)
    end.
Proof.
  intros Hf Hp. unfold load_tracking_data.
  rewrite bind_run. unfold os_exists at 1, query, FS.path_exists.
  cbn [get_disk fsys_disk]. rewrite Hf. cbn [negb].
  unfold try_except. rewrite bind_run. unfold os_read at 1, query, FS.read.
  cbn [get_disk fsys_disk]. rewrite Hf. rewrite bind_run, Hp.
  unfold raise at 1. rewrite bind_run. unfold os_exists at 1, query, FS.path_exists.
  cbn [get_disk fsys_disk]. rewrite Hf.
  rewrite bind_run. unfold os_copy2, update. cbn [get_disk set_disk fsys_disk].
  destruct (FS.copy2 _ _ _); reflexivity.
Qed.

(** C1: loading the file that [save_tracking_data] has just written
    yields the saved downloads mapping: the same ids in the same order,
    each with the same record, provided the JSON library reads back the
    document it wrote for this store. *)
Theorem load_after_save now now' t t' :
  save_tracking_data tracking_file now t = (Ok tt, t') ->
  json_load (json_dump (tracking_data t')) = Parsed (document_of (tracking_data t')) ->
  exists loaded,
    load_tracking_data tracking_file download_dir now' (disk t') = (Ok loaded, disk t') /\
    downloads loaded = downloads (tracking_data t) /\
    forall id, Dict.get id (downloads loaded) = Dict.get id (downloads (tracking_data t)).
Proof.
  intros Hs Hj. destruct (save_ok _ _ _ Hs) as [Hf Hd].
  eexists. split; [eapply load_parsed; eassumption|].
  assert (E : downloads (_validate_and_migrate_data download_dir now'
                           (document_of (tracking_data t'))) =
              downloads (tracking_data t)).
  { rewrite Hd. reflexivity. }
  split; [exact E|]. intros id. now rewrite E.
Qed.

(** C8 (amended): when the temporary file cannot be written or the
    tracking file cannot be replaced, [save_tracking_data] raises, no
    temporary file is left, the tracking file on disk is what it was, and
    the in-memory store is unchanged except for [last_updated]. *)
Theorem save_failure_effects now t :
  write_or_replace_fails tracking_file now t = true ->
  exists e t',
    save_tracking_data tracking_file now t = (Raise e, t') /\
    FS.is_file (disk t') (temp_file tracking_file) = false /\
    disk t' !! tracking_file = disk t !! tracking_file /\
    tracking_data t' = set_last_updated (isoformat now) (tracking_data t).
Proof.
  unfold write_or_replace_fails. cbn zeta. intros Hfail.
  rewrite save_run. cbn zeta.
  destruct (prepared_tracking_file now t) as [Hf Hd].
  pose proof (temp_file_not_tracking tracking_file) as Hne.
  destruct (FS.write _ _ _ _) as [d2|e] eqn:Ew.
  - destruct (FS.rename _ _ _) as [d3|e] eqn:Er; [discriminate|].
    destruct (save_handler tracking_file e _) as [r s'] eqn:Eh.
    apply save_handler_effect in Eh as ([e' ->] & Hno & Hdata & Hother).
    exists e', s'. simpl in Hdata, Hother.
    repeat split; [exact Hno| |congruence].
    rewrite Hother by auto. rewrite <- Hf.
    eapply write_other; [exact Ew|auto].
  - destruct (save_handler tracking_file e _) as [r s'] eqn:Eh.
    apply save_handler_effect in Eh as ([e' ->] & Hno & Hdata & Hother).
    exists e', s'. repeat split; [exact Hno| |congruence].
    rewrite Hother by auto. exact Hf.
Qed.

End SaveLoad.

(** The round trip instantiated: a store with two records is saved and
    loaded again. *)
Lemma load_after_save_witness :
  let rt := Demo.runtime [Scenario.saved_store] in
  let t' := snd (@save_tracking_data rt "./tracking.json" Scenario.now
                   Scenario.saving_tracker) in
  exists loaded,
    @load_tracking_data rt "./tracking.json" "./downloads" (Scenario.now + 1) (disk t') =
      (Ok loaded, disk t') /\
    downloads loaded = Scenario.two_records /\
    forall id, Dict.get id (downloads loaded) = Dict.get id Scenario.two_records.
Proof.
  intros rt t'.
  apply (@load_after_save rt "./tracking.json" "./downloads" Scenario.now
           (Scenario.now + 1) Scenario.saving_tracker t').
  - vm_compute; reflexivity.
  - vm_compute; reflexivity.
Defined.

(** C8 (as stated, refuted): a save that fails because the temporary
    file cannot be written leaves the in-memory store changed: its
    [last_updated] field has been rewritten. *)
Lemma save_failure_store_counterexample :
  let rt := Demo.runtime [] in
  let t := Scenario.unwritable_tracker in
  let result := @save_tracking_data rt "data/tracking.json" Scenario.now t in
  @write_or_replace_fails rt "data/tracking.json" Scenario.now t = true /\
  fst result = Raise FileNotFoundError /\
  last_updated (tracking_data t) = "2025-02-28T00:00:00" /\
  last_updated (tracking_data (snd result)) = "2025-03-01T12:00:00" /\
  tracking_data (snd result) <> tracking_data t.
Proof.
  intros rt t result.
  assert (E : last_updated (tracking_data (snd result)) = "2025-03-01T12:00:00")
    by (vm_compute; reflexivity).
  split; [vm_compute; reflexivity|].
  split; [vm_compute; reflexivity|].
  split; [reflexivity|]. split; [exact E|].
  intros E'. rewrite E' in E. discriminate E.
Qed.

(** The failure case instantiated: the directory of the tracking file
    does not exist, so the temporary file cannot be written. *)
Lemma save_failure_effects_witness :
  let rt := Demo.runtime [] in
  exists e t',
    @save_tracking_data rt "data/tracking.json" Scenario.now Scenario.unwritable_tracker =
      (Raise e, t') /\
    FS.is_file (disk t') (temp_file "data/tracking.json") = false /\
    disk t' !! "data/tracking.json" =
      disk Scenario.unwritable_tracker !! "data/tracking.json" /\
    tracking_data t' =
      set_last_updated (Demo.demo_isoformat Scenario.now)
        (tracking_data Scenario.unwritable_tracker).
Proof.
  intros rt.
  apply (@save_failure_effects rt "data/tracking.json" Scenario.now
           Scenario.unwritable_tracker).
  vm_compute. reflexivity.
Defined.

(** A failed replace: the tracking path is a directory.  The temporary
    file that had been written is removed again. *)
Example save_replace_fails :
  let rt := Demo.runtime [] in
  let t := {| disk := list_to_map [("t.json", Dir 0)];
              tracking_data := Scenario.store [] |} in
  let result := @save_tracking_data rt "t.json" Scenario.now t in
  fst result = Raise IsADirectoryError /\
  map_to_list (disk (snd result)) = [("t.json", Dir 0)].
Proof.
  intros rt t result. split; vm_compute; reflexivity.
Qed.

(** C2 (the code at the failing input): on a first run the backups
    directory does not exist yet; with a tracking file that is not JSON,
    [load_tracking_data] raises [FileNotFoundError] from the copy inside
    its [except] clause, and so does the constructor, which creates the
    directories only after loading. *)
Theorem load_corrupt_first_run_raises :
  let rt := Demo.runtime [] in
  let disk := Scenario.first_run_disk in
  @json_load rt "{ damaged" = DecodeError /\
  disk !! "./tracking.json" = Some (File "{ damaged" 10) /\
  disk !! @backup_dir "./tracking.json" = None /\
  fst (@load_tracking_data rt "./tracking.json" "./downloads" Scenario.now disk) =
    Raise FileNotFoundError /\
  fst (@init rt "./tracking.json" "./downloads" Scenario.now disk) =
    Raise FileNotFoundError.
Proof.
  intros rt disk.
  split; [reflexivity|].
  split; [vm_compute; reflexivity|].
  split; [vm_compute; reflexivity|].
  split; vm_compute; reflexivity.
Qed.

(** With the backups directory present the recovery works: the empty
    store is returned and the disk gains exactly the copy of the damaged
    file. *)
Example load_corrupt_later_run :
  let rt := Demo.runtime [] in
  let result := @load_tracking_data rt "./tracking.json" "./downloads" Scenario.now
                  Scenario.later_run_disk in
  fst result = Ok (@_create_empty_tracking_data rt Scenario.now) /\
  snd result !! "./backups/corrupted_tracking_20250301_120000.json" =
    Some (File "{ damaged" 10) /\
  snd result !! "./tracking.json" = Some (File "{ damaged" 10) /\
  size (snd result) = S (size Scenario.later_run_disk).
Proof. intros rt result. repeat split; vm_compute; reflexivity. Qed.

(** ** Sizes and dictionary removal *)

Lemma mb_plus a b : (mb (a + b) == mb a + mb b)%Q.
Proof. unfold mb, Qdiv. rewrite inject_Z_plus. ring. Qed.

Lemma mb_minus a b : (mb (a - b) == mb a - mb b)%Q.
Proof. unfold mb, Qdiv, Z.sub. rewrite inject_Z_plus, inject_Z_opp. ring. Qed.

Lemma mb_zero : (mb 0 == 0)%Q.
Proof. reflexivity. Qed.


Lemma used_bytes_delete fs p data m :
  fs !! p = Some (File data m) ->
  used_bytes (delete p fs) = (used_bytes fs - Z.of_nat (String.length data))%Z.
Proof.
  intros H. unfold used_bytes.
  rewrite (map_fold_delete_L _ _ p (File data m) fs); [simpl; lia| |exact H].
  intros. lia.
Qed.

Section DictRemove.
Context {V : Type}.
Implicit Types (d : dict V) (k : string).

Lemma dict_mem_In d k : Dict.mem k d = true <-> In k (Dict.keys d).
Proof.
  unfold Dict.mem, Dict.keys. induction d as [|[k' v'] d IH]; simpl.
  - split; [discriminate|tauto].
  - destruct (String.eqb_spec k k') as [->|Hne]; [tauto|].
    rewrite IH. split; [tauto|]. intros [E|H]; [congruence|exact H].
Qed.

(** Removing the key of the first selected entry of a dictionary with
    distinct keys removes exactly that entry. *)
Lemma dict_remove_first_selected (P : string * V -> bool) d x xs :
  Dict.wf d -> List.filter P d = x :: xs ->
  Dict.mem (fst x) d = true /\
  List.filter P (Dict.remove (fst x) d) = xs /\
  List.filter (fun y => negb (P y)) (Dict.remove (fst x) d) =
    List.filter (fun y => negb (P y)) d /\
  Dict.wf (Dict.remove (fst x) d).
Proof.
  unfold Dict.wf, Dict.keys.
  induction d as [|[k v] d IH]; simpl; [discriminate|].
  intros Hnd Hf. apply NoDup_cons in Hnd as [Hk Hnd].
  destruct (P (k, v)) eqn:HP.
  - injection Hf as <- <-. simpl. unfold Dict.mem. simpl.
    rewrite String.eqb_refl. simpl. auto.
  - specialize (IH Hnd Hf) as (Hm & H1 & H2 & H3).
    assert (Hne : fst x <> k).
    { intros E. apply Hk. rewrite <- E. apply list_elem_of_In.
      now apply (dict_mem_In d (fst x)). }
    unfold Dict.mem in *. simpl.
    destruct (String.eqb_spec (fst x) k) as [E|_]; [contradiction|].
    simpl. rewrite HP. simpl. repeat split; auto.
    + now rewrite H2.
    + apply NoDup_cons. split; [|exact H3].
      intros Hin. apply Hk. apply list_elem_of_In in Hin. apply list_elem_of_In.
      clear -Hin. induction d as [|[k' v'] d IH]; simpl in *; [tauto|].
      destruct (String.eqb (fst x) k'); simpl in *; tauto.
Qed.

End DictRemove.

(** ** Removing records *)

Lemma del_download_run id (l : cleanup_locals) t :
  del_download id (l, t) =
  if Dict.mem id (downloads (tracking_data t))
  then (Ok tt, (l, without_record id t))
  else (Raise KeyError, (l, t)).
Proof.
  unfold del_download. rewrite bind_run. unfold read_data at 1.
  cbn [get_data locals_data tracker_data snd]. rewrite bind_run.
  unfold Dict.del. destruct (Dict.mem id _); reflexivity.
Qed.

Lemma drop_record_run id (l : cleanup_locals) t :
  (del_download id ;;
   let* l0 := get_locals in
   set_locals {| removed_count := removed_count l0 + 1;
                 removed_size_mb := removed_size_mb l0;
                 current_size := current_size l0 |}) (l, t) =
  drop_record id l t.
Proof.
  rewrite bind_run, del_download_run. unfold drop_record.
  destruct (Dict.mem id _); reflexivity.
Qed.

Lemma remove_record_run id r l t :
  remove_record id r (l, t) =
  match disk t !! file_path r with
  | Some (Dir _) => (Raise IsADirectoryError, (l, t))
  | Some (File data _) =>
      drop_record id (count_size (Z.of_nat (String.length data)) l)
        (without_file (file_path r) t)
  | None => drop_record id l t
  end.
Proof.
  unfold remove_record. rewrite bind_run.
  unfold os_exists at 1, query, FS.path_exists.
  cbn [get_disk locals_disk tracker_disk snd].
  destruct (disk t !! file_path r) as [[m|data m]|] eqn:E.
  - rewrite !bind_run. unfold os_getsize at 1, query, FS.getsize.
    cbn [get_disk locals_disk tracker_disk snd]. rewrite E.
    rewrite bind_run. unfold os_remove at 1, update, FS.remove.
    cbn [get_disk locals_disk tracker_disk snd]. rewrite E. reflexivity.
  - rewrite !bind_run. unfold os_getsize at 1, query, FS.getsize.
    cbn [get_disk locals_disk tracker_disk snd]. rewrite E.
    rewrite bind_run. unfold os_remove at 1, update, FS.remove.
    cbn [get_disk set_disk locals_disk tracker_disk snd fst]. rewrite E.
    rewrite bind_run. unfold get_locals at 1. cbn [fst snd].
    unfold set_locals at 1. cbn [fst snd].
    apply drop_record_run.
  - rewrite bind_run. unfold ret at 1. apply drop_record_run.
Qed.

Lemma filter_none_neg {A} (P : A -> bool) (l : list A) :
  List.filter P l = [] -> List.filter (fun y => negb (P y)) l = l.
Proof.
  induction l as [|x l IH]; simpl; [reflexivity|].
  destruct (P x); [discriminate|]. simpl. intros H. f_equal. auto.
Qed.

Lemma set_downloads_same d : set_downloads (downloads d) d = d.
Proof. destruct d; reflexivity. Qed.

Lemma remove_selected_run (P : string * DownloadRecord -> bool) xs l t l' t' :
  Dict.wf (downloads (tracking_data t)) ->
  List.filter P (downloads (tracking_data t)) = xs ->
  for_each xs (fun item => remove_record (fst item) (snd item)) (l, t) = (Ok tt, (l', t')) ->
  removal_facts P l t l' t'.
Proof.
  revert l t. induction xs as [|x xs IH]; intros l t Hwf Hf Hrun.
  - injection Hrun as <- <-. split; rewrite ?Hf; simpl.
    + rewrite (filter_none_neg _ _ Hf). now rewrite set_downloads_same.
    + lia.
    + rewrite Z.sub_diag. rewrite mb_zero. ring.
    + rewrite Z.sub_diag. rewrite mb_zero. ring.
    + now left.
    + tauto.
  - rewrite for_each_cons, remove_record_run in Hrun.
    destruct (dict_remove_first_selected P _ x xs Hwf Hf) as (Hmem & Hxs & Hneg & Hwf').
    assert (Hstep : forall l1 t1,
      downloads (tracking_data t1) = downloads (tracking_data t) ->
      match drop_record (fst x) l1 t1 with
      | (Ok _, s') => for_each xs (fun item => remove_record (fst item) (snd item)) s'
      | (Raise e, s') => (Raise e, s')
      end = (Ok tt, (l', t')) ->
      removal_facts P (count_one l1) (without_record (fst x) t1) l' t').
    { intros l1 t1 Hd. unfold drop_record. rewrite Hd, Hmem. intros Hrun'.
      apply IH; [| |exact Hrun']; simpl; rewrite Hd; assumption. }
    destruct (disk t !! file_path (snd x)) as [[m|data m]|] eqn:E.
    + discriminate.
    + apply Hstep in Hrun; [|reflexivity]. destruct Hrun as [Rd Rc Rs Rcur Rf Rdel].
      simpl in *.
      pose proof (used_bytes_delete _ _ _ _ E) as Hub.
      split; rewrite ?Hf; simpl.
      * rewrite Rd. rewrite Hneg. reflexivity.
      * rewrite Rc, Hxs. lia.
      * rewrite Rs. rewrite Hub.
        replace (used_bytes (disk t) - used_bytes (disk t'))%Z
          with (Z.of_nat (String.length data) +
                (used_bytes (disk t) - Z.of_nat (String.length data) - used_bytes (disk t')))%Z
          by lia.
        rewrite mb_plus. ring.
      * rewrite Rcur. rewrite Hub.
        replace (used_bytes (disk t) - used_bytes (disk t'))%Z
          with (Z.of_nat (String.length data) +
                (used_bytes (disk t) - Z.of_nat (String.length data) - used_bytes (disk t')))%Z
          by lia.
        rewrite mb_plus. ring.
      * intros p. destruct (Rf p) as [H|H]; [|now right].
        rewrite H. destruct (decide (p = file_path (snd x))) as [->|Hne].
        -- right. apply lookup_delete_eq.
        -- left. now apply lookup_delete_ne.
      * intros y [<-|Hy].
        -- destruct (Rf (file_path (snd x))) as [H|H]; [|exact H].
           rewrite H. apply lookup_delete_eq.
        -- apply Rdel. now rewrite Hxs.
    + apply Hstep in Hrun; [|reflexivity]. destruct Hrun as [Rd Rc Rs Rcur Rf Rdel].
      simpl in *.
      split; rewrite ?Hf; simpl.
      * rewrite Rd. rewrite Hneg. reflexivity.
      * rewrite Rc, Hxs. lia.
      * exact Rs.
      * exact Rcur.
      * exact Rf.
      * intros y [<-|Hy].
        -- destruct (Rf (file_path (snd x))) as [H|H]; [|exact H]. now rewrite H.
        -- apply Rdel. now rewrite Hxs.
Qed.

(** ** The age policy *)

Section AgePolicy.
Context `{RT : PyRuntime}.

Lemma select_old_run c item (s : cleanup_locals * tracker) :
  select_old c item s =
  (match parse_date (download_date (snd item)) with
   | Ok d =>
       match dt_lt d c with
       | Ok b => Ok (if b then Some item else None)
       | Raise e => Raise e
       end
   | Raise e => Raise e
   end, s).
Proof.
  unfold select_old. rewrite bind_run.
  destruct (parse_date _) as [d|e]; [|reflexivity].
  cbn [of_res]. unfold ret at 1. rewrite bind_run.
  destruct (dt_lt d c) as [b|e]; reflexivity.
Qed.

Lemma collect_old_run c ds (s : cleanup_locals * tracker) :
  exists r,
    collect ds (select_old c) s = (r, s) /\
    (forall xs, r = Ok xs ->
       xs = List.filter (fun item => older_than c (snd item)) ds /\
       Forall (fun item => comparable c (snd item) = true) ds) /\
    (Forall (fun item => comparable c (snd item) = true) ds -> is_ok r = true).
Proof.
  induction ds as [|item ds IH].
  - eexists. split; [reflexivity|]. split; [|reflexivity].
    intros xs [= <-]. split; [reflexivity|constructor].
  - destruct IH as (r & Hr & Hok & Hcomp).
    cbn [collect]. rewrite bind_run, select_old_run.
    cbn [List.filter]. unfold older_than at 1.
    destruct (parse_date (download_date (snd item))) as [d|e] eqn:Ep.
    2:{ eexists. split; [reflexivity|]. split; [intros xs [=]|].
        intros H. apply Forall_cons in H as [H _].
        unfold comparable in H. rewrite Ep in H. discriminate. }
    destruct (dt_lt d c) as [b|e] eqn:El.
    2:{ eexists. split; [reflexivity|]. split; [intros xs [=]|].
        intros H. apply Forall_cons in H as [H _].
        unfold comparable in H. rewrite Ep, El in H. discriminate. }
    rewrite bind_run, Hr. destruct r as [ys|e].
    + eexists. split; [reflexivity|]. split.
      * intros xs [= <-]. destruct (Hok ys eq_refl) as [-> Hall].
        split; [destruct b; reflexivity|].
        constructor; [|exact Hall].
        unfold comparable. now rewrite Ep, El.
      * reflexivity.
    + eexists. split; [reflexivity|]. split; [intros xs [=]|].
      intros H. apply Forall_cons in H as [_ H]. apply Hcomp in H. discriminate.
Qed.

(** A run of the [try] block of [cleanup_old_files] that does not raise. *)
Lemma cleanup_old_files_try_ok now c l t l' t' :
  Dict.wf (downloads (tracking_data t)) ->
  cleanup_old_files_try now c (l, t) = (Ok tt, (l', t')) ->
  exists l1 t1,
    removal_facts (fun item => older_than c (snd item)) l t l1 t1 /\
    Forall (fun item => comparable c (snd item) = true)
           (downloads (tracking_data t)) /\
    l' = l1 /\
    disk t' = disk t1 /\
    tracking_data t' =
      set_statistics
        (subtract_removed l1 (set_last_cleanup (isoformat now) (statistics (tracking_data t1))))
        (tracking_data t1).
Proof.
  intros Hwf. unfold cleanup_old_files_try.
  rewrite bind_run. unfold read_data at 1. cbn [get_data locals_data tracker_data snd].
  rewrite bind_run.
  destruct (collect_old_run c (downloads (tracking_data t)) (l, t))
    as (r & -> & Hr & _).
  destruct r as [xs|e]; [|discriminate].
  destruct (Hr xs eq_refl) as [Hxs Hall].
  rewrite bind_run.
  destruct (for_each xs _ (l, t)) as [[[]|e] [l1 t1]] eqn:Eloop; [|discriminate].
  rewrite bind_run. unfold get_locals at 1. cbn [fst snd].
  unfold modify_data. cbn [get_data set_data locals_data tracker_data fst snd].
  intros [= <- <-].
  exists l1, t1. split; [|split; [exact Hall|auto]].
  eapply remove_selected_run; [exact Hwf|symmetry; exact Hxs|exact Eloop].
Qed.

(** [cleanup_old_files] raises exactly when the computation of the cutoff
    does, before anything has been done; otherwise it returns the counts
    that its [try] block reached. *)
Lemma cleanup_old_files_run now days t :
  cleanup_old_files now days t =
  match minus_days now days with
  | Ok c =>
      match cleanup_old_files_try now (Naive c) (no_removals 0, t) with
      | (_, (l, t')) => (Ok (removed_count l, removed_size_mb l), t')
      end
  | Raise e => (Raise e, t)
  end.
Proof.
  unfold cleanup_old_files. rewrite bind_run.
  destruct (minus_days now days) as [c|e]; [|reflexivity].
  cbn [of_res]. unfold ret at 1. cbn zeta.
  rewrite bind_run. unfold run_locals, try_except.
  change {| removed_count := 0; removed_size_mb := 0; current_size := 0 |}
    with (no_removals 0).
  destruct (cleanup_old_files_try now (Naive c) (no_removals 0, t)) as [[[]|e] [l t']];
    reflexivity.
Qed.

(** The cutoff is [now - days] whenever it can be computed. *)
Lemma minus_days_value now days c :
  minus_days now days = Ok c ->
  c = (now - days * microseconds_per_day)%Z /\
  (datetime_min <= c <= datetime_max)%Z.
Proof.
  unfold minus_days, timedelta_days.
  destruct (Z.abs days <=? max_delta_days)%Z; [|discriminate].
  destruct (datetime_min <=? _)%Z eqn:E1; [|discriminate].
  destruct (_ <=? datetime_max)%Z eqn:E2; [|discriminate].
  cbn [andb]. intros [= <-]. split; [reflexivity|]. lia.
Qed.

(** [minus_days] raises nothing but [OverflowError]. *)
Lemma minus_days_raises now days e :
  minus_days now days = Raise e -> e = OverflowError.
Proof.
  unfold minus_days, timedelta_days.
  destruct (Z.abs days <=? max_delta_days)%Z; [|congruence].
  destruct (_ && _); congruence.
Qed.

(** What the age policy does when nothing goes wrong: when the ids of
    the store are distinct, the cutoff [c = now - maxAgeDays] can be
    computed and the pass runs to its end without an internal exception,
    the records that remain are exactly those that are not older than the
    cutoff, each with a date that is not earlier than [c]; the file of
    every removed record is gone; the returned count is the number of
    removed records and the returned size is the number of bytes that left
    the disk, in megabytes, whatever the recorded [file_size]. *)
Theorem cleanup_old_files_removes_old now days c t :
  Dict.wf (downloads (tracking_data t)) ->
  minus_days now days = Ok c ->
  completes (cleanup_old_files_try now (Naive c)) (no_removals 0, t) = true ->
  exists count size t',
    cleanup_old_files now days t = (Ok (count, size), t') /\
    downloads (tracking_data t') =
      List.filter (fun item => negb (older_than (Naive c) (snd item)))
                  (downloads (tracking_data t)) /\
    (forall id r, In (id, r) (downloads (tracking_data t')) ->
       exists d, parse_date (download_date r) = Ok (Naive d) /\
                 (c <= d)%Z) /\
    (forall id r, In (id, r) (downloads (tracking_data t)) ->
       older_than (Naive c) r = true ->
       FS.path_exists (disk t') (file_path r) = false) /\
    count = Z.of_nat (length (List.filter
              (fun item => older_than (Naive c) (snd item))
              (downloads (tracking_data t)))) /\
    (size == mb (used_bytes (disk t) - used_bytes (disk t')))%Q.
Proof.
  intros Hwf Hc Hcomp. unfold completes in Hcomp.
  rewrite cleanup_old_files_run, Hc.
  destruct (cleanup_old_files_try now (Naive c) (no_removals 0, t)) as [[[]|e] [l' t']] eqn:E;
    [|discriminate].
  destruct (cleanup_old_files_try_ok _ _ _ _ _ _ Hwf E)
    as (l1 & t1 & [Rd Rc Rs _ Rf Rdel] & Hall & -> & Hdisk & Hdata).
  exists (removed_count l1), (removed_size_mb l1), t'.
  assert (Hds : downloads (tracking_data t') =
                List.filter (fun item => negb (older_than (Naive c) (snd item)))
                  (downloads (tracking_data t))).
  { rewrite Hdata, Rd. reflexivity. }
  split; [reflexivity|]. split; [exact Hds|]. split; [|split; [|split]].
  - intros id r Hin. rewrite Hds in Hin. apply filter_In in Hin as [Hin Hold].
    rewrite Forall_forall in Hall.
    assert (Hin' : (id, r) ∈ downloads (tracking_data t)) by now apply list_elem_of_In.
    specialize (Hall (id, r) Hin').
    cbn [snd] in Hall, Hold. unfold comparable in Hall. unfold older_than in Hold.
    destruct (parse_date (download_date r)) as [[x|x]|e]; try discriminate.
    exists x. split; [reflexivity|]. cbn in Hold.
    apply negb_true_iff, Z.ltb_ge in Hold. exact Hold.
  - intros id r Hin Hold. unfold FS.path_exists. rewrite Hdisk.
    assert (Hgone : disk t1 !! file_path r = None).
    { apply (Rdel (id, r)). apply filter_In. split; [exact Hin|exact Hold]. }
    now rewrite Hgone.
  - rewrite Rc. cbn. lia.
  - rewrite Rs, Hdisk. cbn. ring.
Qed.

End AgePolicy.

(** C3: a defect of the code.  The only record of the store has a
    timestamp with the suffix [Z] that is three months old.  The code
    rewrites the suffix to [+00:00] so that the timestamp parses, which
    makes it an aware value; its comparison with the naive cutoff raises
    [TypeError], the pass ends at once, and [cleanup_old_files 30] returns
    [(0, 0)] with the record still in the store and its file still on the
    disk. *)
Lemma cleanup_old_files_aware_survives :
  let rt := Demo.runtime [] in
  let t := Scenario.aware_tracker in
  let r := Scenario.record "A" "2024-12-01T10:00:00Z" "downloads/A.pdf" 5 in
  let result := @cleanup_old_files rt Scenario.now 30 t in
  @parse_date rt (download_date r) = Ok (Aware (Demo.at_time "2024-12-01T10:00:00")) /\
  (exists c, minus_days Scenario.now 30 = Ok c /\
             (Demo.at_time "2024-12-01T10:00:00" < c)%Z /\
             dt_lt (Aware (Demo.at_time "2024-12-01T10:00:00")) (Naive c) = Raise TypeError) /\
  fst result = Ok (0%Z, 0%Q) /\
  downloads (tracking_data (snd result)) = [("A", r)] /\
  FS.path_exists (disk (snd result)) "downloads/A.pdf" = true.
Proof.
  intros rt t r result. split; [vm_compute; reflexivity|]. split.
  - exists (Scenario.now - 30 * microseconds_per_day)%Z.
    split; [vm_compute; reflexivity|]. split; [vm_compute|]; reflexivity.
  - repeat split; vm_compute; reflexivity.
Qed.

(** The age policy instantiated: of three records that are 40, 20 and 2
    days old, the first is removed and its 5 bytes are freed. *)
Lemma cleanup_old_files_removes_old_witness :
  let rt := Demo.runtime [] in
  exists count size t',
    @cleanup_old_files rt Scenario.now 30 Scenario.aged_tracker = (Ok (count, size), t') /\
    map fst (downloads (tracking_data t')) = ["B"; "C"] /\
    FS.path_exists (disk t') "downloads/A.pdf" = false /\
    count = 1%Z /\
    (size == mb 5)%Q.
Proof.
  intros rt.
  destruct (@cleanup_old_files_removes_old rt Scenario.now 30
              (Scenario.now - 30 * microseconds_per_day) Scenario.aged_tracker)
    as (count & size & t' & Hrun & Hds & _ & Hgone & Hcount & Hsize).
  - solve_wf.
  - vm_compute. reflexivity.
  - vm_compute. reflexivity.
  - exists count, size, t'. split; [exact Hrun|]. split; [|split; [|split]].
    + rewrite Hds. vm_compute. reflexivity.
    + apply (Hgone "A" (Scenario.record "A" "2025-01-20T12:00:00" "downloads/A.pdf" 9)).
      * now left.
      * vm_compute. reflexivity.
    + rewrite Hcount. vm_compute. reflexivity.
    + rewrite Hsize.
      assert (E : fst (@cleanup_old_files rt Scenario.now 30 Scenario.aged_tracker) =
                  Ok (1%Z, mb 5)) by (vm_compute; reflexivity).
      assert (E2 : used_bytes (disk (snd (@cleanup_old_files rt Scenario.now 30
                     Scenario.aged_tracker))) = 5%Z) by (vm_compute; reflexivity).
      rewrite Hrun in E2. cbn [snd] in E2. rewrite E2.
      vm_compute. reflexivity.
Defined.

(** ** The capacity policy *)

Section LiveStats.
Context `{RT : PyRuntime}.

Lemma stats_loop_run (ds : dict DownloadRecord) st dates t :
  exists st' dates',
    for_each (map snd ds) (fun record =>
      let* present := os_exists (file_path record) in
      if present : bool then
        let* l := get_locals in
        set_locals (count_file record (fst l), (snd l ++ [download_date record])%list)
      else ret tt) ((st, dates), t) = (Ok tt, ((st', dates'), t)) /\
    (total_size_mb st' == total_size_mb st + live_size (disk t) ds)%Q.
Proof.
  revert st dates. induction ds as [|item ds IH]; intros st dates.
  - exists st, dates. split; [reflexivity|]. simpl. ring.
  - cbn [map]. rewrite for_each_cons. rewrite bind_run.
    unfold os_exists at 1, query. cbn [get_disk locals_disk tracker_disk snd live_size].
    destruct (FS.path_exists (disk t) (file_path (snd item))).
    + rewrite bind_run. unfold get_locals at 1, set_locals at 1. cbn [fst snd].
      destruct (IH (count_file (snd item) st) (dates ++ [download_date (snd item)])%list)
        as (st' & dates' & -> & Hq).
      exists st', dates'. split; [reflexivity|]. rewrite Hq. cbn [count_file total_size_mb].
      ring.
    + unfold ret at 1. destruct (IH st dates) as (st' & dates' & -> & Hq).
      exists st', dates'. split; [reflexivity|]. rewrite Hq. ring.
Qed.

(** [get_storage_stats] changes nothing and reports the live size. *)
Lemma get_storage_stats_run t :
  exists stats,
    get_storage_stats t = (Ok stats, t) /\
    (total_size_mb stats == live_size (disk t) (downloads (tracking_data t)))%Q.
Proof.
  unfold get_storage_stats. rewrite bind_run. unfold run_locals, try_except.
  rewrite bind_run. unfold read_data at 1. cbn [get_data locals_data tracker_data snd].
  rewrite bind_run.
  destruct (stats_loop_run (downloads (tracking_data t)) empty_stats [] t)
    as (st' & dates' & -> & Hq).
  rewrite bind_run. unfold get_locals at 1. cbn [fst snd].
  destruct dates' as [|d dates'].
  - exists st'. split; [reflexivity|]. rewrite Hq. cbn. ring.
  - eexists. split; [reflexivity|]. cbn [fst set_dates total_size_mb]. rewrite Hq. cbn. ring.
Qed.


End LiveStats.

Section DictRemove2.
Context {V : Type}.
Implicit Types (d : dict V) (k : string).

Lemma dict_remove_In d k k' v :
  Dict.wf d -> (In (k', v) (Dict.remove k d) <-> In (k', v) d /\ k' <> k).
Proof.
  unfold Dict.wf, Dict.keys.
  induction d as [|[k0 v0] d IH]; simpl; [tauto|].
  intros Hnd. apply NoDup_cons in Hnd as [Hk Hnd].
  destruct (String.eqb_spec k k0) as [->|Hne].
  - split.
    + intros Hin. split; [now right|]. intros ->. apply Hk.
      apply list_elem_of_In. change k0 with (fst (k0, v)). now apply in_map.
    + intros [[E|Hin] Hne]; [congruence|exact Hin].
  - simpl. rewrite (IH Hnd). split.
    + intros [E|[Hin Hne']]; [|tauto]. injection E as -> ->. split; [now left|congruence].
    + intros [[E|Hin] Hne']; [now left|right; tauto].
Qed.

Lemma dict_remove_keys_subset d k : forall x, In x (Dict.keys (Dict.remove k d)) -> In x (Dict.keys d).
Proof.
  unfold Dict.keys. induction d as [|[k0 v0] d IH]; simpl; [tauto|].
  intros x. destruct (String.eqb k k0); simpl; [tauto|]. intros [E|H]; [now left|right; auto].
Qed.

Lemma dict_remove_wf d k : Dict.wf d -> Dict.wf (Dict.remove k d).
Proof.
  unfold Dict.wf. unfold Dict.keys at 1 2.
  induction d as [|[k0 v0] d IH]; simpl; [auto|].
  intros Hnd. apply NoDup_cons in Hnd as [Hk Hnd].
  destruct (String.eqb k k0); [exact Hnd|]. simpl. apply NoDup_cons. split; [|auto].
  intros Hin. apply Hk. apply list_elem_of_In. apply list_elem_of_In in Hin.
  now apply (dict_remove_keys_subset d k).
Qed.

Lemma dict_In_mem d k v : In (k, v) d -> Dict.mem k d = true.
Proof.
  intros Hin. apply dict_mem_In. unfold Dict.keys.
  change k with (fst (k, v)). now apply in_map.
Qed.


End DictRemove2.

Section LiveSize.
Implicit Types (fs : fsys) (ds : dict DownloadRecord).





End LiveSize.

Lemma for_break_cons {S X} (x : X) xs (body : X -> M S ctl) s :
  for_break (x :: xs) body s =
  match body x s with
  | (Ok Next, s') => for_break xs body s'
  | (Ok Break, s') => (Ok tt, s')
  | (Raise e, s') => (Raise e, s')
  end.
Proof.
  cbn [for_break]. rewrite bind_run.
  destruct (body x s) as [[[]|e] s']; reflexivity.
Qed.

Section Evict.
Context `{RT : PyRuntime}.

Lemma evict_run max x l t :
  evict max x (l, t) =
  if Qle_bool (current_size l) max then (Ok Break, (l, t))
  else match remove_record (candidate_key x) (snd (snd x)) (l, t) with
       | (Ok _, s') => (Ok Next, s')
       | (Raise e, s') => (Raise e, s')
       end.
Proof.
  unfold evict. rewrite bind_run. unfold get_locals at 1. cbn [fst].
  destruct (Qle_bool (current_size l) max); [reflexivity|].
  rewrite bind_run. unfold candidate_key.
  destruct (remove_record _ _ _) as [[[]|e] s']; reflexivity.
Qed.



End Evict.

Section SortedByKey.
Context {A : Type} (key : A -> Z).



End SortedByKey.


Section Capacity.
Context `{RT : PyRuntime}.

Lemma select_existing_run item (s : cleanup_locals * tracker) :
  select_existing item s =
  (if FS.path_exists (disk (snd s)) (file_path (snd item)) then
     match parse_date (download_date (snd item)) with
     | Ok d => Ok (Some (d, item))
     | Raise e => Raise e
     end
   else Ok None, s).
Proof.
  unfold select_existing. rewrite bind_run. unfold os_exists at 1, query.
  cbn [get_disk locals_disk tracker_disk].
  destruct (FS.path_exists _ _); [|reflexivity].
  rewrite bind_run. destruct (parse_date _); reflexivity.
Qed.

Lemma collect_existing_run ds (s : cleanup_locals * tracker) :
  exists r,
    collect ds select_existing s = (r, s) /\
    forall xs, r = Ok xs ->
      map snd xs =
        List.filter (fun item => FS.path_exists (disk (snd s)) (file_path (snd item))) ds /\
      Forall (fun x => parse_date (download_date (snd (snd x))) = Ok (fst x)) xs.
Proof.
  induction ds as [|item ds IH].
  - eexists. split; [reflexivity|]. intros xs [= <-]. split; [reflexivity|constructor].
  - destruct IH as (r & Hr & Hok).
    cbn [collect List.filter]. rewrite bind_run, select_existing_run.
    destruct (FS.path_exists _ _).
    + destruct (parse_date (download_date (snd item))) as [d|e] eqn:Ep.
      2:{ eexists. split; [reflexivity|]. intros xs [=]. }
      rewrite bind_run, Hr. destruct r as [ys|e].
      * eexists. split; [reflexivity|]. intros xs [= <-].
        destruct (Hok ys eq_refl) as [Hm Hall]. split.
        -- cbn [map snd]. now rewrite Hm.
        -- constructor; [exact Ep|exact Hall].
      * eexists. split; [reflexivity|]. intros xs [=].
    + rewrite bind_run, Hr. destruct r as [ys|e].
      * eexists. split; [reflexivity|]. intros xs [= <-]. now apply Hok.
      * eexists. split; [reflexivity|]. intros xs [=].
Qed.

Lemma filter_keys_NoDup (P : string * DownloadRecord -> bool) ds :
  Dict.wf ds -> NoDup (map fst (List.filter P ds)).
Proof.
  unfold Dict.wf, Dict.keys. induction ds as [|item ds IH]; cbn; [auto|].
  intros Hnd. apply NoDup_cons in Hnd as [Hk Hnd].
  destruct (P item); [|auto]. cbn. apply NoDup_cons. split; [|auto].
  intros Hin. apply Hk. apply list_elem_of_In in Hin. apply list_elem_of_In.
  apply in_map_iff in Hin as (y & Hy & Hin). apply filter_In in Hin as [Hin _].
  rewrite <- Hy. now apply in_map.
Qed.


Lemma cleanup_by_storage_limit_run max t stats :
  get_storage_stats t = (Ok stats, t) ->
  Qle_bool (total_size_mb stats) max = false ->
  cleanup_by_storage_limit max t =
  match cleanup_by_storage_limit_try max (no_removals (total_size_mb stats), t) with
  | (_, (l, t')) => (Ok (removed_count l, removed_size_mb l), t')
  end.
Proof.
  intros Hs Hq. unfold cleanup_by_storage_limit. rewrite bind_run, Hs, Hq.
  rewrite bind_run. unfold run_locals, try_except.
  change {| removed_count := 0; removed_size_mb := 0;
            current_size := total_size_mb stats |}
    with (no_removals (total_size_mb stats)).
  destruct (cleanup_by_storage_limit_try max (no_removals (total_size_mb stats), t))
    as [[[]|e] [l t']]; reflexivity.
Qed.


End Capacity.




(** ** Compression *)

Section Compression.
Context `{RT : PyRuntime}.

Lemma gz_path_neq p : p +:+ ".gz" <> p.
Proof. apply app_neq_self. discriminate. Qed.

(** The outcome of one step of the compression loop: either nothing
    has changed, or the record was eligible and has been compressed. *)
Lemma compress_step_outcome now c id r l t res l' t' :
  compress_step now c (id, r) (l, t) = (res, (l', t')) ->
  (l' = l /\ t' = t /\ (res = Ok tt -> eligible c (disk t) r = false)) \/
  (exists content m,
     res = Ok tt /\
     eligible c (disk t) r = true /\
     disk t !! file_path r = Some (File content m) /\
     disk t' = compressed_disk now (file_path r) content (disk t) /\
     tracking_data t' =
       set_downloads (Dict.set id (compressed_record r content) (downloads (tracking_data t)))
         (tracking_data t) /\
     l' = ((fst l + 1)%Z,
           (snd l + mb (Z.of_nat (String.length content) -
                        Z.of_nat (String.length (gzip_compress content))))%Q)).
Proof.
  unfold compress_step, eligible, older_than, FS.is_file. cbn [fst snd].
  rewrite bind_run. unfold os_exists at 1, query, FS.path_exists.
  cbn [get_disk locals_disk tracker_disk snd].
  destruct (compressed r) eqn:Ec.
  { cbn. intros [= <- <- <-]. left. split; [reflexivity|]. split; [reflexivity|]. reflexivity. }
  cbn [orb negb andb].
  destruct (disk t !! file_path r) as [n|] eqn:El.
  2:{ cbn. intros [= <- <- <-]. left. split; [reflexivity|]. split; [reflexivity|]. reflexivity. }
  cbn [negb]. rewrite bind_run.
  destruct (parse_date (download_date r)) as [d|e].
  2:{ cbn. intros [= <- <- <-]. left. split; [reflexivity|]. split; [reflexivity|]. try discriminate; try reflexivity. }
  cbn [of_res]. unfold ret at 1. rewrite bind_run.
  destruct (dt_lt d c) as [[|]|e].
  3:{ cbn. intros [= <- <- <-]. left. split; [reflexivity|]. split; [reflexivity|]. try discriminate; try reflexivity. }
  2:{ cbn. intros [= <- <- <-]. left. split; [reflexivity|]. split; [reflexivity|]. intros _. now destruct n. }
  cbn [of_res]. unfold ret at 1.
  rewrite bind_run. unfold os_getsize at 1, query, FS.getsize.
  cbn [get_disk locals_disk tracker_disk snd]. rewrite El.
  destruct n as [m|content m].
  { rewrite bind_run. unfold os_read at 1, query, FS.read.
    cbn [get_disk locals_disk tracker_disk snd]. rewrite El.
    intros [= <- <- <-]. left. split; [reflexivity|]. split; [reflexivity|]. try discriminate; try reflexivity. }
  rewrite bind_run. unfold os_read at 1, query, FS.read.
  cbn [get_disk locals_disk tracker_disk snd]. rewrite El.
  rewrite bind_run. unfold os_write at 1, update.
  cbn [get_disk set_disk locals_disk tracker_disk snd fst].
  destruct (FS.write now (disk t) (file_path r +:+ ".gz") (gzip_compress content))
    as [d1|e] eqn:Ew.
  2:{ intros [= <- <- <-]. left. split; [reflexivity|]. split; [reflexivity|]. try discriminate; try reflexivity. }
  pose proof (write_same _ _ _ _ _ Ew) as Hgz.
  pose proof (write_other _ _ _ _ _ (file_path r) Ew) as Hp.
  assert (Hd1 : d1 = <[file_path r +:+ ".gz" := File (gzip_compress content) now]> (disk t)).
  { unfold FS.write in Ew.
    destruct (disk t !! (file_path r +:+ ".gz")) as [[]|]; try discriminate;
      destruct (FS.parent_check _ _); try discriminate; now injection Ew as <-. }
  rewrite bind_run. unfold os_exists at 1, query, FS.path_exists.
  cbn [get_disk locals_disk tracker_disk snd disk]. rewrite Hgz.
  rewrite bind_run. unfold os_getsize at 1, query, FS.getsize.
  cbn [get_disk locals_disk tracker_disk snd disk]. rewrite Hgz.
  rewrite bind_run. unfold os_remove at 1, update, FS.remove.
  cbn [get_disk set_disk locals_disk tracker_disk snd fst disk].
  rewrite Hp, El by (intros E; symmetry in E; now apply gz_path_neq in E).
  rewrite bind_run. unfold set_download at 1, modify_data.
  cbn [get_data set_data locals_data tracker_data snd fst disk tracking_data].
  rewrite bind_run. unfold get_locals at 1, set_locals. cbn [fst snd].
  intros [= <- <- <-]. right. exists content, m.
  split; [reflexivity|]. split; [reflexivity|]. split; [reflexivity|].
  split; [cbn [disk]; now rewrite Hd1|]. split; reflexivity.
Qed.

Lemma dict_get_set {V} (d : dict V) id v k :
  Dict.get k (Dict.set id v d) = if String.eqb k id then Some v else Dict.get k d.
Proof.
  induction d as [|[k0 v0] d IH]; cbn [Dict.set Dict.get].
  - destruct (String.eqb k id); reflexivity.
  - destruct (String.eqb_spec id k0) as [->|Hne]; cbn [Dict.get].
    + destruct (String.eqb k k0); reflexivity.
    + destruct (String.eqb_spec k k0) as [->|Hne'].
      * destruct (String.eqb_spec k0 id) as [E|_]; [congruence|reflexivity].
      * exact IH.
Qed.

(** Safety of one step: a file that disappears is the file of the
    record, and its compressed form exists at that moment. *)
Lemma compress_step_safe now c id r l t res l' t' :
  compress_step now c (id, r) (l, t) = (res, (l', t')) ->
  forall q, disk t !! q <> None -> disk t' !! q = None ->
    q = file_path r /\ FS.is_file (disk t') (q +:+ ".gz") = true.
Proof.
  intros Hrun q Hq Hq'.
  apply compress_step_outcome in Hrun
    as [(_ & -> & _)|(content & m & _ & _ & Hl & Hd & _)]; [contradiction|].
  rewrite Hd in Hq' |- *. unfold compressed_disk in *.
  destruct (decide (q = file_path r)) as [->|Hne].
  - split; [reflexivity|]. unfold FS.is_file.
    rewrite lookup_delete_ne
      by (intros E; symmetry in E; now apply gz_path_neq in E).
    now rewrite lookup_insert_eq.
  - exfalso. rewrite lookup_delete_ne in Hq' by auto.
    destruct (decide (q = file_path r +:+ ".gz")) as [->|Hne'].
    + now rewrite lookup_insert_eq in Hq'.
    + rewrite lookup_insert_ne in Hq' by auto. contradiction.
Qed.

(** What one step leaves alone: every path other than the path of the
    record and its [.gz] companion, every record other than its own, and
    all fields of the store other than [downloads]. *)
Lemma compress_step_frame now c id r l t res l' t' :
  compress_step now c (id, r) (l, t) = (res, (l', t')) ->
  (forall q, q <> file_path r -> q <> file_path r +:+ ".gz" -> disk t' !! q = disk t !! q) /\
  (forall k, k <> id ->
     Dict.get k (downloads (tracking_data t')) = Dict.get k (downloads (tracking_data t))) /\
  set_downloads (downloads (tracking_data t)) (tracking_data t') = tracking_data t.
Proof.
  intros Hrun.
  apply compress_step_outcome in Hrun
    as [(_ & -> & _)|(content & m & _ & _ & Hl & Hd & Hdata & _)].
  - split; [auto|]. split; [auto|]. apply set_downloads_same.
  - split; [|split].
    + intros q H1 H2. rewrite Hd. unfold compressed_disk.
      rewrite lookup_delete_ne by auto. now rewrite lookup_insert_ne by auto.
    + intros k Hk. rewrite Hdata. cbn [downloads set_downloads]. rewrite dict_get_set.
      destruct (String.eqb_spec k id); [contradiction|reflexivity].
    + rewrite Hdata. destruct (tracking_data t); reflexivity.
Qed.

Lemma compress_loop_frame now c items l t res l' t' :
  for_each items (compress_step now c) (l, t) = (res, (l', t')) ->
  (forall q, (forall x, In x items ->
                q <> file_path (snd x) /\ q <> file_path (snd x) +:+ ".gz") ->
             disk t' !! q = disk t !! q) /\
  (forall k, ~ In k (map fst items) ->
     Dict.get k (downloads (tracking_data t')) = Dict.get k (downloads (tracking_data t))) /\
  set_downloads (downloads (tracking_data t)) (tracking_data t') = tracking_data t.
Proof.
  revert l t. induction items as [|[id r] items IH]; intros l t Hrun.
  - injection Hrun as <- <- <-. split; [auto|]. split; [auto|]. apply set_downloads_same.
  - rewrite for_each_cons in Hrun.
    destruct (compress_step now c (id, r) (l, t)) as [res1 [l1 t1]] eqn:E1.
    apply compress_step_frame in E1 as (F1 & G1 & S1).
    assert (Hgoal :
      (forall q, (forall x, In x ((id, r) :: items) ->
                    q <> file_path (snd x) /\ q <> file_path (snd x) +:+ ".gz") ->
                 disk t1 !! q = disk t !! q) /\
      (forall k, ~ In k (map fst ((id, r) :: items)) ->
         Dict.get k (downloads (tracking_data t1)) =
         Dict.get k (downloads (tracking_data t)))).
    { split.
      - intros q Hq. destruct (Hq (id, r) (or_introl eq_refl)) as [H1 H2]. now apply F1.
      - intros k Hk. apply G1. intros ->. apply Hk. now left. }
    destruct res1 as [[]|e].
    + apply IH in Hrun as (F2 & G2 & S2). destruct Hgoal as [Hf Hg]. split; [|split].
      * intros q Hq. rewrite F2; [now apply Hf|]. intros x Hx. apply Hq. now right.
      * intros k Hk. rewrite G2; [now apply Hg|]. intros Hin. apply Hk. now right.
      * rewrite <- S1. rewrite <- S2 at 2.
        destruct (tracking_data t'), (tracking_data t1); reflexivity.
    + injection Hrun as <- <- <-. destruct Hgoal as [Hf Hg]. auto.
Qed.

Lemma app_inj_r s s' u : s +:+ u = s' +:+ u -> s = s'.
Proof.
  revert s'. induction s as [|a s IH]; intros [|a' s'] E.
  - reflexivity.
  - exfalso. apply (f_equal String.length) in E.
    rewrite app_nil_l_s, app_cons_s in E. cbn in E. rewrite length_app_s in E. lia.
  - exfalso. apply (f_equal String.length) in E.
    rewrite app_nil_l_s, app_cons_s in E. cbn in E. rewrite length_app_s in E. lia.
  - rewrite !app_cons_s in E. injection E as -> E. f_equal. now apply IH.
Qed.

(** [compress_old_files] raises exactly when the computation of the
    cutoff does, before anything has been done; otherwise it returns the
    counts that its [try] block reached. *)
Lemma compress_old_files_run now days t :
  compress_old_files now days t =
  match minus_days now days with
  | Ok c =>
      match compress_old_files_try now (Naive c) ((0%Z, 0%Q), t) with
      | (_, (l, t')) => (Ok l, t')
      end
  | Raise e => (Raise e, t)
  end.
Proof.
  unfold compress_old_files. rewrite bind_run.
  destruct (minus_days now days) as [c|e]; [|reflexivity].
  cbn [of_res]. unfold ret at 1. cbn zeta.
  unfold run_locals, try_except.
  destruct (compress_old_files_try now (Naive c) (0%Z, 0%Q, t)) as [[[]|e] [l t']];
    reflexivity.
Qed.

(** A run of the [try] block of [compress_old_files] that does not
    raise: the loop ran to its end, and afterwards only the statistics
    were touched. *)
Lemma compress_old_files_try_ok now c l t l' t' :
  compress_old_files_try now c (l, t) = (Ok tt, (l', t')) ->
  exists t1,
    for_each (downloads (tracking_data t)) (compress_step now c) (l, t) =
      (Ok tt, (l', t1)) /\
    disk t' = disk t1 /\
    downloads (tracking_data t') = downloads (tracking_data t1).
Proof.
  unfold compress_old_files_try.
  rewrite bind_run. unfold read_data at 1. cbn [get_data locals_data tracker_data snd].
  rewrite bind_run.
  destruct (for_each _ _ (l, t)) as [[[]|e] [l1 t1]]; [|discriminate].
  rewrite bind_run. unfold get_locals at 1. cbn [fst snd].
  destruct (0 <? fst l1)%Z.
  - unfold modify_data. cbn [get_data set_data locals_data tracker_data fst snd].
    intros [= <- <-]. exists t1. auto.
  - intros [= <- <-]. exists t1. auto.
Qed.

(** C5 (amended).  First, in every step of the compression loop a file
    that disappears is the file of the record being processed, and its
    compressed form exists when it disappears.  Second, when the ids of
    the store are distinct, the cutoff can be computed, the pass runs to
    its end without an internal exception, and no other record uses the path of an eligible record,
    that path with [.gz] appended, or a path that yields it when [.gz] is
    appended, then after the pass the eligible record is compressed: its
    path is the compressed path, its size is the size of the compressed
    file, the original path is free and the compressed file exists. *)
Theorem compress_old_files_compresses now :
  (forall c item l t res l' t',
     compress_step now c item (l, t) = (res, (l', t')) ->
     forall q, disk t !! q <> None -> disk t' !! q = None ->
       q = file_path (snd item) /\ FS.is_file (disk t') (q +:+ ".gz") = true) /\
  (forall days c t id r,
     Dict.wf (downloads (tracking_data t)) ->
     minus_days now days = Ok c ->
     completes (compress_old_files_try now (Naive c)) ((0%Z, 0%Q), t) = true ->
     In (id, r) (downloads (tracking_data t)) ->
     eligible (Naive c) (disk t) r = true ->
     (forall id' r', In (id', r') (downloads (tracking_data t)) -> id' <> id ->
        file_path r' <> file_path r /\
        file_path r' <> file_path r +:+ ".gz" /\
        file_path r' +:+ ".gz" <> file_path r) ->
     exists count saved t' content m,
       compress_old_files now days t = (Ok (count, saved), t') /\
       disk t !! file_path r = Some (File content m) /\
       Dict.get id (downloads (tracking_data t')) = Some (compressed_record r content) /\
       compressed (compressed_record r content) = true /\
       file_path (compressed_record r content) = file_path r +:+ ".gz" /\
       FS.getsize (disk t') (file_path r +:+ ".gz") =
         Ok (file_size (compressed_record r content)) /\
       FS.path_exists (disk t') (file_path r) = false /\
       disk t' !! (file_path r +:+ ".gz") = Some (File (gzip_compress content) now)).
Proof.
  split.
  { intros c [id r] l t res l' t' Hrun. cbn [snd]. eapply compress_step_safe; eassumption. }
  intros days c t id r Hwf Hc Hcomp Hin Hel Hiso.
  unfold completes in Hcomp. rewrite compress_old_files_run, Hc.
  destruct (compress_old_files_try now (Naive c) (0%Z, 0%Q, t)) as [[[]|e] [l' t']] eqn:E;
    [|discriminate].
  apply compress_old_files_try_ok in E as (t3 & Hloop & Hdisk & Hds).
  destruct (in_split _ _ Hin) as (pre & post & Hsplit).
  (* the other records have other ids *)
  assert (Hother : forall x, In x pre \/ In x post -> fst x <> id).
  { unfold Dict.wf, Dict.keys in Hwf. rewrite Hsplit in Hwf.
    rewrite map_app in Hwf. cbn [map fst] in Hwf.
    apply NoDup_app in Hwf as (_ & Hpre & Hpost).
    apply NoDup_cons in Hpost as [Hpost _].
    intros x [Hx|Hx] Heq.
    - apply (Hpre id); [|now left]. apply list_elem_of_In. rewrite <- Heq.
      now apply in_map.
    - apply Hpost. apply list_elem_of_In. rewrite <- Heq. now apply in_map. }
  assert (Hiso' : forall x, In x pre \/ In x post ->
            file_path (snd x) <> file_path r /\
            file_path (snd x) <> file_path r +:+ ".gz" /\
            file_path (snd x) +:+ ".gz" <> file_path r).
  { intros [id' r'] Hx. apply (Hiso id' r').
    - rewrite Hsplit. apply in_or_app. destruct Hx as [Hx|Hx]; [now left|right; now right].
    - now apply (Hother (id', r')). }
  rewrite Hsplit in Hloop. rewrite for_each_app in Hloop.
  destruct (for_each pre _ _) as [[[]|e] [l1 t1]] eqn:Epre; [|discriminate].
  rewrite for_each_cons in Hloop.
  destruct (compress_step now (Naive c) (id, r) (l1, t1))
    as [[[]|e] [l2 t2]] eqn:Estep; [|discriminate].
  apply compress_loop_frame in Epre as (Fpre & Gpre & _).
  apply compress_loop_frame in Hloop as (Fpost & Gpost & _).
  (* the file of the record is untouched by the steps before it *)
  assert (Hp1 : disk t1 !! file_path r = disk t !! file_path r).
  { apply Fpre. intros x Hx. destruct (Hiso' x (or_introl Hx)) as (H1 & _ & H3).
    split; intros Heq; [now apply H1|now apply H3]. }
  assert (Hel1 : eligible (Naive c) (disk t1) r = true).
  { unfold eligible, FS.is_file in *. now rewrite Hp1. }
  apply compress_step_outcome in Estep
    as [(_ & _ & Hno)|(content & m & _ & _ & Hl & Hd & Hdata & _)].
  { rewrite (Hno eq_refl) in Hel1. discriminate. }
  exists (fst l'), (snd l'), t', content, m.
  split; [now destruct l'|]. split; [now rewrite <- Hp1|].
  split; [|split; [reflexivity|split; [reflexivity|]]].
  - rewrite Hds, Gpost.
    + rewrite Hdata. cbn [downloads set_downloads]. rewrite dict_get_set.
      now rewrite String.eqb_refl.
    + intros Hk. apply in_map_iff in Hk as (x & Hx & Hk).
      now apply (Hother x (or_intror Hk)).
  - assert (Hgz : disk t' !! (file_path r +:+ ".gz") =
                  Some (File (gzip_compress content) now)).
    { rewrite Hdisk, Fpost.
      - rewrite Hd. unfold compressed_disk.
        rewrite lookup_delete_ne
          by (intros Heq; symmetry in Heq; now apply gz_path_neq in Heq).
        apply lookup_insert_eq.
      - intros x Hx. destruct (Hiso' x (or_intror Hx)) as (H1 & H2 & _).
        split; intros Heq; [now apply H2|]. apply H1. symmetry.
        now apply app_inj_r in Heq. }
    split; [|split; [|exact Hgz]].
    + unfold FS.getsize. now rewrite Hgz.
    + unfold FS.path_exists. rewrite Hdisk, Fpost.
      * rewrite Hd. unfold compressed_disk. now rewrite lookup_delete_eq.
      * intros x Hx. destruct (Hiso' x (or_intror Hx)) as (H1 & _ & H3).
        split; intros Heq; [now apply H1|now apply H3].
Qed.

End Compression.

(** C5 (as stated, refuted): record B is eligible, yet after
    [compress_old_files 7] it is not compressed and its file is where it
    was: the date of record A, visited first, does not parse, and the
    [ValueError] ends the pass. *)
Lemma compress_old_files_abort_counterexample :
  let rt := Demo.runtime [] in
  let t := Scenario.undated_tracker in
  let b := Scenario.record "B" "2025-01-20T12:00:00" "downloads/B.pdf" 3 in
  let result := @compress_old_files rt Scenario.now 7 t in
  let t' := snd result in
  let c := (Scenario.now - 7 * microseconds_per_day)%Z in
  In ("B", b) (downloads (tracking_data t)) /\
  minus_days Scenario.now 7 = Ok c /\
  @eligible rt (Naive c) (disk t) b = true /\
  fst result = Ok (0%Z, 0%Q) /\
  Dict.get "B" (downloads (tracking_data t')) = Some b /\
  compressed b = false /\
  FS.path_exists (disk t') "downloads/B.pdf" = true /\
  FS.path_exists (disk t') "downloads/B.pdf.gz" = false.
Proof.
  intros rt t b result t' c.
  split; [right; now left|].
  repeat split; vm_compute; reflexivity.
Qed.

(** The compression pass instantiated on a store with an old,
    uncompressed record. *)
Lemma compress_old_files_compresses_witness :
  let rt := Demo.runtime [] in
  let t := Scenario.sized_tracker in
  let a := Scenario.record "A" "2025-01-20T12:00:00" "downloads/A.pdf" 5 in
  exists count saved t' content m,
    @compress_old_files rt Scenario.now 7 t = (Ok (count, saved), t') /\
    disk t !! file_path a = Some (File content m) /\
    Dict.get "A" (downloads (tracking_data t')) = Some (@compressed_record rt a content) /\
    compressed (@compressed_record rt a content) = true /\
    file_path (@compressed_record rt a content) = "downloads/A.pdf.gz" /\
    FS.getsize (disk t') "downloads/A.pdf.gz" =
      Ok (file_size (@compressed_record rt a content)) /\
    FS.path_exists (disk t') "downloads/A.pdf" = false /\
    disk t' !! "downloads/A.pdf.gz" = Some (File (@gzip_compress rt content) Scenario.now).
Proof.
  intros rt t a.
  apply (proj2 (@compress_old_files_compresses rt Scenario.now) 7%Z
           (Scenario.now - 7 * microseconds_per_day)%Z t "A" a).
  - solve_wf.
  - vm_compute. reflexivity.
  - vm_compute. reflexivity.
  - now left.
  - vm_compute. reflexivity.
  - intros id' r' Hin Hne.
    destruct Hin as [E|[E|[E|[]]]]; injection E as <- <-;
      [contradiction| |]; repeat split; discriminate.
Defined.

(** ** What the passes leave alone *)

Lemma only_removes_refl t : only_removes t t.
Proof.
  split; [apply set_downloads_same|]. split; [auto|]. intros p. now left.
Qed.

Lemma only_removes_trans t1 t2 t3 :
  only_removes t1 t2 -> only_removes t2 t3 -> only_removes t1 t3.
Proof.
  intros (D1 & I1 & F1) (D2 & I2 & F2). split; [|split].
  - rewrite <- D1. rewrite <- D2 at 2.
    destruct (tracking_data t3), (tracking_data t2); reflexivity.
  - auto.
  - intros p. destruct (F2 p) as [E|E]; [|now right]. rewrite E. apply F1.
Qed.

Lemma dict_remove_subset {V} (d : dict V) k x : In x (Dict.remove k d) -> In x d.
Proof.
  induction d as [|[k0 v0] d IH]; cbn [Dict.remove]; [tauto|].
  destruct (String.eqb k k0); [now right|]. intros [E|H]; [now left|right; auto].
Qed.

Lemma without_record_only_removes id t : only_removes t (without_record id t).
Proof.
  split; [|split].
  - cbn. destruct (tracking_data t); reflexivity.
  - cbn. intros item. apply dict_remove_subset.
  - intros p. now left.
Qed.

Lemma without_file_only_removes p t : only_removes t (without_file p t).
Proof.
  split; [apply set_downloads_same|]. split; [auto|].
  intros q. cbn. destruct (decide (q = p)) as [->|Hne].
  - right. apply lookup_delete_eq.
  - left. now apply lookup_delete_ne.
Qed.

Lemma drop_record_only_removes id l t res l' t' :
  drop_record id l t = (res, (l', t')) -> only_removes t t'.
Proof.
  unfold drop_record. destruct (Dict.mem id _); intros [= <- <- <-].
  - apply without_record_only_removes.
  - apply only_removes_refl.
Qed.

Lemma remove_record_only_removes id r l t res l' t' :
  remove_record id r (l, t) = (res, (l', t')) -> only_removes t t'.
Proof.
  rewrite remove_record_run.
  destruct (disk t !! file_path r) as [[m|data m]|].
  - intros [= <- <- <-]. apply only_removes_refl.
  - intros H. apply drop_record_only_removes in H.
    eapply only_removes_trans; [apply without_file_only_removes|exact H].
  - apply drop_record_only_removes.
Qed.

Lemma remove_loop_only_removes xs l t res l' t' :
  for_each xs (fun item => remove_record (fst item) (snd item)) (l, t) = (res, (l', t')) ->
  only_removes t t'.
Proof.
  revert l t. induction xs as [|x xs IH]; intros l t.
  - intros [= <- <- <-]. apply only_removes_refl.
  - rewrite for_each_cons.
    destruct (remove_record (fst x) (snd x) (l, t)) as [[[]|e] [l1 t1]] eqn:E;
      apply remove_record_only_removes in E.
    + intros H. apply IH in H. eapply only_removes_trans; eassumption.
    + now intros [= <- <- <-].
Qed.

Section Frames.
Context `{RT : PyRuntime}.

Lemma evict_loop_only_removes max xs l t res l' t' :
  for_break xs (evict max) (l, t) = (res, (l', t')) -> only_removes t t'.
Proof.
  revert l t. induction xs as [|x xs IH]; intros l t.
  - intros [= <- <- <-]. apply only_removes_refl.
  - rewrite for_break_cons, evict_run.
    destruct (Qle_bool (current_size l) max).
    { intros [= <- <- <-]. apply only_removes_refl. }
    destruct (remove_record _ _ (l, t)) as [[[]|e] [l1 t1]] eqn:E;
      apply remove_record_only_removes in E.
    + intros H. apply IH in H. eapply only_removes_trans; eassumption.
    + now intros [= <- <- <-].
Qed.

(** The [try] block of [cleanup_old_files], whatever its outcome:
    nothing is added or rewritten; the statistics change only when the
    block returns. *)
Lemma cleanup_old_files_try_frame now c l t res l' t' :
  cleanup_old_files_try now c (l, t) = (res, (l', t')) ->
  match res with
  | Raise _ => only_removes t t'
  | Ok _ =>
      exists t1, only_removes t t1 /\ disk t' = disk t1 /\
        tracking_data t' =
          set_statistics
            (subtract_removed l' (set_last_cleanup (isoformat now) (statistics (tracking_data t1))))
            (tracking_data t1)
  end.
Proof.
  unfold cleanup_old_files_try.
  rewrite bind_run. unfold read_data at 1. cbn [get_data locals_data tracker_data snd].
  rewrite bind_run.
  destruct (collect_old_run c (downloads (tracking_data t)) (l, t))
    as (r & -> & _).
  destruct r as [xs|e]; [|intros [= <- <- <-]; apply only_removes_refl].
  rewrite bind_run.
  destruct (for_each xs _ (l, t)) as [[[]|e] [l1 t1]] eqn:Eloop;
    apply remove_loop_only_removes in Eloop.
  - rewrite bind_run. unfold get_locals at 1. cbn [fst snd].
    unfold modify_data. cbn [get_data set_data locals_data tracker_data fst snd].
    intros [= <- <- <-]. exists t1. auto.
  - now intros [= <- <- <-].
Qed.

(** The same for the [try] block of [cleanup_by_storage_limit]. *)
Lemma cleanup_by_storage_limit_try_frame max l t res l' t' :
  cleanup_by_storage_limit_try max (l, t) = (res, (l', t')) ->
  match res with
  | Raise _ => only_removes t t'
  | Ok _ =>
      exists t1, only_removes t t1 /\ disk t' = disk t1 /\
        tracking_data t' =
          set_statistics (subtract_removed l' (statistics (tracking_data t1)))
            (tracking_data t1)
  end.
Proof.
  unfold cleanup_by_storage_limit_try.
  rewrite bind_run. unfold read_data at 1. cbn [get_data locals_data tracker_data snd].
  rewrite bind_run.
  destruct (collect_existing_run (downloads (tracking_data t)) (l, t)) as (r & -> & _).
  destruct r as [xs|e]; [|intros [= <- <- <-]; apply only_removes_refl].
  rewrite bind_run.
  destruct (sort_by_date xs) as [sorted|e];
    [|intros [= <- <- <-]; apply only_removes_refl].
  cbn [of_res]. unfold ret at 1. rewrite bind_run.
  destruct (for_break sorted _ (l, t)) as [[[]|e] [l1 t1]] eqn:Eloop;
    apply evict_loop_only_removes in Eloop.
  - rewrite bind_run. unfold get_locals at 1. cbn [fst snd].
    unfold modify_data. cbn [get_data set_data locals_data tracker_data fst snd].
    intros [= <- <- <-]. exists t1. auto.
  - now intros [= <- <- <-].
Qed.

Lemma only_removes_statistics t t' :
  only_removes t t' -> statistics (tracking_data t') = statistics (tracking_data t).
Proof. intros (D & _ & _). rewrite <- D. reflexivity. Qed.

(** Neither retention policy creates or rewrites a file: every path
    holds what it held before, or nothing. *)
Lemma retention_never_writes now days max t :
  (forall p, disk (snd (cleanup_old_files now days t)) !! p = disk t !! p \/
             disk (snd (cleanup_old_files now days t)) !! p = None) /\
  (forall p, disk (snd (cleanup_by_storage_limit max t)) !! p = disk t !! p \/
             disk (snd (cleanup_by_storage_limit max t)) !! p = None).
Proof.
  split.
  - rewrite cleanup_old_files_run.
    destruct (minus_days now days) as [c|e0]; [|cbn [snd]; now left].
    destruct (cleanup_old_files_try now (Naive c) (no_removals 0, t)) as [res [l' t']] eqn:E.
    apply cleanup_old_files_try_frame in E. cbn [snd].
    destruct res as [[]|e].
    + destruct E as (t1 & (_ & _ & F) & -> & _). exact F.
    + destruct E as (_ & _ & F). exact F.
  - destruct (get_storage_stats_run t) as (stats & Hs & _).
    destruct (Qle_bool (total_size_mb stats) max) eqn:Hb.
    + unfold cleanup_by_storage_limit. rewrite bind_run, Hs, Hb. cbn. now left.
    + rewrite (cleanup_by_storage_limit_run _ _ _ Hs Hb).
      destruct (cleanup_by_storage_limit_try max _) as [res [l' t']] eqn:E.
      apply cleanup_by_storage_limit_try_frame in E. cbn [snd].
      destruct res as [[]|e].
      * destruct E as (t1 & (_ & _ & F) & -> & _). exact F.
      * destruct E as (_ & _ & F). exact F.
Qed.

(** The capacity policy never changes [last_cleanup]. *)
Lemma capacity_policy_last_cleanup max t :
  last_cleanup (statistics (tracking_data (snd (cleanup_by_storage_limit max t)))) =
  last_cleanup (statistics (tracking_data t)).
Proof.
  destruct (get_storage_stats_run t) as (stats & Hs & _).
  destruct (Qle_bool (total_size_mb stats) max) eqn:Hb.
  - unfold cleanup_by_storage_limit. rewrite bind_run, Hs, Hb. reflexivity.
  - rewrite (cleanup_by_storage_limit_run _ _ _ Hs Hb).
    destruct (cleanup_by_storage_limit_try max _) as [res [l' t']] eqn:E.
    apply cleanup_by_storage_limit_try_frame in E. cbn [snd].
    destruct res as [[]|e].
    + destruct E as (t1 & H1 & _ & ->). cbn.
      now rewrite (only_removes_statistics _ _ H1).
    + now rewrite (only_removes_statistics _ _ E).
Qed.

End Frames.

(** C7 (the code at the failing input): a run of the capacity policy
    that removes two records updates [total_downloads] and leaves
    [last_cleanup] unset, whereas the age policy on the same tracker sets
    it. *)
Theorem capacity_policy_leaves_last_cleanup :
  let rt := Demo.runtime [] in
  let t := Scenario.sized_tracker in
  let after_capacity := snd (@cleanup_by_storage_limit rt (mb 4) t) in
  let after_age := snd (@cleanup_old_files rt Scenario.now 30 t) in
  last_cleanup (statistics (tracking_data t)) = None /\
  total_downloads (statistics (tracking_data t)) = 3%Z /\
  map fst (downloads (tracking_data after_capacity)) = ["C"] /\
  total_downloads (statistics (tracking_data after_capacity)) = 1%Z /\
  last_cleanup (statistics (tracking_data after_capacity)) = None /\
  map fst (downloads (tracking_data after_age)) = ["B"; "C"] /\
  last_cleanup (statistics (tracking_data after_age)) = Some "2025-03-01T12:00:00".
Proof.
  intros rt t after_capacity after_age.
  repeat split; vm_compute; reflexivity.
Qed.

(** ** Failures inside a pass *)

Section Failures.
Context `{RT : PyRuntime}.


Lemma compress_old_files_try_frame now c l t res l' t' :
  compress_old_files_try now c (l, t) = (res, (l', t')) ->
  res = Ok tt \/ statistics (tracking_data t') = statistics (tracking_data t).
Proof.
  unfold compress_old_files_try.
  rewrite bind_run. unfold read_data at 1. cbn [get_data locals_data tracker_data snd].
  rewrite bind_run.
  destruct (for_each _ _ (l, t)) as [[[]|e] [l1 t1]] eqn:Eloop.
  - rewrite bind_run. unfold get_locals at 1. cbn [fst snd].
    destruct (0 <? fst l1)%Z; intros [= <- <- <-]; now left.
  - intros [= <- <- <-]. right.
    apply compress_loop_frame in Eloop as (_ & _ & D). rewrite <- D. reflexivity.
Qed.



End Failures.



(** ** When the passes run to their end

    The theorems on the retention and compression passes assume that
    the [try] block ends without an exception.  The lemmas below give
    conditions on the store and the disk, checkable before the call,
    under which it does. *)

Lemma is_dir_delete fs p q : FS.is_dir fs q = false -> FS.is_dir (delete p fs) q = false.
Proof.
  unfold FS.is_dir. rewrite lookup_delete. destruct (decide (p = q)); auto.
Qed.

(** A loop of [remove_record] over the selected records of a store does
    not raise when none of their paths is a directory. *)
Lemma remove_selected_completes (P : string * DownloadRecord -> bool) xs l t :
  Dict.wf (downloads (tracking_data t)) ->
  List.filter P (downloads (tracking_data t)) = xs ->
  (forall x, In x xs -> FS.is_dir (disk t) (file_path (snd x)) = false) ->
  exists s', for_each xs (fun item => remove_record (fst item) (snd item)) (l, t) = (Ok tt, s').
Proof.
  revert l t. induction xs as [|x xs IH]; intros l t Hwf Hf Hdir.
  - eexists. reflexivity.
  - rewrite for_each_cons, remove_record_run.
    destruct (dict_remove_first_selected P _ x xs Hwf Hf) as (Hmem & Hxs & _ & Hwf').
    pose proof (Hdir x (or_introl eq_refl)) as Hx. unfold FS.is_dir in Hx.
    destruct (disk t !! file_path (snd x)) as [[m|data m]|] eqn:E; [discriminate| |].
    + unfold drop_record. cbn [without_file tracking_data]. rewrite Hmem.
      apply IH; cbn; auto.
      intros y Hy. apply is_dir_delete. apply Hdir. now right.
    + unfold drop_record. rewrite Hmem. apply IH; cbn; auto.
      intros y Hy. apply Hdir. now right.
Qed.

Section Completion.
Context `{RT : PyRuntime}.

(** The age policy runs to its end when the ids are distinct, every date
    can be compared with the cutoff, and no old record points at a
    directory. *)
Lemma cleanup_old_files_completes now c l t :
  Dict.wf (downloads (tracking_data t)) ->
  Forall (fun item => comparable (c) (snd item) = true)
         (downloads (tracking_data t)) ->
  (forall item, In item (downloads (tracking_data t)) ->
     older_than (c) (snd item) = true ->
     FS.is_dir (disk t) (file_path (snd item)) = false) ->
  completes (cleanup_old_files_try now c) (l, t) = true.
Proof.
  intros Hwf Hall Hdir. unfold completes, cleanup_old_files_try. cbn zeta.
  rewrite bind_run. unfold read_data at 1. cbn [get_data locals_data tracker_data snd].
  rewrite bind_run.
  destruct (collect_old_run c (downloads (tracking_data t)) (l, t))
    as (r & -> & Hr & Hok).
  destruct r as [xs|e]; [|now apply Hok in Hall].
  destruct (Hr xs eq_refl) as [Hxs _].
  rewrite bind_run.
  destruct (remove_selected_completes
              (fun item => older_than (c) (snd item)) xs l t Hwf
              (eq_sym Hxs)) as ([l1 t1] & ->).
  { intros x Hx. rewrite Hxs in Hx. apply filter_In in Hx as [Hin Hold]. now apply Hdir. }
  reflexivity.
Qed.

(** The records with an existing file are all collected when their dates
    parse. *)
Lemma collect_existing_completes ds (s : cleanup_locals * tracker) :
  (forall item, In item ds ->
     FS.path_exists (disk (snd s)) (file_path (snd item)) = true ->
     naive_date (snd item)) ->
  exists xs, collect ds select_existing s = (Ok xs, s) /\
             forallb (fun x => is_naive (fst x)) xs = true.
Proof.
  induction ds as [|item ds IH]; intros Hall.
  - exists []. split; reflexivity.
  - destruct IH as (xs & Hxs & Hn); [intros; apply Hall; [now right|assumption]|].
    cbn [collect]. rewrite bind_run, select_existing_run.
    destruct (FS.path_exists _ _) eqn:Ex.
    + destruct (Hall item (or_introl eq_refl) Ex) as [t ->].
      rewrite bind_run, Hxs. eexists. split; [reflexivity|]. cbn. exact Hn.
    + rewrite bind_run, Hxs. eexists. split; [reflexivity|]. exact Hn.
Qed.

(** The eviction loop does not raise on candidates with distinct ids that
    are all in the store and none of whose paths is a directory. *)
Lemma evict_loop_completes max xs l t :
  Dict.wf (downloads (tracking_data t)) ->
  NoDup (map candidate_key xs) ->
  (forall x, In x xs -> In (snd x) (downloads (tracking_data t))) ->
  (forall x, In x xs -> FS.is_dir (disk t) (file_path (snd (snd x))) = false) ->
  exists s', for_break xs (evict max) (l, t) = (Ok tt, s').
Proof.
  revert l t. induction xs as [|x xs IH]; intros l t Hwf Hnd Hin Hdir.
  - eexists. reflexivity.
  - rewrite for_break_cons, evict_run.
    destruct (Qle_bool (current_size l) max); [eexists; reflexivity|].
    apply NoDup_cons in Hnd as [Hx Hnd].
    destruct x as [d [id r]]. unfold candidate_key in Hx |- *. cbn [fst snd] in Hx |- *.
    assert (Hmem : In (id, r) (downloads (tracking_data t))) by (apply (Hin (d, (id, r))); now left).
    pose proof (dict_In_mem _ _ _ Hmem) as Hm.
    assert (Hin' : forall y, In y xs -> In (snd y) (Dict.remove id (downloads (tracking_data t)))).
    { intros [d' [id' r']] Hy. cbn [snd]. apply dict_remove_In; [exact Hwf|].
      split; [apply (Hin (d', (id', r'))); now right|].
      intros ->. apply Hx. apply list_elem_of_In.
      apply (in_map candidate_key _ (d', (id, r'))). exact Hy. }
    rewrite remove_record_run.
    pose proof (Hdir (d, (id, r)) (or_introl eq_refl)) as Hr. unfold FS.is_dir in Hr.
    cbn [snd] in Hr.
    destruct (disk t !! file_path r) as [[m|data m]|] eqn:E; [discriminate| |].
    + unfold drop_record. cbn [without_file tracking_data]. rewrite Hm.
      apply IH; cbn; auto using dict_remove_wf.
      intros y Hy. apply is_dir_delete. apply Hdir. now right.
    + unfold drop_record. rewrite Hm.
      apply IH; cbn; auto using dict_remove_wf.
      intros y Hy. apply Hdir. now right.
Qed.

(** The capacity policy runs to its end when the ids are distinct, the
    dates of the records with an existing file parse to naive timestamps,
    and no tracked path is a directory. *)
Lemma cleanup_by_storage_limit_completes max l t :
  Dict.wf (downloads (tracking_data t)) ->
  (forall item, In item (downloads (tracking_data t)) ->
     FS.path_exists (disk t) (file_path (snd item)) = true ->
     naive_date (snd item)) ->
  (forall item, In item (downloads (tracking_data t)) ->
     FS.is_dir (disk t) (file_path (snd item)) = false) ->
  completes (cleanup_by_storage_limit_try max) (l, t) = true.
Proof.
  intros Hwf Hdates Hdir. unfold completes, cleanup_by_storage_limit_try.
  rewrite bind_run. unfold read_data at 1. cbn [get_data locals_data tracker_data snd].
  rewrite bind_run.
  destruct (collect_existing_completes (downloads (tracking_data t)) (l, t) Hdates)
    as (xs & Hc & Hnaive).
  destruct (collect_existing_run (downloads (tracking_data t)) (l, t)) as (r & Hr & Hfacts).
  rewrite Hc in Hr. injection Hr as <-. rewrite Hc.
  destruct (Hfacts xs eq_refl) as [Hxs _]. cbn [snd] in Hxs.
  rewrite bind_run. unfold sort_by_date. rewrite Hnaive. cbn [orb of_res]. unfold ret at 1.
  set (sorted := stable_sort _ xs).
  assert (Hperm : Permutation sorted xs) by apply stable_sort_perm.
  assert (Hkeys : NoDup (map candidate_key sorted)).
  { assert (Hp : Permutation (map candidate_key sorted) (map candidate_key xs))
      by now apply Permutation_map.
    rewrite Hp.
    replace (map candidate_key xs) with (map fst (map snd xs))
      by (rewrite map_map; reflexivity).
    rewrite Hxs. now apply filter_keys_NoDup. }
  assert (Hin : forall x, In x sorted -> In (snd x) (downloads (tracking_data t))).
  { intros x Hx. apply list_elem_of_In in Hx. rewrite Hperm in Hx.
    apply list_elem_of_In in Hx. apply (in_map snd) in Hx. rewrite Hxs in Hx.
    now apply filter_In in Hx as [Hx _]. }
  rewrite bind_run.
  destruct (evict_loop_completes max sorted l t Hwf Hkeys Hin) as ([l1 t1] & ->).
  { intros x Hx. apply Hdir. now apply Hin. }
  reflexivity.
Qed.

Lemma parent_check_same_dirs fs fs' p :
  same_dirs fs fs' -> FS.parent_check fs p = Ok tt -> FS.parent_check fs' p = Ok tt.
Proof.
  intros Hd. unfold FS.parent_check.
  destruct (Path.basename p); [auto|].
  destruct (Path.dirname p) as [|a0 d] eqn:Ed; [auto|].
  specialize (Hd (String a0 d)). unfold FS.is_dir in Hd.
  destruct (fs !! String a0 d) as [[]|]; try discriminate.
  destruct (fs' !! String a0 d) as [[]|]; try discriminate. auto.
Qed.

Lemma step_ready_same_dirs c fs fs' r :
  same_dirs fs fs' -> step_ready c fs r -> step_ready c fs' r.
Proof.
  intros Hd [Hc|(Hcmp & Hp & Hgz & Hpc)]; [now left|right].
  rewrite !Hd. repeat split; auto. eapply parent_check_same_dirs; eauto.
Qed.

Lemma compress_step_completes now c id r l t :
  step_ready c (disk t) r ->
  exists l' t', compress_step now c (id, r) (l, t) = (Ok tt, (l', t')) /\
                same_dirs (disk t) (disk t').
Proof.
  intros Hready.
  assert (Hok : exists s', compress_step now c (id, r) (l, t) = (Ok tt, s')).
  { unfold compress_step. cbn [fst snd].
    rewrite bind_run. unfold os_exists at 1, query, FS.path_exists.
    cbn [get_disk locals_disk tracker_disk snd].
    destruct (compressed r) eqn:Ec; [eexists; reflexivity|].
    destruct Hready as [Hc|(Hcmp & Hp & Hgz & Hpc)]; [congruence|].
    cbn [orb negb].
    destruct (disk t !! file_path r) as [n|] eqn:El; [|eexists; reflexivity].
    cbn [negb]. rewrite bind_run. unfold comparable in Hcmp.
    destruct (parse_date (download_date r)) as [d|e]; [|discriminate].
    cbn [of_res]. unfold ret at 1. rewrite bind_run.
    destruct (dt_lt d c) as [[|]|e]; [| eexists; reflexivity | discriminate].
    cbn [of_res]. unfold ret at 1.
    rewrite bind_run. unfold os_getsize at 1, query, FS.getsize.
    cbn [get_disk locals_disk tracker_disk snd]. rewrite El.
    unfold FS.is_dir in Hp. rewrite El in Hp.
    destruct n as [m|content m]; [discriminate|].
    rewrite bind_run. unfold os_read at 1, query, FS.read.
    cbn [get_disk locals_disk tracker_disk snd]. rewrite El.
    rewrite bind_run. unfold os_write at 1, update.
    cbn [get_disk set_disk locals_disk tracker_disk snd fst].
    assert (Ew : FS.write now (disk t) (file_path r +:+ ".gz") (gzip_compress content) =
                 Ok (<[file_path r +:+ ".gz" := File (gzip_compress content) now]> (disk t))).
    { unfold FS.write. unfold FS.is_dir in Hgz. rewrite Hpc.
      destruct (disk t !! (file_path r +:+ ".gz")) as [[]|]; try discriminate; reflexivity. }
    rewrite Ew.
    rewrite bind_run. unfold os_exists at 1, query, FS.path_exists.
    cbn [get_disk locals_disk tracker_disk snd disk]. rewrite lookup_insert_eq.
    rewrite bind_run. unfold os_getsize at 1, query, FS.getsize.
    cbn [get_disk locals_disk tracker_disk snd disk]. rewrite lookup_insert_eq.
    rewrite bind_run. unfold os_remove at 1, update, FS.remove.
    cbn [get_disk set_disk locals_disk tracker_disk snd fst disk].
    rewrite lookup_insert_ne, El by apply gz_path_neq.
    rewrite bind_run. unfold set_download at 1, modify_data.
    cbn [get_data set_data locals_data tracker_data snd fst disk tracking_data].
    rewrite bind_run. unfold get_locals at 1, set_locals. cbn [fst snd].
    eexists. reflexivity. }
  destruct Hok as ([l' t'] & Hrun). exists l', t'. split; [exact Hrun|].
  apply compress_step_outcome in Hrun as [(_ & -> & _)|(content & m & _ & Hel & Hl & Hd & _)].
  - intros q. reflexivity.
  - intros q. rewrite Hd. unfold compressed_disk, FS.is_dir.
    destruct Hready as [Hc|(_ & _ & Hgz & _)].
    { unfold eligible in Hel. rewrite Hc in Hel. discriminate. }
    unfold FS.is_dir in Hgz.
    destruct (decide (q = file_path r)) as [->|Hq].
    + rewrite lookup_delete_eq, Hl. reflexivity.
    + rewrite lookup_delete_ne by auto.
      destruct (decide (q = file_path r +:+ ".gz")) as [->|Hq'].
      * rewrite lookup_insert_eq. destruct (disk t !! _) as [[]|]; try discriminate; reflexivity.
      * rewrite lookup_insert_ne by auto. reflexivity.
Qed.

Lemma compress_loop_completes now c items l t :
  Forall (fun item => step_ready c (disk t) (snd item)) items ->
  exists s', for_each items (compress_step now c) (l, t) = (Ok tt, s').
Proof.
  revert l t. induction items as [|[id r] items IH]; intros l t Hall.
  - eexists. reflexivity.
  - apply Forall_cons in Hall as [Hr Hall]. rewrite for_each_cons.
    destruct (compress_step_completes now c id r l t Hr) as (l' & t' & -> & Hd).
    apply IH. eapply Forall_impl; [exact Hall|].
    intros item. cbn beta. now apply step_ready_same_dirs.
Qed.

(** The compression pass runs to its end when every record is ready for
    its step on the disk the pass starts from. *)
Lemma compress_old_files_completes now c l t :
  Forall (fun item => step_ready (c) (disk t) (snd item))
         (downloads (tracking_data t)) ->
  completes (compress_old_files_try now c) (l, t) = true.
Proof.
  intros Hall. unfold completes, compress_old_files_try. cbn zeta.
  rewrite bind_run. unfold read_data at 1. cbn [get_data locals_data tracker_data snd].
  rewrite bind_run.
  destruct (compress_loop_completes now c _ l t Hall) as ([l1 t1] & Hl).
  rewrite Hl.
  rewrite bind_run. unfold get_locals at 1. cbn [fst snd].
  destruct (0 <? fst l1)%Z; reflexivity.
Qed.

End Completion.

(** ** The scenarios of the specification, run on the model

    Sizes are in bytes where the specification speaks of megabytes: a
    limit of [mb n] is a limit of [n] bytes. *)

(** Records A (40 days, 5 bytes), B (20 days, 3 bytes) and C (2 days,
    2 bytes): [cleanup_old_files 30] removes A only and leaves 5 bytes;
    [cleanup_by_storage_limit] with a limit of 4 bytes then removes B and
    leaves only C with 2 bytes. *)
Example retention_scenario :
  let rt := Demo.runtime [] in
  let first := @cleanup_old_files rt Scenario.now 30 Scenario.sized_tracker in
  let t1 := snd first in
  let second := @cleanup_by_storage_limit rt (mb 4) t1 in
  let t2 := snd second in
  fst first = Ok (1%Z, mb 5) /\
  map fst (downloads (tracking_data t1)) = ["B"; "C"] /\
  Qeq_bool (live_size (disk t1) (downloads (tracking_data t1))) (mb 5) = true /\
  match fst second with
  | Ok (count, size) => (count =? 1)%Z && Qeq_bool size (mb 3)
  | Raise _ => false
  end = true /\
  map fst (downloads (tracking_data t2)) = ["C"] /\
  Qeq_bool (live_size (disk t2) (downloads (tracking_data t2))) (mb 2) = true.
Proof.
  intros rt first t1 second t2.
  split; [vm_compute; reflexivity|].
  split; [vm_compute; reflexivity|].
  split; [vm_compute; reflexivity|].
  split; [vm_compute; reflexivity|].
  split; vm_compute; reflexivity.
Qed.

(** Records of 10, 5 and 1 days that exceed the limit by one byte: the
    10-day-old record is the one removed, whatever its place in the
    store. *)
Example oldest_first_scenario :
  let rt := Demo.runtime [] in
  let result := @cleanup_by_storage_limit rt (mb 5) Scenario.shuffled_tracker in
  map fst (downloads (tracking_data Scenario.shuffled_tracker)) = ["F"; "T"; "O"] /\
  map fst (downloads (tracking_data (snd result))) = ["F"; "O"] /\
  FS.path_exists (disk (snd result)) "downloads/T.pdf" = false /\
  FS.path_exists (disk (snd result)) "downloads/F.pdf" = true.
Proof.
  intros rt result.
  split; [vm_compute; reflexivity|].
  split; [vm_compute; reflexivity|].
  split; vm_compute; reflexivity.
Qed.

(** The hypotheses under which the age policy runs to its end hold of
    the store of the first scenario. *)
Example sized_tracker_completes :
  minus_days Scenario.now 30 = Ok (Scenario.now - 30 * microseconds_per_day)%Z /\
  completes (@cleanup_old_files_try (Demo.runtime []) Scenario.now
               (Naive (Scenario.now - 30 * microseconds_per_day)))
    (no_removals 0, Scenario.sized_tracker) = true.
Proof.
  split; [vm_compute; reflexivity|].
  apply cleanup_old_files_completes.
  - solve_wf.
  - repeat constructor.
  - intros item [<-|[<-|[<-|[]]]] _; vm_compute; reflexivity.
Qed.

(** ** The record store *)


Section DictMore.
Context {V : Type}.

Lemma dict_set_absent (d : dict V) k v :
  Dict.mem k d = false -> Dict.set k v d = (d ++ [(k, v)])%list.
Proof.
  unfold Dict.mem. induction d as [|[k' v'] d IH]; cbn [Dict.get Dict.set]; [reflexivity|].
  destruct (String.eqb k k'); [discriminate|].
  intros H. cbn. now rewrite IH.
Qed.

Lemma dict_get_app_absent (d : dict V) k v k' :
  Dict.get k' (d ++ [(k, v)])%list =
  match Dict.get k' d with
  | Some x => Some x
  | None => if String.eqb k' k then Some v else None
  end.
Proof.
  induction d as [|[k0 v0] d IH]; cbn [Dict.get app]; [reflexivity|].
  destruct (String.eqb k' k0); [reflexivity|exact IH].
Qed.

Lemma dict_wf_app_absent (d : dict V) k v :
  Dict.wf d -> Dict.mem k d = false -> Dict.wf (d ++ [(k, v)])%list.
Proof.
  unfold Dict.wf, Dict.keys. intros Hwf Hm. rewrite map_app. cbn.
  apply NoDup_app. split; [exact Hwf|]. split; [|apply NoDup_singleton].
  intros x Hx Hx'. apply list_elem_of_In in Hx'. destruct Hx' as [<-|[]].
  apply list_elem_of_In in Hx. apply dict_mem_In in Hx. congruence.
Qed.

End DictMore.

Section RecordStore.
Context `{RT : PyRuntime}.


Lemma add_download_run now id name p t :
  add_download now id name p t =
  if Dict.mem id (downloads (tracking_data t)) then (Ok false, t)
  else (Ok true, with_download now id name p t).
Proof.
  unfold add_download, try_except.
  rewrite bind_run. unfold read_data at 1. cbn [get_data tracker_data].
  destruct (Dict.mem id (downloads (tracking_data t))) eqn:Hm; [reflexivity|].
  rewrite bind_run. unfold os_exists at 1, query. cbn [get_disk tracker_disk].
  unfold with_download, new_record.
  destruct (FS.path_exists (disk t) p) eqn:Hp.
  - rewrite !bind_run. unfold os_getsize at 1, query. cbn [get_disk tracker_disk].
    unfold FS.path_exists in Hp. unfold FS.getsize.
    destruct (disk t !! p) as [[m|data m]|] eqn:El; [| |discriminate].
    + rewrite bind_run, calculate_checksum_run. unfold ret at 1.
      unfold ret at 1. cbn [fst snd].
      rewrite bind_run. unfold set_download at 1, modify_data at 1.
      cbn [get_data set_data tracker_data]. destruct t; reflexivity.
    + rewrite bind_run, calculate_checksum_run. unfold ret at 1.
      unfold ret at 1. cbn [fst snd].
      rewrite bind_run. unfold set_download at 1, modify_data at 1.
      cbn [get_data set_data tracker_data]. destruct t; reflexivity.
  - unfold ret at 1. rewrite bind_run.
    unfold FS.path_exists in Hp. unfold FS.getsize.
    destruct (disk t !! p) as [[m|data m]|] eqn:El; try discriminate.
    cbn [fst snd]. unfold set_download at 1, modify_data at 1.
    cbn [get_data set_data tracker_data]. destruct t; reflexivity.
Qed.

End RecordStore.

Section RecordStore2.
Context `{RT : PyRuntime}.

(** X1: an id that is tracked is not added again: the call returns
    [False] and changes nothing.  In particular the second of two calls
    for the same id is refused, whatever the first one did. *)
Theorem add_download_duplicate now now' id name name' p p' t :
  (Dict.mem id (downloads (tracking_data t)) = true ->
   add_download now id name p t = (Ok false, t)) /\
  (let t1 := snd (add_download now id name p t) in
   add_download now' id name' p' t1 = (Ok false, t1)).
Proof.
  split.
  - intros Hm. now rewrite add_download_run, Hm.
  - cbn zeta. rewrite (add_download_run now id name p t).
    destruct (Dict.mem id (downloads (tracking_data t))) eqn:Hm; cbn [snd].
    + now rewrite add_download_run, Hm.
    + rewrite add_download_run.
      assert (Hm' : Dict.mem id (downloads (tracking_data (with_download now id name p t))) = true).
      { cbn. unfold Dict.mem. rewrite dict_get_set, String.eqb_refl. reflexivity. }
      now rewrite Hm'.
Qed.

(** X2: an id that is not tracked is added: the call returns [True], the
    record is appended to the store with the size and the digest of the
    file as it is on disk (size 0 and no digest when there is no file),
    the counters of the statistics grow by one record and by the size,
    and the disk is not touched. *)
Theorem add_download_new now id name p t :
  Dict.mem id (downloads (tracking_data t)) = false ->
  exists t' r,
    add_download now id name p t = (Ok true, t') /\
    disk t' = disk t /\
    downloads (tracking_data t') = (downloads (tracking_data t) ++ [(id, r)])%list /\
    edicto_id r = id /\ filename r = name /\ file_path r = p /\
    download_date r = isoformat now /\ compressed r = false /\
    (forall data m, disk t !! p = Some (File data m) ->
       file_size r = Z.of_nat (String.length data) /\
       checksum r = Some (sha256_hexdigest data)) /\
    (disk t !! p = None -> file_size r = 0%Z /\ checksum r = None) /\
    total_downloads (statistics (tracking_data t')) =
      (total_downloads (statistics (tracking_data t)) + 1)%Z /\
    (stat_total_size_mb (statistics (tracking_data t')) ==
     stat_total_size_mb (statistics (tracking_data t)) + mb (file_size r))%Q /\
    last_cleanup (statistics (tracking_data t')) = last_cleanup (statistics (tracking_data t)) /\
    last_compression (statistics (tracking_data t')) =
      last_compression (statistics (tracking_data t)) /\
    last_updated (tracking_data t') = last_updated (tracking_data t).
Proof.
  intros Hm. rewrite add_download_run, Hm.
  exists (with_download now id name p t), (new_record now (disk t) id name p).
  split; [reflexivity|]. split; [reflexivity|].
  split; [cbn; now apply dict_set_absent|].
  do 5 (split; [reflexivity|]).
  split.
  { intros data m El. unfold new_record, FS.getsize, FS.path_exists, checksum_of, FS.read.
    cbn. rewrite El. split; reflexivity. }
  split.
  { intros El. unfold new_record, FS.getsize, FS.path_exists. cbn. rewrite El.
    split; reflexivity. }
  split; [reflexivity|]. split; [cbn; reflexivity|]. repeat split; reflexivity.
Qed.

(** X3: looking up any id after [add_download]: a record that was stored
    before is returned as it was (an existing record is never
    overwritten), the new record is returned for the added id, and an id
    that is neither is still unknown. *)
Theorem add_download_lookup now id name p t id' :
  get_download_record id' (snd (add_download now id name p t)) =
  (Ok match Dict.get id' (downloads (tracking_data t)) with
      | Some r => Some r
      | None => if String.eqb id' id then Some (new_record now (disk t) id name p) else None
      end,
   snd (add_download now id name p t)).
Proof.
  rewrite add_download_run. unfold get_download_record.
  rewrite bind_run. unfold read_data at 1. cbn [get_data tracker_data]. unfold ret.
  f_equal. f_equal.
  destruct (Dict.mem id (downloads (tracking_data t))) eqn:Hm; cbn [snd].
  - destruct (Dict.get id' (downloads (tracking_data t))) eqn:Hg; [reflexivity|].
    destruct (String.eqb_spec id' id) as [->|]; [|reflexivity].
    unfold Dict.mem in Hm. rewrite Hg in Hm. discriminate.
  - cbn. rewrite dict_get_set.
    destruct (String.eqb_spec id' id) as [->|].
    + unfold Dict.mem in Hm. destruct (Dict.get id _); [discriminate|reflexivity].
    + destruct (Dict.get id' _); reflexivity.
Qed.

(** X4: the three ways of asking whether an id is tracked agree, and none
    of them changes the tracker. *)
Theorem accessors_agree id t :
  exists b ids o,
    is_downloaded id t = (Ok b, t) /\
    get_downloaded_ids t = (Ok ids, t) /\
    get_download_record id t = (Ok o, t) /\
    (b = true <-> id ∈ ids) /\
    (b = true <-> o <> None) /\
    (forall r, o = Some r -> In (id, r) (downloads (tracking_data t))) /\
    (forall k, k ∈ ids <-> exists r, In (k, r) (downloads (tracking_data t))).
Proof.
  exists (Dict.mem id (downloads (tracking_data t))),
         (list_to_set (Dict.keys (downloads (tracking_data t)))),
         (Dict.get id (downloads (tracking_data t))).
  split; [reflexivity|]. split; [reflexivity|]. split; [reflexivity|].
  split; [|split; [|split]].
  - rewrite elem_of_list_to_set, list_elem_of_In. apply dict_mem_In.
  - unfold Dict.mem. destruct (Dict.get id _); split; congruence.
  - intros r. apply dict_get_In.
  - intros k. rewrite elem_of_list_to_set, list_elem_of_In. unfold Dict.keys.
    rewrite in_map_iff. split.
    + intros ([k' r] & <- & Hin). now exists r.
    + intros (r & Hin). now exists (k, r).
Qed.

(** X5: verifying right after [add_download] has added a record: the new
    id is never reported as corrupted, it is reported as missing exactly
    when there is no file at its path, and the reports on the other ids
    are what they were. *)
Theorem add_download_then_verify now id name p t :
  Dict.mem id (downloads (tracking_data t)) = false ->
  exists missing corrupted,
    fst (verify_files t) = Ok (missing, corrupted) /\
    fst (verify_files (snd (add_download now id name p t))) =
      Ok ((missing ++ if FS.path_exists (disk t) p then [] else [id])%list, corrupted).
Proof.
  intros Hm. rewrite add_download_run, Hm. cbn [snd].
  rewrite !verify_files_run. cbn [fst].
  eexists _, _. split; [reflexivity|].
  cbn [with_download disk tracking_data downloads set_statistics set_downloads].
  rewrite (dict_set_absent _ _ _ Hm), !List.filter_app, !map_app.
  cbn [List.filter]. unfold is_missing at 2, is_corrupted at 2.
  cbn [snd new_record file_path checksum compressed].
  destruct (FS.path_exists (disk t) p) eqn:Hp; cbn [negb andb map fst app].
  - rewrite String.eqb_refl. cbn [negb]. rewrite !andb_false_r.
    cbn [map app]. now rewrite !app_nil_r.
  - cbn [map fst app]. now rewrite !app_nil_r.
Qed.

End RecordStore2.

(** ** Invariants of the store *)

(** ** Loop invariants *)

Lemma for_each_invariant {S X} (I : S -> Prop) (body : X -> M S unit) xs s r s' :
  (forall x s r s', In x xs -> I s -> body x s = (r, s') -> I s') ->
  I s -> for_each xs body s = (r, s') -> I s'.
Proof.
  revert s. induction xs as [|x xs IH]; intros s Hstep Hs Hrun.
  - injection Hrun as <- <-. exact Hs.
  - rewrite for_each_cons in Hrun.
    destruct (body x s) as [[[]|e] s1] eqn:E.
    + apply (IH s1); [|eapply Hstep; [now left|exact Hs|exact E]|exact Hrun].
      intros y s0 r0 s0' Hy. apply Hstep. now right.
    + injection Hrun as <- <-. eapply Hstep; [now left|exact Hs|exact E].
Qed.

Lemma for_break_invariant {S X} (I : S -> Prop) (body : X -> M S ctl) xs s r s' :
  (forall x s r s', In x xs -> I s -> body x s = (r, s') -> I s') ->
  I s -> for_break xs body s = (r, s') -> I s'.
Proof.
  revert s. induction xs as [|x xs IH]; intros s Hstep Hs Hrun.
  - injection Hrun as <- <-. exact Hs.
  - rewrite for_break_cons in Hrun.
    destruct (body x s) as [[[]|e] s1] eqn:E.
    + apply (IH s1); [|eapply Hstep; [now left|exact Hs|exact E]|exact Hrun].
      intros y s0 r0 s0' Hy. apply Hstep. now right.
    + injection Hrun as <- <-. eapply Hstep; [now left|exact Hs|exact E].
    + injection Hrun as <- <-. eapply Hstep; [now left|exact Hs|exact E].
Qed.

Lemma dict_remove_length {V} (d : dict V) k :
  Dict.mem k d = true -> S (length (Dict.remove k d)) = length d.
Proof.
  unfold Dict.mem. induction d as [|[k' v'] d IH]; cbn [Dict.get Dict.remove]; [discriminate|].
  destruct (String.eqb k k'); [reflexivity|]. intros H. cbn. now rewrite IH.
Qed.

Section Counting.
Context `{RT : PyRuntime}.


Lemma remove_record_tally id r s res s' :
  remove_record id r s = (res, s') -> tally s' = tally s.
Proof.
  destruct s as [l t], s' as [l' t']. rewrite remove_record_run.
  unfold drop_record, tally.
  destruct (disk t !! file_path r) as [[m|data m]|].
  - intros [= <- <- <-]. reflexivity.
  - cbn [without_file tracking_data].
    destruct (Dict.mem id (downloads (tracking_data t))) eqn:Hm.
    + intros [= <- <- <-]. cbn. apply dict_remove_length in Hm. lia.
    + intros [= <- <- <-]. reflexivity.
  - destruct (Dict.mem id (downloads (tracking_data t))) eqn:Hm.
    + intros [= <- <- <-]. cbn. apply dict_remove_length in Hm. lia.
    + intros [= <- <- <-]. reflexivity.
Qed.

Lemma remove_loop_tally xs s res s' :
  for_each xs (fun item => remove_record (fst item) (snd item)) s = (res, s') ->
  tally s' = tally s.
Proof.
  intros Hrun.
  apply (for_each_invariant (fun s0 => tally s0 = tally s) _ _ _ _ _
           ltac:(intros x s0 r0 s0' _ H0 E; rewrite <- H0; eapply remove_record_tally; exact E)
           eq_refl Hrun).
Qed.

Lemma evict_loop_tally max xs s res s' :
  for_break xs (evict max) s = (res, s') -> tally s' = tally s.
Proof.
  intros Hrun.
  refine (for_break_invariant (fun s0 => tally s0 = tally s) _ _ _ _ _ _ eq_refl Hrun).
  intros x [l0 t0] r0 s0' _ H0 E. rewrite <- H0. rewrite evict_run in E.
  destruct (Qle_bool (current_size l0) max); [now injection E as <- <-|].
  destruct (remove_record _ _ _) as [[[]|e] s1] eqn:Er; injection E as <- <-;
    eapply remove_record_tally; exact Er.
Qed.

Lemma cleanup_old_files_try_tally now c s res s' :
  cleanup_old_files_try now c s = (res, s') ->
  tally s' = tally s /\
  (res = Ok tt ->
   total_downloads (statistics (tracking_data (snd s'))) =
     (total_downloads (statistics (tracking_data (snd s))) - removed_count (fst s'))%Z).
Proof.
  destruct s as [l t]. unfold cleanup_old_files_try.
  rewrite bind_run. unfold read_data at 1. cbn [get_data locals_data tracker_data snd].
  rewrite bind_run.
  destruct (collect_old_run c (downloads (tracking_data t)) (l, t))
    as (r & -> & _).
  destruct r as [xs|e]; [|intros [= <- <-]; split; [reflexivity|discriminate]].
  rewrite bind_run.
  destruct (for_each xs _ (l, t)) as [[[]|e] [l1 t1]] eqn:Eloop.
  - pose proof (remove_loop_tally _ _ _ _ Eloop) as Ht.
    pose proof (remove_loop_only_removes _ _ _ _ _ _ Eloop) as Hor.
    apply only_removes_statistics in Hor.
    rewrite bind_run. unfold get_locals at 1. cbn [fst snd].
    unfold modify_data. cbn [get_data set_data locals_data tracker_data fst snd].
    intros [= <- <-]. split.
    + rewrite <- Ht. reflexivity.
    + intros _. cbn. now rewrite Hor.
  - intros [= <- <-]. split; [|discriminate].
    eapply remove_loop_tally; exact Eloop.
Qed.

Lemma cleanup_by_storage_limit_try_tally max s res s' :
  cleanup_by_storage_limit_try max s = (res, s') ->
  tally s' = tally s /\
  (res = Ok tt ->
   total_downloads (statistics (tracking_data (snd s'))) =
     (total_downloads (statistics (tracking_data (snd s))) - removed_count (fst s'))%Z).
Proof.
  destruct s as [l t]. unfold cleanup_by_storage_limit_try.
  rewrite bind_run. unfold read_data at 1. cbn [get_data locals_data tracker_data snd].
  rewrite bind_run.
  destruct (collect_existing_run (downloads (tracking_data t)) (l, t)) as (r & -> & _).
  destruct r as [xs|e]; [|intros [= <- <-]; split; [reflexivity|discriminate]].
  rewrite bind_run.
  destruct (sort_by_date xs) as [sorted|e];
    [|intros [= <- <-]; split; [reflexivity|discriminate]].
  cbn [of_res]. unfold ret at 1. rewrite bind_run.
  destruct (for_break sorted (evict max) (l, t)) as [[[]|e] [l1 t1]] eqn:Eloop.
  - pose proof (evict_loop_tally _ _ _ _ _ Eloop) as Ht.
    pose proof (evict_loop_only_removes _ _ _ _ _ _ _ Eloop) as Hor.
    apply only_removes_statistics in Hor.
    rewrite bind_run. unfold get_locals at 1. cbn [fst snd].
    unfold modify_data. cbn [get_data set_data locals_data tracker_data fst snd].
    intros [= <- <-]. split.
    + rewrite <- Ht. reflexivity.
    + intros _. cbn. now rewrite Hor.
  - intros [= <- <-]. split; [|discriminate].
    eapply evict_loop_tally; exact Eloop.
Qed.

(** X6: [cleanup_old_files] raises only when its cutoff cannot be
    computed, and then nothing has changed.  In every other run of it and
    in every run of [cleanup_by_storage_limit], also one that is cut short
    by an exception inside the [try] block, the count returned is the
    number of records that have left the store. *)
Theorem retention_count_exact now days max t :
  match minus_days now days with
  | Ok _ =>
      exists size t',
        cleanup_old_files now days t =
          (Ok (Z.of_nat (length (downloads (tracking_data t))) -
               Z.of_nat (length (downloads (tracking_data t'))), size)%Z, t')
  | Raise _ => cleanup_old_files now days t = (Raise OverflowError, t)
  end /\
  (exists size t',
     cleanup_by_storage_limit max t =
       (Ok (Z.of_nat (length (downloads (tracking_data t))) -
            Z.of_nat (length (downloads (tracking_data t'))), size)%Z, t')).
Proof.
  split.
  - rewrite cleanup_old_files_run.
    destruct (minus_days now days) as [c|e] eqn:Hc;
      [|now apply minus_days_raises in Hc as ->].
    destruct (cleanup_old_files_try now (Naive c) (no_removals 0, t)) as [res [l t']] eqn:E.
    apply cleanup_old_files_try_tally in E as [Ht _]. unfold tally in Ht. cbn in Ht.
    exists (removed_size_mb l), t'. do 3 f_equal. lia.
  - destruct (get_storage_stats_run t) as (stats & Hs & _).
    destruct (Qle_bool (total_size_mb stats) max) eqn:Hq.
    + exists 0%Q, t. unfold cleanup_by_storage_limit. rewrite bind_run, Hs, Hq.
      unfold ret. do 3 f_equal. lia.
    + rewrite (cleanup_by_storage_limit_run max t stats Hs Hq).
      destruct (cleanup_by_storage_limit_try max (no_removals (total_size_mb stats), t))
        as [res [l t']] eqn:E.
      apply cleanup_by_storage_limit_try_tally in E as [Ht _]. unfold tally in Ht. cbn in Ht.
      exists (removed_size_mb l), t'. do 3 f_equal. lia.
Qed.

End Counting.

Lemma endswith_refl s : Str.endswith s s = true.
Proof. destruct s; cbn [Str.endswith]; now rewrite String.eqb_refl. Qed.

Lemma endswith_app s suf : Str.endswith (s +:+ suf) suf = true.
Proof.
  induction s as [|c s IH].
  - rewrite app_nil_l_s. apply endswith_refl.
  - rewrite app_cons_s. cbn [Str.endswith]. rewrite IH. apply orb_true_r.
Qed.

Lemma dict_set_keys {V} (d : dict V) k v :
  Dict.mem k d = true -> Dict.keys (Dict.set k v d) = Dict.keys d.
Proof.
  unfold Dict.mem, Dict.keys.
  induction d as [|[k' v'] d IH]; cbn [Dict.get Dict.set map fst]; [discriminate|].
  destruct (String.eqb_spec k k') as [->|Hne]; [reflexivity|].
  intros H. cbn [map fst]. now rewrite IH.
Qed.



Section CompressionInvariants.
Context `{RT : PyRuntime}.

Lemma compress_old_files_try_loop now c l t res l' t' :
  compress_old_files_try now c (l, t) = (res, (l', t')) ->
  exists res1 l1 t1,
    for_each (downloads (tracking_data t)) (compress_step now c) (l, t) =
      (res1, (l1, t1)) /\
    disk t' = disk t1 /\
    downloads (tracking_data t') = downloads (tracking_data t1) /\
    total_downloads (statistics (tracking_data t')) =
      total_downloads (statistics (tracking_data t1)).
Proof.
  unfold compress_old_files_try.
  rewrite bind_run. unfold read_data at 1. cbn [get_data locals_data tracker_data snd].
  rewrite bind_run.
  destruct (for_each _ _ (l, t)) as [[[]|e] [l1 t1]] eqn:Eloop.
  - rewrite bind_run. unfold get_locals at 1. cbn [fst snd].
    destruct (0 <? fst l1)%Z.
    + unfold modify_data. cbn [get_data set_data locals_data tracker_data fst snd].
      intros [= <- <- <-]. exists (Ok tt), l1, t1. auto.
    + intros [= <- <- <-]. exists (Ok tt), l1, t1. auto.
  - intros [= <- <- <-]. exists (Raise e), l1, t1. auto.
Qed.


Lemma compress_loop_inv now c ds0 items s res s' :
  Dict.wf ds0 ->
  (forall x, In x items -> In x ds0) ->
  compress_inv ds0 s ->
  for_each items (compress_step now c) s = (res, s') ->
  compress_inv ds0 s'.
Proof.
  intros Hwf Hsub Hs Hrun.
  refine (for_each_invariant (compress_inv ds0) _ _ _ _ _ _ Hs Hrun).
  intros [id0 r0] [l1 t1] r1 [l2 t2] Hx (Hk & Hrec) E.
  apply compress_step_outcome in E
    as [(_ & -> & _)|(content & m & _ & Hel & _ & _ & Hd & _)].
  { split; [exact Hk|exact Hrec]. }
  unfold compress_inv. cbn [snd] in *. rewrite Hd. cbn [downloads set_downloads].
  assert (Hm : Dict.mem id0 (downloads (tracking_data t1)) = true).
  { apply dict_mem_In. rewrite Hk. unfold Dict.keys.
    change id0 with (fst (id0, r0)). apply in_map. now apply Hsub. }
  split; [now rewrite dict_set_keys|].
  intros id r Hin. rewrite dict_get_set.
  destruct (String.eqb_spec id id0) as [->|Hne]; [|now apply Hrec].
  assert (r = r0).
  { pose proof (dict_In_get _ _ _ Hwf Hin) as H1.
    pose proof (dict_In_get _ _ _ Hwf (Hsub _ Hx)) as H2. congruence. }
  subst r. eexists. split; [reflexivity|]. right. exists content. split; [|reflexivity].
  unfold eligible in Hel. destruct (compressed r0); [discriminate|reflexivity].
Qed.

Lemma compress_old_files_inv now days t :
  Dict.wf (downloads (tracking_data t)) ->
  compress_inv (downloads (tracking_data t)) ((0%Z, 0%Q), snd (compress_old_files now days t)) /\
  total_downloads (statistics (tracking_data (snd (compress_old_files now days t)))) =
    total_downloads (statistics (tracking_data t)).
Proof.
  intros Hwf. rewrite compress_old_files_run.
  assert (H0 : compress_inv (downloads (tracking_data t)) ((0%Z, 0%Q), t)).
  { split; [reflexivity|].
    intros id r Hin. exists r. split; [now apply dict_In_get|now left]. }
  destruct (minus_days now days) as [c|e0]; [|split; [exact H0|reflexivity]].
  destruct (compress_old_files_try now (Naive c) (0%Z, 0%Q, t)) as [res [l' t']] eqn:E.
  pose proof (compress_old_files_try_frame _ _ _ _ _ _ _ E) as Hst.
  apply compress_old_files_try_loop in E as (res1 & l1 & t1 & Hloop & _ & Hds & Htd).
  pose proof (compress_loop_inv _ _ _ _ _ _ _ Hwf (fun x H => H) H0 Hloop) as (Hk & Hrec).
  unfold compress_inv. cbn [snd] in *. split.
  - split; [now rewrite Hds|]. rewrite Hds. exact Hrec.
  - rewrite Htd.
    pose proof (compress_loop_frame _ _ _ _ _ _ _ _ Hloop) as (_ & _ & Hfr).
    apply (f_equal statistics) in Hfr. cbn in Hfr. now rewrite Hfr.
Qed.

(** X8: the compression pass, in every run, keeps the ids of the store;
    a record is afterwards what it was or its compressed form: the path
    with [.gz] appended, the size of the compressed file, [compressed]
    set.  Id, file name, download date and checksum never change, and a
    record that was compressed stays as it is. *)
Theorem compress_keeps_records now days t :
  Dict.wf (downloads (tracking_data t)) ->
  let t' := snd (compress_old_files now days t) in
  Dict.keys (downloads (tracking_data t')) = Dict.keys (downloads (tracking_data t)) /\
  forall id r, In (id, r) (downloads (tracking_data t)) ->
    exists r',
      Dict.get id (downloads (tracking_data t')) = Some r' /\
      edicto_id r' = edicto_id r /\ filename r' = filename r /\
      download_date r' = download_date r /\ checksum r' = checksum r /\
      (compressed r = true -> r' = r) /\
      (r' = r \/
       (compressed r = false /\ compressed r' = true /\
        file_path r' = file_path r +:+ ".gz")).
Proof.
  intros Hwf t'. destruct (compress_old_files_inv now days t Hwf) as [(Hk & Hrec) _].
  cbn [snd] in Hk, Hrec. split; [exact Hk|].
  intros id r Hin. destruct (Hrec id r Hin) as (r' & Hg & [->|(content & Hc & ->)]).
  - exists r. split; [exact Hg|]. repeat split; auto.
  - eexists. split; [exact Hg|]. do 4 (split; [reflexivity|]).
    split; [congruence|]. right. repeat split; auto.
Qed.

End CompressionInvariants.

Section StoreInvariants.
Context `{RT : PyRuntime}.

Lemma storage_total_run t stats :
  get_storage_stats t = (Ok stats, t) -> storage_total t = total_size_mb stats.
Proof. intros H. unfold storage_total. now rewrite H. Qed.

(** The store after either retention policy holds records of the store
    before only. *)
Lemma retention_subset now days max t :
  (forall item, In item (downloads (tracking_data (snd (cleanup_old_files now days t)))) ->
                In item (downloads (tracking_data t))) /\
  (forall item, In item (downloads (tracking_data (snd (cleanup_by_storage_limit max t)))) ->
                In item (downloads (tracking_data t))).
Proof.
  split.
  - rewrite cleanup_old_files_run.
    destruct (minus_days now days) as [c|e0]; [|cbn [snd]; auto].
    destruct (cleanup_old_files_try now (Naive c) (no_removals 0, t)) as [res [l t']] eqn:E.
    apply cleanup_old_files_try_frame in E. cbn [snd].
    destruct res as [[]|e].
    + destruct E as (t1 & (_ & Hsub & _) & _ & ->). exact Hsub.
    + destruct E as (_ & Hsub & _). exact Hsub.
  - destruct (get_storage_stats_run t) as (stats & Hs & _).
    destruct (Qle_bool (total_size_mb stats) max) eqn:Hq.
    + unfold cleanup_by_storage_limit. rewrite bind_run, Hs, Hq. now cbn.
    + rewrite (cleanup_by_storage_limit_run max t stats Hs Hq).
      destruct (cleanup_by_storage_limit_try max (no_removals (total_size_mb stats), t))
        as [res [l t']] eqn:E.
      apply cleanup_by_storage_limit_try_frame in E. cbn [snd].
      destruct res as [[]|e].
      * destruct E as (t1 & (_ & Hsub & _) & _ & ->). exact Hsub.
      * destruct E as (_ & Hsub & _). exact Hsub.
Qed.

(** X7: the cached counter [total_downloads] keeps agreeing with the
    number of records: [add_download] and the compression pass always
    preserve the agreement, and each retention policy preserves it when
    its [try] block, if it is reached, is not cut short by an exception. *)
Theorem counted_preserved now days max id name p t :
  counted (tracking_data t) ->
  counted (tracking_data (snd (add_download now id name p t))) /\
  (Dict.wf (downloads (tracking_data t)) ->
   counted (tracking_data (snd (compress_old_files now days t)))) /\
  ((forall c, minus_days now days = Ok c ->
      completes (cleanup_old_files_try now (Naive c)) (no_removals 0, t) = true) ->
   counted (tracking_data (snd (cleanup_old_files now days t)))) /\
  (completes (cleanup_by_storage_limit_try max) (no_removals (storage_total t), t) = true ->
   counted (tracking_data (snd (cleanup_by_storage_limit max t)))).
Proof.
  unfold counted. intros Hc. split; [|split; [|split]].
  - rewrite add_download_run.
    destruct (Dict.mem id (downloads (tracking_data t))) eqn:Hm; [exact Hc|].
    cbn. rewrite (dict_set_absent _ _ _ Hm), length_app. cbn. lia.
  - intros Hwf. destruct (compress_old_files_inv now days t Hwf) as [(Hk & _) ->].
    cbn [snd] in Hk. apply (f_equal (@length _)) in Hk. unfold Dict.keys in Hk.
    rewrite !length_map in Hk. now rewrite Hk.
  - unfold completes. rewrite cleanup_old_files_run.
    destruct (minus_days now days) as [c|e0]; [|intros _; exact Hc].
    intros Hok. specialize (Hok c eq_refl).
    destruct (cleanup_old_files_try now (Naive c) (no_removals 0, t)) as [res [l t']] eqn:E.
    cbn [fst snd] in *. destruct res as [[]|e]; [|discriminate].
    apply cleanup_old_files_try_tally in E as [Ht Hst].
    unfold tally in Ht. cbn in Ht, Hst. rewrite (Hst eq_refl). lia.
  - unfold completes. destruct (get_storage_stats_run t) as (stats & Hs & _).
    rewrite (storage_total_run _ _ Hs).
    destruct (Qle_bool (total_size_mb stats) max) eqn:Hq.
    + intros _. unfold cleanup_by_storage_limit. rewrite bind_run, Hs, Hq. exact Hc.
    + rewrite (cleanup_by_storage_limit_run max t stats Hs Hq).
      destruct (cleanup_by_storage_limit_try max (no_removals (total_size_mb stats), t))
        as [res [l t']] eqn:E.
      cbn [fst snd]. intros Hok. destruct res as [[]|e]; [|discriminate].
      apply cleanup_by_storage_limit_try_tally in E as [Ht Hst].
      unfold tally in Ht. cbn in Ht, Hst. rewrite (Hst eq_refl). lia.
Qed.

(** X9: that every compressed record points at a path ending in [.gz]
    is kept by every operation that changes the store; and on a store
    where it holds, [verify_files] reports no compressed record as
    corrupted. *)
Theorem compressed_paths_invariant now days max id name p t :
  Dict.wf (downloads (tracking_data t)) ->
  gz_consistent (downloads (tracking_data t)) ->
  gz_consistent (downloads (tracking_data (snd (add_download now id name p t)))) /\
  gz_consistent (downloads (tracking_data (snd (cleanup_old_files now days t)))) /\
  gz_consistent (downloads (tracking_data (snd (cleanup_by_storage_limit max t)))) /\
  gz_consistent (downloads (tracking_data (snd (compress_old_files now days t)))) /\
  (exists missing corrupted,
     verify_files t = (Ok (missing, corrupted), t) /\
     forall k, In k corrupted ->
       exists r, In (k, r) (downloads (tracking_data t)) /\ compressed r = false).
Proof.
  intros Hwf Hgz. split; [|split; [|split; [|split]]].
  - rewrite add_download_run.
    destruct (Dict.mem id (downloads (tracking_data t))) eqn:Hm; [exact Hgz|].
    cbn. rewrite (dict_set_absent _ _ _ Hm). intros k r Hin.
    apply in_app_or in Hin as [Hin|[[= <- <-]|[]]]; [now apply (Hgz k)|discriminate].
  - intros k r Hin. apply (Hgz k). now apply (proj1 (retention_subset now days max t)).
  - intros k r Hin. apply (Hgz k). now apply (proj2 (retention_subset now days max t)).
  - destruct (compress_old_files_inv now days t Hwf) as [(Hk & Hrec) _]. cbn [snd] in Hk, Hrec.
    intros k r' Hin Hc.
    assert (Hwf' : Dict.wf (downloads (tracking_data (snd (compress_old_files now days t))))).
    { unfold Dict.wf. now rewrite Hk. }
    assert (Hkin : In k (Dict.keys (downloads (tracking_data t)))).
    { rewrite <- Hk. unfold Dict.keys. change k with (fst (k, r')). now apply in_map. }
    unfold Dict.keys in Hkin. apply in_map_iff in Hkin as ([k0 r] & Hk0 & Hin0).
    cbn in Hk0. subst k0.
    destruct (Hrec k r Hin0) as (r'' & Hg & Hsc).
    rewrite (dict_In_get _ _ _ Hwf' Hin) in Hg. injection Hg as <-.
    destruct Hsc as [->|(content & _ & ->)].
    + now apply (Hgz k).
    + apply endswith_app.
  - rewrite verify_files_run. eexists _, _. split; [reflexivity|]. intros k Hin.
    apply in_map_iff in Hin as ([k0 r] & Hk0 & Hin). cbn in Hk0. subst k0.
    apply filter_In in Hin as [Hin Hcor]. exists r. split; [exact Hin|].
    destruct (compressed r) eqn:Hc; [|reflexivity].
    pose proof (Hgz k r Hin Hc) as He.
    unfold is_corrupted in Hcor. cbn [snd] in Hcor. rewrite Hc, He in Hcor.
    destruct (checksum r); cbn in Hcor; rewrite ?andb_false_r in Hcor;
      discriminate.
Qed.

End StoreInvariants.

Section RetentionFrame.
Context `{RT : PyRuntime}.

Lemma only_removes_header t t' :
  only_removes t t' ->
  version (tracking_data t') = version (tracking_data t) /\
  created (tracking_data t') = created (tracking_data t) /\
  last_updated (tracking_data t') = last_updated (tracking_data t).
Proof.
  intros [H _]. rewrite <- H. repeat split; reflexivity.
Qed.

Lemma retention_header now days max t :
  (version (tracking_data (snd (cleanup_old_files now days t))) = version (tracking_data t) /\
   created (tracking_data (snd (cleanup_old_files now days t))) = created (tracking_data t) /\
   last_updated (tracking_data (snd (cleanup_old_files now days t))) =
     last_updated (tracking_data t)) /\
  (version (tracking_data (snd (cleanup_by_storage_limit max t))) = version (tracking_data t) /\
   created (tracking_data (snd (cleanup_by_storage_limit max t))) = created (tracking_data t) /\
   last_updated (tracking_data (snd (cleanup_by_storage_limit max t))) =
     last_updated (tracking_data t)).
Proof.
  split.
  - rewrite cleanup_old_files_run.
    destruct (minus_days now days) as [c|e0]; [|cbn [snd]; auto].
    destruct (cleanup_old_files_try now (Naive c) (no_removals 0, t)) as [res [l t']] eqn:E.
    apply cleanup_old_files_try_frame in E. cbn [snd].
    destruct res as [[]|e].
    + destruct E as (t1 & Hor & _ & ->). cbn. now apply only_removes_header.
    + now apply only_removes_header.
  - destruct (get_storage_stats_run t) as (stats & Hs & _).
    destruct (Qle_bool (total_size_mb stats) max) eqn:Hq.
    + unfold cleanup_by_storage_limit. rewrite bind_run, Hs, Hq. cbn. auto.
    + rewrite (cleanup_by_storage_limit_run max t stats Hs Hq).
      destruct (cleanup_by_storage_limit_try max (no_removals (total_size_mb stats), t))
        as [res [l t']] eqn:E.
      apply cleanup_by_storage_limit_try_frame in E. cbn [snd].
      destruct res as [[]|e].
      * destruct E as (t1 & Hor & _ & ->). cbn. now apply only_removes_header.
      * now apply only_removes_header.
Qed.

(** X10: the two retention policies only remove.  In every run, a record
    that is in the store afterwards was there before, unchanged; a path
    that exists afterwards existed before with the same content; and the
    version, the creation date and [last_updated] of the store are what
    they were (neither policy marks the store as updated). *)
Theorem retention_only_removes now days max t :
  let aged := snd (cleanup_old_files now days t) in
  let capped := snd (cleanup_by_storage_limit max t) in
  (forall item, In item (downloads (tracking_data aged)) ->
                In item (downloads (tracking_data t))) /\
  (forall item, In item (downloads (tracking_data capped)) ->
                In item (downloads (tracking_data t))) /\
  (forall p n, disk aged !! p = Some n -> disk t !! p = Some n) /\
  (forall p n, disk capped !! p = Some n -> disk t !! p = Some n) /\
  last_updated (tracking_data aged) = last_updated (tracking_data t) /\
  last_updated (tracking_data capped) = last_updated (tracking_data t) /\
  version (tracking_data aged) = version (tracking_data t) /\
  version (tracking_data capped) = version (tracking_data t).
Proof.
  intros aged capped.
  destruct (retention_subset now days max t) as [S1 S2].
  destruct (retention_never_writes now days max t) as [D1 D2].
  destruct (retention_header now days max t) as [(V1 & _ & U1) (V2 & _ & U2)].
  split; [exact S1|]. split; [exact S2|].
  split.
  { intros p n Hp. destruct (D1 p) as [E|E]; fold aged in E; congruence. }
  split.
  { intros p n Hp. destruct (D2 p) as [E|E]; fold capped in E; congruence. }
  repeat split; assumption.
Qed.

End RetentionFrame.

(** ** Loading, saving and backups *)

(** ** More on paths *)

Lemma has_slash_app a b : Str.has_slash (a +:+ b) = Str.has_slash a || Str.has_slash b.
Proof.
  induction a as [|c a IH].
  - now rewrite app_nil_l_s.
  - rewrite app_cons_s. cbn [Str.has_slash]. rewrite IH. now rewrite orb_assoc.
Qed.

Lemma rsplit_no_slash t : Str.has_slash t = false -> Path.rsplit t = ("", t).
Proof.
  induction t as [|c t IH]; [reflexivity|].
  cbn [Str.has_slash]. intros H. apply orb_false_iff in H as [Hc Ht].
  cbn [Path.rsplit]. rewrite (IH Ht). now rewrite Hc.
Qed.

Lemma rsplit_app_slash_snd s t :
  snd (Path.rsplit (s +:+ String "/" t)) = snd (Path.rsplit t).
Proof.
  induction s as [|c s IH].
  - rewrite app_nil_l_s. cbn [Path.rsplit].
    destruct (Path.rsplit t) as [h tl]. destruct h; reflexivity.
  - rewrite app_cons_s. cbn [Path.rsplit].
    pose proof (rsplit_app_slash s t) as Hf.
    destruct (Path.rsplit (s +:+ String "/" t)) as [h tl]. cbn [fst snd] in *.
    destruct h as [|a h].
    + symmetry in Hf. now apply app_cons_not_nil in Hf.
    + cbn [snd]. exact IH.
Qed.

(** Directory and base name of an entry [name] of the directory [d]. *)
Lemma split_entry s c name :
  c <> "/"%char -> Str.has_slash name = false ->
  Path.dirname ((s +:+ String c "") +:+ String "/" name) = s +:+ String c "" /\
  Path.basename ((s +:+ String c "") +:+ String "/" name) = name.
Proof.
  intros Hc Hn. unfold Path.dirname, Path.basename.
  rewrite rsplit_app_slash, rsplit_app_slash_snd, (rsplit_no_slash _ Hn). cbn [fst snd].
  split; [|reflexivity].
  rewrite app_assoc_s, app_cons_s, app_nil_l_s.
  rewrite (rstrip_app_char s c "/" Hc). cbn [Path.rstrip].
  replace (Ascii.eqb "/" "/") with true by reflexivity.
  destruct (s +:+ String c "") eqn:E; [now apply app_cons_not_nil in E|reflexivity].
Qed.

Section LoadFacts.
Context `{RT : PyRuntime}.
Variables tracking_file download_dir : string.

Lemma backup_entry_split name :
  Str.has_slash name = false ->
  Path.dirname (Path.join (backup_dir tracking_file) name) = backup_dir tracking_file /\
  Path.basename (Path.join (backup_dir tracking_file) name) = name.
Proof.
  intros Hn. rewrite join_backup_dir by now apply no_slash_not_absolute.
  destruct (backup_dir_shape tracking_file) as (s & -> & _).
  change ("/" +:+ name) with (String "/" name).
  apply split_entry; [discriminate|exact Hn].
Qed.

Lemma corrupted_backup_path_under now :
  under (backup_dir tracking_file +:+ "/") (corrupted_backup_path tracking_file now).
Proof. apply join_backup_dir_under. reflexivity. Qed.

(** What [load_tracking_data] does, case by case. *)
Lemma load_run now fs :
  load_tracking_data tracking_file download_dir now fs =
  match fs !! tracking_file with
  | None => (Ok (_create_empty_tracking_data now), fs)
  | Some (Dir _) => (Raise IsADirectoryError, fs)
  | Some (File text _) =>
      match json_load text with
      | Parsed doc => (Ok (_validate_and_migrate_data download_dir now doc), fs)
      | UnicodeError => (Raise UnicodeDecodeError, fs)
      | DecodeError =>
          match FS.copy2 fs tracking_file (corrupted_backup_path tracking_file now) with
          | Ok fs' => (Ok (_create_empty_tracking_data now), fs')
          | Raise e => (Raise e, fs)
          end
      end
  end.
Proof.
  destruct (fs !! tracking_file) as [[m|text m]|] eqn:Hf.
  - unfold load_tracking_data.
    rewrite bind_run. unfold os_exists at 1, query, FS.path_exists.
    cbn [get_disk fsys_disk]. rewrite Hf. cbn [negb].
    unfold try_except. rewrite bind_run. unfold os_read at 1, query, FS.read.
    cbn [get_disk fsys_disk]. rewrite Hf. reflexivity.
  - destruct (json_load text) as [doc| |] eqn:Hp.
    + exact (load_parsed tracking_file download_dir now fs text m doc Hf Hp).
    + exact (load_corrupt tracking_file download_dir now fs text m Hf Hp).
    + unfold load_tracking_data.
      rewrite bind_run. unfold os_exists at 1, query, FS.path_exists.
      cbn [get_disk fsys_disk]. rewrite Hf. cbn [negb].
      unfold try_except. rewrite bind_run. unfold os_read at 1, query, FS.read.
      cbn [get_disk fsys_disk]. rewrite Hf. rewrite bind_run, Hp. reflexivity.
  - unfold load_tracking_data.
    rewrite bind_run. unfold os_exists at 1, query, FS.path_exists.
    cbn [get_disk fsys_disk]. rewrite Hf. reflexivity.
Qed.

Lemma load_agree_outside now fs r fs' :
  load_tracking_data tracking_file download_dir now fs = (r, fs') ->
  agree_outside (backup_dir tracking_file +:+ "/") fs fs'.
Proof.
  rewrite load_run.
  destruct (fs !! tracking_file) as [[m|text m]|];
    [intros [= <- <-]; apply agree_outside_refl| |intros [= <- <-]; apply agree_outside_refl].
  destruct (json_load text);
    [intros [= <- <-]; apply agree_outside_refl| |intros [= <- <-]; apply agree_outside_refl].
  destruct (FS.copy2 fs tracking_file (corrupted_backup_path tracking_file now))
    as [fs1|e] eqn:Hc; [|intros [= <- <-]; apply agree_outside_refl].
  intros [= <- <-]. exact (copy2_frame _ _ _ _ _ Hc (corrupted_backup_path_under now)).
Qed.

(** X11: whatever the tracking file holds, loading leaves every path
    outside the backups directory as it was, the tracking file included;
    a load that raises leaves the whole disk as it was; and only a file
    that does not parse makes the load write at all. *)
Theorem load_frame now fs r fs' :
  load_tracking_data tracking_file download_dir now fs = (r, fs') ->
  agree_outside (backup_dir tracking_file +:+ "/") fs fs' /\
  fs' !! tracking_file = fs !! tracking_file /\
  (forall e, r = Raise e -> fs' = fs) /\
  (fs' <> fs ->
   exists text m, fs !! tracking_file = Some (File text m) /\ json_load text = DecodeError).
Proof.
  rewrite load_run. intros Hrun.
  assert (Hsame : fs' = fs ->
    agree_outside (backup_dir tracking_file +:+ "/") fs fs' /\
    fs' !! tracking_file = fs !! tracking_file /\
    (forall e, r = Raise e -> fs' = fs) /\
    (fs' <> fs ->
     exists text m, fs !! tracking_file = Some (File text m) /\ json_load text = DecodeError)).
  { intros ->. split; [apply agree_outside_refl|]. split; [reflexivity|].
    split; [reflexivity|]. intros H. now contradiction H. }
  destruct (fs !! tracking_file) as [[m|text m]|] eqn:Hf;
    [injection Hrun as <- <-; now apply Hsame| |injection Hrun as <- <-; now apply Hsame].
  destruct (json_load text) as [doc| |] eqn:Hp;
    [injection Hrun as <- <-; now apply Hsame| |injection Hrun as <- <-; now apply Hsame].
  destruct (FS.copy2 fs tracking_file (corrupted_backup_path tracking_file now))
    as [fs1|e] eqn:Hc; [|injection Hrun as <- <-; now apply Hsame].
  injection Hrun as <- <-.
  pose proof (copy2_frame _ _ _ _ _ Hc (corrupted_backup_path_under now)) as Hfr.
  split; [exact Hfr|]. split.
  - rewrite (Hfr tracking_file (tracking_file_not_backup tracking_file)). exact Hf.
  - split; [discriminate|]. intros _. now exists text, m.
Qed.

(** X12: recovery from a tracking file that does not parse, when the
    backups directory exists: the load returns the empty store, the
    unparsable file is copied, content and modification time, to
    [corrupted_tracking_<timestamp>.json] in the backups directory, and
    nothing else changes: the unparsable file stays where it is. *)
Theorem load_corrupt_recovers now fs text m :
  fs !! tracking_file = Some (File text m) ->
  json_load text = DecodeError ->
  FS.is_dir fs (backup_dir tracking_file) = true ->
  FS.is_dir fs (corrupted_backup_path tracking_file now) = false ->
  Str.has_slash (strftime now) = false ->
  exists fs',
    load_tracking_data tracking_file download_dir now fs =
      (Ok (_create_empty_tracking_data now), fs') /\
    fs' = <[corrupted_backup_path tracking_file now := File text m]> fs /\
    corrupted_backup_path tracking_file now <> tracking_file /\
    downloads (_create_empty_tracking_data now) = [] /\
    total_downloads (statistics (_create_empty_tracking_data now)) = 0%Z.
Proof.
  intros Hf Hp Hdir Hfree Hts.
  rewrite (load_corrupt tracking_file download_dir now fs text m Hf Hp).
  assert (Hne : corrupted_backup_path tracking_file now <> tracking_file).
  { intros E. apply (tracking_file_not_backup tracking_file).
    pose proof (corrupted_backup_path_under now) as Hu. now rewrite E in Hu. }
  unfold FS.copy2. rewrite Hf, Hfree.
  destruct (String.eqb_spec tracking_file (corrupted_backup_path tracking_file now))
    as [E|_]; [now contradiction Hne|].
  assert (Hn : Str.has_slash ("corrupted_tracking_" +:+ strftime now +:+ ".json") = false).
  { rewrite !has_slash_app, Hts. reflexivity. }
  destruct (backup_entry_split _ Hn) as [Hd Hb].
  change (Path.join (backup_dir tracking_file)
            ("corrupted_tracking_" +:+ strftime now +:+ ".json"))
    with (corrupted_backup_path tracking_file now) in Hd, Hb.
  unfold FS.write, FS.parent_check. rewrite Hd, Hb.
  unfold FS.is_dir in Hdir, Hfree.
  pose proof (backup_dir_truthy tracking_file) as Ht.
  destruct (backup_dir tracking_file) as [|a d] eqn:Hbd; [discriminate|].
  destruct (fs !! String a d) as [[md|]|] eqn:Hbl; try discriminate.
  assert (En : "corrupted_tracking_" +:+ strftime now +:+ ".json" =
               String "c" ("orrupted_tracking_" +:+ strftime now +:+ ".json"))
    by reflexivity.
  rewrite En.
  exists (<[corrupted_backup_path tracking_file now := File text m]> fs).
  split.
  - destruct (fs !! corrupted_backup_path tracking_file now) as [[]|]; try discriminate;
      reflexivity.
  - split; [reflexivity|]. split; [exact Hne|]. split; reflexivity.
Qed.

End LoadFacts.

Lemma rsplit_app_no_slash p u :
  Str.has_slash u = false ->
  Path.rsplit (p +:+ u) = (fst (Path.rsplit p), snd (Path.rsplit p) +:+ u).
Proof.
  intros Hu. induction p as [|c p IH].
  - rewrite app_nil_l_s. cbn [Path.rsplit fst snd]. rewrite app_nil_l_s.
    now apply rsplit_no_slash.
  - rewrite app_cons_s. cbn [Path.rsplit]. rewrite IH.
    destruct (Path.rsplit p) as [h t]. cbn [fst snd].
    destruct h; [|reflexivity].
    destruct (Ascii.eqb c "/"); [reflexivity|]. cbn [fst snd]. now rewrite app_cons_s.
Qed.

Lemma rename_other fs src dst fs' q :
  FS.rename fs src dst = Ok fs' -> q <> src -> q <> dst -> fs' !! q = fs !! q.
Proof.
  unfold FS.rename. intros H Hs Hd.
  destruct (fs !! src) as [[|data m]|]; try discriminate.
  destruct (fs !! dst) as [[]|]; try discriminate;
    destruct (FS.parent_check fs dst); try discriminate; injection H as <-;
    rewrite lookup_insert_ne, lookup_delete_ne by congruence; reflexivity.
Qed.

Lemma rename_source fs src dst fs' :
  FS.rename fs src dst = Ok fs' -> src <> dst -> fs' !! src = None.
Proof.
  unfold FS.rename. intros H Hne.
  destruct (fs !! src) as [[|data m]|]; try discriminate.
  destruct (fs !! dst) as [[]|]; try discriminate;
    destruct (FS.parent_check fs dst); try discriminate; injection H as <-;
    rewrite lookup_insert_ne, lookup_delete_eq by congruence; reflexivity.
Qed.




Section SaveFacts.
Context `{RT : PyRuntime}.
Variable tracking_file : string.

Lemma temp_file_split :
  Path.dirname (temp_file tracking_file) = Path.dirname tracking_file /\
  Path.basename (temp_file tracking_file) = Path.basename tracking_file +:+ ".tmp".
Proof.
  unfold temp_file, Path.dirname, Path.basename.
  rewrite (rsplit_app_no_slash tracking_file ".tmp" eq_refl). split; reflexivity.
Qed.

Lemma under_backup_dirname_long p :
  under (backup_dir tracking_file +:+ "/") p ->
  (String.length (Path.dirname tracking_file) < String.length (Path.dirname p))%nat.
Proof.
  intros [rest E]. destruct (backup_dir_shape tracking_file) as (s & Hs & Hlen).
  rewrite Hs in E.
  assert (Ha : "s"%char <> "/"%char) by discriminate.
  pose proof (dirname_length_ge s "s" rest Ha) as Hge.
  rewrite app_assoc_s in E. rewrite app_cons_s, app_nil_l_s in E.
  rewrite <- E in Hge. lia.
Qed.

Lemma temp_file_not_backup : ~ under (backup_dir tracking_file +:+ "/") (temp_file tracking_file).
Proof.
  intros H. apply under_backup_dirname_long in H.
  rewrite (proj1 temp_file_split) in H. lia.
Qed.




End SaveFacts.

Section Migration.
Context `{RT : PyRuntime}.
Variables tracking_file download_dir : string.


Lemma dict_set_wf {V} (d : dict V) k v : Dict.wf d -> Dict.wf (Dict.set k v d).
Proof.
  intros Hwf. destruct (Dict.mem k d) eqn:Hm.
  - unfold Dict.wf. now rewrite dict_set_keys.
  - rewrite (dict_set_absent _ _ _ Hm). now apply dict_wf_app_absent.
Qed.

Lemma migrated_wf now ids acc : Dict.wf acc -> Dict.wf (migrated download_dir now ids acc).
Proof.
  revert acc. induction ids as [|id ids IH]; intros acc Hwf; [exact Hwf|].
  cbn. apply IH. now apply dict_set_wf.
Qed.

Lemma migrated_get now ids acc k :
  Dict.get k (migrated download_dir now ids acc) =
  if bool_decide (k ∈ ids) then Some (legacy_record download_dir now k)
  else Dict.get k acc.
Proof.
  revert acc. induction ids as [|id ids IH]; intros acc.
  - cbn. rewrite bool_decide_eq_false_2 by apply not_elem_of_nil. reflexivity.
  - cbn [migrated fold_left]. change (fold_left _ ids ?a) with (migrated download_dir now ids a).
    rewrite IH, dict_get_set.
    destruct (bool_decide (k ∈ ids)) eqn:Hd.
    + apply bool_decide_eq_true in Hd.
      rewrite bool_decide_eq_true_2 by (now apply list_elem_of_further). reflexivity.
    + apply bool_decide_eq_false in Hd.
      destruct (String.eqb_spec k id) as [->|Hne].
      * rewrite bool_decide_eq_true_2 by apply list_elem_of_here. reflexivity.
      * rewrite bool_decide_eq_false_2; [reflexivity|].
        intros H. apply elem_of_cons in H as [E|H]; [congruence|tauto].
Qed.

Lemma migrated_length now ids acc :
  (length (migrated download_dir now ids acc) <= length acc + length ids)%nat /\
  (length (migrated download_dir now ids acc) = (length acc + length ids)%nat <->
   NoDup ids /\ forall k, In k ids -> Dict.mem k acc = false).
Proof.
  revert acc. induction ids as [|id ids IH]; intros acc.
  - cbn. split; [lia|]. split; [intros _; split; [constructor|tauto]|lia].
  - cbn [migrated fold_left]. change (fold_left _ ids ?a) with (migrated download_dir now ids a).
    destruct (IH (Dict.set id (legacy_record download_dir now id) acc)) as [Hle Hiff].
    destruct (Dict.mem id acc) eqn:Hm.
    + assert (Hlen : length (Dict.set id (legacy_record download_dir now id) acc) = length acc).
      { pose proof (dict_set_keys acc id (legacy_record download_dir now id) Hm) as Hk.
        apply (f_equal (@length _)) in Hk. unfold Dict.keys in Hk.
        now rewrite !length_map in Hk. }
      rewrite Hlen in Hle, Hiff. cbn [length]. split; [lia|]. split; [lia|].
      intros [_ Hall]. specialize (Hall id (or_introl eq_refl)). congruence.
    + rewrite (dict_set_absent _ _ _ Hm) in Hle, Hiff |- *.
      rewrite length_app in Hle, Hiff. cbn [length] in *. split; [lia|].
      split.
      * intros E. assert (E' : length (migrated download_dir now ids (acc ++ [(id, legacy_record download_dir now id)])) =
                               (length acc + 1 + length ids)%nat) by lia.
        apply Hiff in E' as [Hnd Hall]. split.
        -- apply NoDup_cons. split; [|exact Hnd]. intros Hin. apply list_elem_of_In in Hin.
           specialize (Hall id Hin). unfold Dict.mem in Hall.
           rewrite dict_get_app_absent, String.eqb_refl in Hall.
           destruct (Dict.get id acc); discriminate.
        -- intros k [<-|Hk]; [exact Hm|]. specialize (Hall k Hk).
           unfold Dict.mem in Hall |- *. rewrite dict_get_app_absent in Hall.
           destruct (Dict.get k acc); [discriminate|reflexivity].
      * intros [Hnd Hall]. apply NoDup_cons in Hnd as [Hid Hnd].
        assert (E' : length (migrated download_dir now ids (acc ++ [(id, legacy_record download_dir now id)])) =
                     (length acc + 1 + length ids)%nat); [|lia].
        apply Hiff. split; [exact Hnd|]. intros k Hk.
        unfold Dict.mem. rewrite dict_get_app_absent.
        pose proof (Hall k (or_intror Hk)) as Hka. unfold Dict.mem in Hka.
        destruct (Dict.get k acc); [discriminate|].
        destruct (String.eqb_spec k id) as [->|]; [|reflexivity].
        contradiction Hid. now apply list_elem_of_In.
Qed.

(** X13: migration of the legacy format, a list of ids: the store that
    results has one record per distinct id of the list and no other, each
    with size 0, no checksum, not compressed, dated at the time of the
    load and pointing at [<download_dir>/<id>.pdf].  When the file had no
    statistics, [total_downloads] is the length of the list, which is the
    number of records exactly when no id was listed twice. *)
Theorem migrate_legacy_list now doc ids :
  doc_downloads doc = Some (DownloadsList ids) ->
  let d := _validate_and_migrate_data download_dir now doc in
  Dict.wf (downloads d) /\
  (forall id, Dict.mem id (downloads d) = true <-> In id ids) /\
  (forall id r, Dict.get id (downloads d) = Some r ->
     edicto_id r = id /\ filename r = id +:+ ".pdf" /\ file_size r = 0%Z /\
     file_path r = Path.join download_dir (id +:+ ".pdf") /\
     checksum r = None /\ compressed r = false /\ download_date r = isoformat now) /\
  (doc_statistics doc = None ->
     total_downloads (statistics d) = Z.of_nat (length ids) /\
     (counted d <-> NoDup ids)).
Proof.
  intros Hdoc d.
  assert (Hds : downloads d = migrated download_dir now ids []).
  { unfold d, _validate_and_migrate_data. rewrite Hdoc. reflexivity. }
  split; [rewrite Hds; apply migrated_wf; constructor|].
  split.
  { intros id. rewrite Hds. unfold Dict.mem. rewrite migrated_get, <- list_elem_of_In.
    destruct (bool_decide (id ∈ ids)) eqn:Hd.
    - apply bool_decide_eq_true in Hd. tauto.
    - apply bool_decide_eq_false in Hd. cbn. split; [discriminate|tauto]. }
  split.
  { intros id r. rewrite Hds, migrated_get.
    destruct (bool_decide (id ∈ ids)); [|discriminate].
    intros [= <-]. repeat split; reflexivity. }
  intros Hst.
  assert (Htd : total_downloads (statistics d) = Z.of_nat (length ids)).
  { unfold d, _validate_and_migrate_data. rewrite Hdoc, Hst. reflexivity. }
  split; [exact Htd|]. unfold counted. rewrite Htd, Hds.
  destruct (migrated_length now ids []) as [_ Hiff]. cbn [length Nat.add] in Hiff.
  split.
  - intros E. apply Nat2Z.inj in E. symmetry in E. now apply Hiff in E as [Hnd _].
  - intros Hnd. f_equal. symmetry. apply Hiff. split; [exact Hnd|]. reflexivity.
Qed.

(** A store in the current format passes the migration unchanged, apart
    from [last_updated]. *)
Lemma migrate_current now d :
  _validate_and_migrate_data download_dir now (document_of d) =
  set_last_updated (isoformat now) d.
Proof. reflexivity. Qed.

(** X14: everything that [save_tracking_data] writes comes back: loading
    the file it wrote returns the saved store, with its version,
    creation date, records and statistics, and with [last_updated] set to
    the time of the load; the disk is not changed by the load. *)
Theorem load_after_save_store now now' t t' :
  save_tracking_data tracking_file now t = (Ok tt, t') ->
  json_load (json_dump (tracking_data t')) = Parsed (document_of (tracking_data t')) ->
  load_tracking_data tracking_file download_dir now' (disk t') =
    (Ok (set_last_updated (isoformat now') (tracking_data t)), disk t').
Proof.
  intros Hsave Hjson.
  destruct (save_ok tracking_file now t t' Hsave) as [Hfile Hdata].
  rewrite (load_parsed tracking_file download_dir now' (disk t') _ now _ Hfile Hjson).
  rewrite migrate_current, Hdata. reflexivity.
Qed.

End Migration.

(** ** Live statistics and the summary report *)

(** ** The order of [str] *)

Lemma ascii_compare_refl c : Ascii.compare c c = Eq.
Proof. unfold Ascii.compare. apply N.compare_refl. Qed.

Lemma ascii_compare_lt_trans a b c :
  Ascii.compare a b = Lt -> Ascii.compare b c = Lt -> Ascii.compare a c = Lt.
Proof. unfold Ascii.compare. rewrite !N.compare_lt_iff. apply N.lt_trans. Qed.

Lemma string_ltb_trans a b c :
  String.ltb a b = true -> String.ltb b c = true -> String.ltb a c = true.
Proof.
  unfold String.ltb. revert b c. induction a as [|x a IH]; intros [|y b] [|z c];
    cbn [String.compare]; try discriminate; try reflexivity.
  destruct (Ascii.compare x y) eqn:Exy; try discriminate;
    destruct (Ascii.compare y z) eqn:Eyz; try discriminate.
  - apply Ascii.compare_eq_iff in Exy, Eyz. subst. rewrite ascii_compare_refl. apply IH.
  - apply Ascii.compare_eq_iff in Exy. subst. now rewrite Eyz.
  - apply Ascii.compare_eq_iff in Eyz. subst. now rewrite Exy.
  - now rewrite (ascii_compare_lt_trans _ _ _ Exy Eyz).
Qed.

Lemma string_ltb_total a b : String.ltb a b = false -> String.ltb b a = true \/ a = b.
Proof.
  unfold String.ltb. rewrite (String.compare_antisym a b).
  destruct (String.compare b a) eqn:E; cbn; try discriminate; auto.
  intros _. right. symmetry. now apply String.compare_eq_iff.
Qed.

Lemma string_ltb_asym a b : String.ltb a b = true -> String.ltb b a = false.
Proof.
  unfold String.ltb. rewrite (String.compare_antisym a b).
  destruct (String.compare b a); cbn; congruence.
Qed.


Lemma str_le_trans a b c : str_le a b -> str_le b c -> str_le a c.
Proof.
  unfold str_le. intros Hab Hbc.
  destruct (String.ltb c a) eqn:E; [|reflexivity].
  destruct (string_ltb_total _ _ Hab) as [H|<-]; [|congruence].
  pose proof (string_ltb_trans _ _ _ E H). congruence.
Qed.

Lemma insert_sorted_str x l :
  StronglySorted str_le l -> StronglySorted str_le (insert_sorted String.ltb x l).
Proof.
  induction l as [|y l IH]; intros Hs; cbn [insert_sorted].
  - repeat constructor.
  - apply StronglySorted_inv in Hs as [Hs Hall].
    destruct (String.ltb y x) eqn:E.
    + constructor; [now apply IH|].
      pose proof (insert_sorted_perm String.ltb x l) as Hp.
      rewrite Hp. constructor; [|exact Hall].
      unfold str_le. now apply string_ltb_asym.
    + constructor; [now constructor|]. constructor; [exact E|].
      eapply Forall_impl; [exact Hall|]. intros z Hz. eapply str_le_trans; [exact E|exact Hz].
Qed.

Lemma stable_sort_str l : StronglySorted str_le (stable_sort String.ltb l).
Proof.
  induction l as [|x l IH]; [constructor|]. cbn. now apply insert_sorted_str.
Qed.

Lemma str_le_refl a : str_le a a.
Proof.
  unfold str_le, String.ltb.
  assert (E : String.compare a a = Eq).
  { induction a as [|c a IH]; [reflexivity|]. cbn. now rewrite ascii_compare_refl. }
  now rewrite E.
Qed.

Lemma sorted_head_least l x :
  StronglySorted str_le l -> head l = Some x -> Forall (str_le x) l.
Proof.
  destruct l as [|y l]; [discriminate|]. intros Hs [= ->].
  apply StronglySorted_inv in Hs as [_ Hall]. constructor; [apply str_le_refl|exact Hall].
Qed.

Lemma sorted_last_greatest l x :
  StronglySorted str_le l -> last l = Some x -> Forall (fun y => str_le y x) l.
Proof.
  induction l as [|y l IH]; [discriminate|]. intros Hs Hl.
  apply StronglySorted_inv in Hs as [Hs Hall].
  destruct l as [|z l].
  - injection Hl as <-. constructor; [apply str_le_refl|constructor].
  - change (last (y :: z :: l)) with (last (z :: l)) in Hl.
    specialize (IH Hs Hl). constructor; [|exact IH].
    rewrite Forall_forall in Hall. apply Hall.
    exact (last_Some_elem_of _ _ Hl).
Qed.

(** ** Live statistics *)


Section Stats.
Context `{RT : PyRuntime}.

Lemma stats_loop_full (ds : dict DownloadRecord) st dates t :
  exists st',
    for_each (map snd ds) (fun record =>
      let* present := os_exists (file_path record) in
      if present : bool then
        let* l := get_locals in
        set_locals (count_file record (fst l), (snd l ++ [download_date record])%list)
      else ret tt) ((st, dates), t) =
    (Ok tt, ((st', (dates ++ map (fun item => download_date (snd item))
                                 (existing (disk t) ds))%list), t)) /\
    total_files st' = (total_files st + Z.of_nat (length (existing (disk t) ds)))%Z /\
    compressed_files st' =
      (compressed_files st +
       Z.of_nat (length (List.filter (fun item => compressed (snd item))
                                     (existing (disk t) ds))))%Z /\
    oldest_file_date st' = oldest_file_date st /\
    newest_file_date st' = newest_file_date st.
Proof.
  revert st dates. induction ds as [|item ds IH]; intros st dates.
  - exists st. cbn. rewrite app_nil_r. repeat split; lia.
  - cbn [map]. rewrite for_each_cons. rewrite bind_run.
    unfold os_exists at 1, query. cbn [get_disk locals_disk tracker_disk snd].
    unfold existing. cbn [List.filter].
    destruct (FS.path_exists (disk t) (file_path (snd item))).
    + rewrite bind_run. unfold get_locals at 1, set_locals at 1. cbn [fst snd].
      destruct (IH (count_file (snd item) st) (dates ++ [download_date (snd item)])%list)
        as (st' & -> & Htf & Hcf & Ho & Hn).
      exists st'. split; [|split; [|split; [|split]]].
      * cbn [map]. now rewrite <- app_assoc.
      * rewrite Htf. cbn [count_file total_files length]. unfold existing. lia.
      * rewrite Hcf. cbn [count_file compressed_files List.filter]. unfold existing.
        destruct (compressed (snd item)); cbn [length]; lia.
      * exact Ho.
      * exact Hn.
    + unfold ret at 1. destruct (IH st dates) as (st' & -> & Htf & Hcf & Ho & Hn).
      exists st'. repeat split; assumption.
Qed.

Lemma get_storage_stats_full t :
  exists stats,
    get_storage_stats t = (Ok stats, t) /\
    total_files stats = Z.of_nat (length (existing (disk t) (downloads (tracking_data t)))) /\
    compressed_files stats =
      Z.of_nat (length (List.filter (fun item => compressed (snd item))
                          (existing (disk t) (downloads (tracking_data t))))) /\
    oldest_file_date stats =
      head (stable_sort String.ltb
              (map (fun item => download_date (snd item))
                   (existing (disk t) (downloads (tracking_data t))))) /\
    newest_file_date stats =
      last (stable_sort String.ltb
              (map (fun item => download_date (snd item))
                   (existing (disk t) (downloads (tracking_data t))))).
Proof.
  unfold get_storage_stats. rewrite bind_run. unfold run_locals, try_except.
  rewrite bind_run. unfold read_data at 1. cbn [get_data locals_data tracker_data snd].
  rewrite bind_run.
  destruct (stats_loop_full (downloads (tracking_data t)) empty_stats [] t)
    as (st' & -> & Htf & Hcf & Ho & Hn).
  rewrite bind_run. unfold get_locals at 1. cbn [fst snd app].
  destruct (map _ (existing (disk t) (downloads (tracking_data t)))) as [|d dates'] eqn:Ed.
  - exists st'. split; [reflexivity|].
    split; [rewrite Htf; reflexivity|]. split; [rewrite Hcf; reflexivity|].
    rewrite Ho, Hn. split; reflexivity.
  - eexists. split; [reflexivity|]. cbn [fst set_dates total_files compressed_files
                                          oldest_file_date newest_file_date].
    split; [rewrite Htf; reflexivity|]. split; [rewrite Hcf; reflexivity|].
    split; reflexivity.
Qed.


(** X20: the oldest and the newest date that [get_storage_stats] reports
    are download dates of records whose file exists, and the date of
    every such record lies between them in the order of strings. *)
Theorem storage_stats_dates t stats oldest newest :
  get_storage_stats t = (Ok stats, t) ->
  oldest_file_date stats = Some oldest ->
  newest_file_date stats = Some newest ->
  (exists id r, In (id, r) (downloads (tracking_data t)) /\
                FS.path_exists (disk t) (file_path r) = true /\ download_date r = oldest) /\
  (exists id r, In (id, r) (downloads (tracking_data t)) /\
                FS.path_exists (disk t) (file_path r) = true /\ download_date r = newest) /\
  (forall id r, In (id, r) (downloads (tracking_data t)) ->
     FS.path_exists (disk t) (file_path r) = true ->
     String.ltb (download_date r) oldest = false /\
     String.ltb newest (download_date r) = false).
Proof.
  intros Hrun Ho Hn.
  destruct (get_storage_stats_full t) as (stats' & Hrun' & _ & _ & Ho' & Hn').
  rewrite Hrun in Hrun'. injection Hrun' as <-.
  rewrite Ho in Ho'. rewrite Hn in Hn'. symmetry in Ho', Hn'.
  set (dates := map (fun item => download_date (snd item))
                    (existing (disk t) (downloads (tracking_data t)))) in *.
  pose proof (stable_sort_str dates) as Hs.
  pose proof (stable_sort_perm String.ltb dates) as Hp.
  assert (Hmem : forall d, d ∈ stable_sort String.ltb dates ->
            exists id r, In (id, r) (downloads (tracking_data t)) /\
                         FS.path_exists (disk t) (file_path r) = true /\ download_date r = d).
  { intros d Hd. rewrite Hp in Hd. apply list_elem_of_In in Hd.
    apply in_map_iff in Hd as ([id r] & Hdate & Hin).
    apply filter_In in Hin as [Hin Hex]. now exists id, r. }
  split; [apply Hmem; now apply head_Some_elem_of|].
  split; [apply Hmem; now apply last_Some_elem_of|].
  intros id r Hin Hex.
  assert (Hd : download_date r ∈ stable_sort String.ltb dates).
  { rewrite Hp. apply list_elem_of_In. unfold dates.
    apply (in_map (fun item => download_date (snd item)) _ (id, r)).
    apply filter_In. now split. }
  pose proof (sorted_head_least _ _ Hs Ho') as Hleast.
  pose proof (sorted_last_greatest _ _ Hs Hn') as Hgreat.
  rewrite Forall_forall in Hleast, Hgreat. split.
  - apply (Hleast _ Hd).
  - apply (Hgreat _ Hd).
Qed.

End Stats.



Section Report.
Context `{RT : PyRuntime}.
Variables tracking_file download_dir : string.

Lemma get_summary_report_run t :
  exists rep, get_summary_report tracking_file download_dir t = (Ok rep, t).
Proof.
  destruct (get_storage_stats_full t) as (stats & Hs & _).
  unfold get_summary_report. rewrite bind_run, Hs, bind_run, verify_files_run.
  rewrite bind_run. unfold read_data at 1. cbn [get_data tracker_data fst snd]. unfold ret.
  eexists. reflexivity.
Qed.


End Report.

(** ** Construction of the tracker *)


Lemma keeps_files_refl fs : keeps_files fs fs.
Proof. split; [tauto|auto]. Qed.

Lemma keeps_files_trans fs1 fs2 fs3 :
  keeps_files fs1 fs2 -> keeps_files fs2 fs3 -> keeps_files fs1 fs3.
Proof.
  intros [F1 D1] [F2 D2]. split; [|auto].
  intros q data m. rewrite F1. apply F2.
Qed.

Lemma keeps_files_insert_dir fs fs1 p m :
  keeps_files fs fs1 -> fs !! p = None -> keeps_files fs (<[p := Dir m]> fs1).
Proof.
  intros [F D] Hp. split.
  - intros q data m'. destruct (decide (p = q)) as [<-|Hne].
    + rewrite lookup_insert_eq, Hp. split; discriminate.
    + rewrite lookup_insert_ne by exact Hne. apply F.
  - intros q Hq. unfold FS.is_dir. destruct (decide (p = q)) as [<-|Hne].
    + now rewrite lookup_insert_eq.
    + rewrite lookup_insert_ne by exact Hne. now apply D.
Qed.

Lemma mkdir_p_effect fuel now fs p fs' :
  FS.mkdir_p fuel now fs p = Ok fs' ->
  FS.is_dir fs' p = true /\ keeps_files fs fs'.
Proof.
  revert p fs'. induction fuel as [|fuel IH]; intros p fs'; cbn [FS.mkdir_p].
  - destruct (fs !! p) as [[m|data m]|] eqn:Hp; try discriminate.
    + intros [= <-]. unfold FS.is_dir. rewrite Hp. split; [reflexivity|apply keeps_files_refl].
    + assert (H : Ok (<[p := Dir now]> fs) = Ok fs' ->
                  FS.is_dir fs' p = true /\ keeps_files fs fs').
      { intros [= <-]. unfold FS.is_dir. rewrite lookup_insert_eq.
        split; [reflexivity|]. apply keeps_files_insert_dir; [apply keeps_files_refl|exact Hp]. }
      destruct (Path.dirname p); exact H.
  - destruct (fs !! p) as [[m|data m]|] eqn:Hp; try discriminate.
    + intros [= <-]. unfold FS.is_dir. rewrite Hp. split; [reflexivity|apply keeps_files_refl].
    + assert (H : Ok (<[p := Dir now]> fs) = Ok fs' ->
                  FS.is_dir fs' p = true /\ keeps_files fs fs').
      { intros [= <-]. unfold FS.is_dir. rewrite lookup_insert_eq.
        split; [reflexivity|]. apply keeps_files_insert_dir; [apply keeps_files_refl|exact Hp]. }
      destruct (Path.dirname p) as [|a d] eqn:Hd; [exact H|].
      destruct (String.eqb (String a d) p); [exact H|].
      assert (Hrec : match FS.mkdir_p fuel now fs (String a d) with
                     | Ok fs1 => Ok (<[p := Dir now]> fs1)
                     | Raise e => Raise e
                     end = Ok fs' ->
                     FS.is_dir fs' p = true /\ keeps_files fs fs').
      { destruct (FS.mkdir_p fuel now fs (String a d)) as [fs1|e] eqn:Hm; [|discriminate].
        intros [= <-]. destruct (IH _ _ Hm) as [_ Hk].
        unfold FS.is_dir. rewrite lookup_insert_eq. split; [reflexivity|].
        now apply keeps_files_insert_dir. }
      destruct (fs !! String a d) as [[md|data md]|]; [exact Hrec|discriminate|exact Hrec].
Qed.

Section Init.
Context `{RT : PyRuntime}.
Variables tracking_file download_dir : string.

Lemma os_mkdir_p_run now p (fs : fsys) :
  os_mkdir_p now p fs =
  match FS.mkdir_p (String.length p) now fs p with
  | Ok fs' => (Ok tt, fs')
  | Raise e => (Raise e, fs)
  end.
Proof. unfold os_mkdir_p, update. cbn [get_disk set_disk fsys_disk]. reflexivity. Qed.

Lemma ensure_directories_run now fs r fs' :
  _ensure_directories tracking_file download_dir now fs = (r, fs') ->
  keeps_files fs fs' /\
  (r = Ok tt ->
   FS.is_dir fs' (backup_dir tracking_file) = true /\
   (Str.truthy download_dir = true -> FS.is_dir fs' download_dir = true) /\
   (Str.truthy (Path.dirname tracking_file) = true ->
    FS.is_dir fs' (Path.dirname tracking_file) = true)).
Proof.
  unfold _ensure_directories.
  assert (Hstep : forall d fs0 r0 fs0',
            (if Str.truthy d then os_mkdir_p now d else ret tt) fs0 = (r0, fs0') ->
            keeps_files fs0 fs0' /\
            (r0 = Ok tt -> Str.truthy d = true -> FS.is_dir fs0' d = true)).
  { intros d fs0 r0 fs0'. destruct (Str.truthy d).
    - rewrite os_mkdir_p_run.
      destruct (FS.mkdir_p (String.length d) now fs0 d) as [fs1|e] eqn:Hm.
      + intros [= <- <-]. destruct (mkdir_p_effect _ _ _ _ _ Hm) as [Hd Hk]. auto.
      + intros [= <- <-]. split; [apply keeps_files_refl|discriminate].
    - intros [= <- <-]. split; [apply keeps_files_refl|discriminate]. }
  rewrite for_each_cons.
  destruct ((if Str.truthy download_dir then os_mkdir_p now download_dir else ret tt) fs)
    as [[[]|e] fs1] eqn:E1.
  2:{ intros [= <- <-]. destruct (Hstep _ _ _ _ E1) as [Hk _]. split; [exact Hk|discriminate]. }
  destruct (Hstep _ _ _ _ E1) as [Hk1 Hd1].
  rewrite for_each_cons.
  destruct ((if Str.truthy (backup_dir tracking_file)
             then os_mkdir_p now (backup_dir tracking_file) else ret tt) fs1)
    as [[[]|e] fs2] eqn:E2.
  2:{ intros [= <- <-]. destruct (Hstep _ _ _ _ E2) as [Hk _].
      split; [eapply keeps_files_trans; eassumption|discriminate]. }
  destruct (Hstep _ _ _ _ E2) as [Hk2 Hd2].
  rewrite for_each_cons.
  destruct ((if Str.truthy (Path.dirname tracking_file)
             then os_mkdir_p now (Path.dirname tracking_file) else ret tt) fs2)
    as [[[]|e] fs3] eqn:E3.
  2:{ intros [= <- <-]. destruct (Hstep _ _ _ _ E3) as [Hk _].
      split; [eapply keeps_files_trans; [eapply keeps_files_trans|]; eassumption|discriminate]. }
  destruct (Hstep _ _ _ _ E3) as [Hk3 Hd3].
  intros [= <- <-].
  split; [eapply keeps_files_trans; [eapply keeps_files_trans|]; eassumption|].
  intros _. split; [|split].
  - apply (proj2 Hk3). apply (Hd2 eq_refl). apply backup_dir_truthy.
  - intros Ht. apply (proj2 Hk3), (proj2 Hk2). now apply Hd1.
  - intros Ht. now apply Hd3.
Qed.

(** X22: [_ensure_directories] never touches a regular file and never
    removes a directory, whether it succeeds or not; when it succeeds,
    the download directory, the backups directory and the directory of
    the tracking file exist (an empty directory name is skipped). *)
Theorem ensure_directories_effect now fs r fs' :
  _ensure_directories tracking_file download_dir now fs = (r, fs') ->
  keeps_files fs fs' /\
  (r = Ok tt ->
   FS.is_dir fs' (backup_dir tracking_file) = true /\
   (Str.truthy download_dir = true -> FS.is_dir fs' download_dir = true) /\
   (Str.truthy (Path.dirname tracking_file) = true ->
    FS.is_dir fs' (Path.dirname tracking_file) = true)).
Proof. apply ensure_directories_run. Qed.

(** X23: a tracker that has been constructed holds what
    [load_tracking_data] returned on the disk it was given, its download
    and backups directories exist, and every regular file outside the
    backups directory is as it was before the construction. *)
Theorem init_effect now fs t fs' :
  init tracking_file download_dir now fs = (Ok t, fs') ->
  disk t = fs' /\
  fst (load_tracking_data tracking_file download_dir now fs) = Ok (tracking_data t) /\
  FS.is_dir fs' (backup_dir tracking_file) = true /\
  (Str.truthy download_dir = true -> FS.is_dir fs' download_dir = true) /\
  (forall q data m, ~ under (backup_dir tracking_file +:+ "/") q ->
     (fs !! q = Some (File data m) <-> fs' !! q = Some (File data m))).
Proof.
  unfold init. rewrite bind_run.
  destruct (load_tracking_data tracking_file download_dir now fs) as [[data|e] fs1] eqn:El;
    [|discriminate].
  rewrite bind_run.
  destruct (_ensure_directories tracking_file download_dir now fs1) as [[[]|e] fs2] eqn:Ee;
    [|discriminate].
  rewrite bind_run. unfold get at 1, ret. intros [= <- <-].
  pose proof (load_agree_outside tracking_file download_dir now fs _ _ El) as Hagree.
  destruct (ensure_directories_run now fs1 _ _ Ee) as [[Hfiles _] Hdirs].
  destruct (Hdirs eq_refl) as (Hb & Hd & _).
  cbn [disk tracking_data fst]. split; [reflexivity|]. split; [reflexivity|].
  split; [exact Hb|]. split; [exact Hd|].
  intros q data0 m Hq. rewrite <- Hfiles. now rewrite (Hagree q Hq).
Qed.

End Init.

Lemma startswith_app s pre : Str.startswith s pre = true -> exists rest, s = pre +:+ rest.
Proof.
  revert s. induction pre as [|a pre IH]; intros s.
  - intros _. exists s. now rewrite app_nil_l_s.
  - destruct s as [|b s]; cbn [Str.startswith]; [discriminate|].
    intros H. apply andb_true_iff in H as [Hab Hs].
    apply Ascii.eqb_eq in Hab. subst b. destruct (IH s Hs) as [rest ->].
    exists rest. now rewrite app_cons_s.
Qed.

Lemma startswith_prefix pre s : Str.startswith (pre +:+ s) pre = true.
Proof.
  induction pre as [|a pre IH]; [now destruct s|].
  rewrite app_cons_s. cbn [Str.startswith]. now rewrite Ascii.eqb_refl, IH.
Qed.

Lemma strip_prefix_app pre s n : FS.strip_prefix pre s = Some n -> s = pre +:+ n.
Proof.
  revert s. induction pre as [|a pre IH]; intros s; cbn [FS.strip_prefix].
  - intros [= ->]. now rewrite app_nil_l_s.
  - destruct s as [|b s]; [discriminate|].
    destruct (Ascii.eqb_spec a b) as [->|]; [|discriminate].
    intros H. rewrite (IH _ H). now rewrite app_cons_s.
Qed.


Lemma endswith_refl' s : Str.endswith s s = true.
Proof. destruct s; cbn [Str.endswith]; now rewrite String.eqb_refl. Qed.

Lemma endswith_app_suffix s suf : Str.endswith (s +:+ suf) suf = true.
Proof.
  induction s as [|c s IH].
  - rewrite app_nil_l_s. apply endswith_refl'.
  - rewrite app_cons_s. cbn [Str.endswith]. rewrite IH. apply orb_true_r.
Qed.

Lemma NoDup_omap_inj {A B} (f : A -> option B) (l : list A) :
  (forall x1 x2 y, x1 ∈ l -> x2 ∈ l -> f x1 = Some y -> f x2 = Some y -> x1 = x2) ->
  NoDup l -> NoDup (omap f l).
Proof.
  intros Hinj Hnd. induction Hnd as [|x l Hx Hnd IH]; [constructor|].
  cbn [omap list_omap]. destruct (f x) as [y|] eqn:Ey.
  - constructor.
    + intros Hy. apply list_elem_of_omap in Hy as (x' & Hx' & Ey').
      assert (x = x'); [|congruence].
      eapply Hinj; [apply list_elem_of_here|now apply list_elem_of_further|exact Ey|exact Ey'].
    + apply IH. intros x1 x2 y' H1 H2. apply Hinj; now apply list_elem_of_further.
  - apply IH. intros x1 x2 y' H1 H2. apply Hinj; now apply list_elem_of_further.
Qed.






Section Rotation.
Context `{RT : PyRuntime}.
Variable tracking_file : string.


Lemma backup_name_under file :
  is_backup_name file = true ->
  under (backup_prefix tracking_file) (Path.join (backup_dir tracking_file) file).
Proof.
  unfold is_backup_name. intros H. apply andb_true_iff in H as [Hs _].
  rewrite join_backup_dir by now apply backup_name_relative.
  apply startswith_app in Hs as [rest ->]. exists rest.
  unfold backup_prefix. now rewrite !app_assoc_s.
Qed.

Lemma backup_path_fine now : under (backup_prefix tracking_file) (backup_path tracking_file now).
Proof.
  unfold backup_path. apply backup_name_under. unfold is_backup_name.
  apply andb_true_iff. split; [apply startswith_prefix|].
  rewrite <- app_assoc_s. apply endswith_app_suffix.
Qed.

End Rotation.

Section Rotation2.
Context `{RT : PyRuntime}.
Variable tracking_file : string.

Lemma remove_loop_frame pre (xs : list (string * Z)) t :
  Forall (fun x => under pre (fst x)) xs ->
  exists r t', for_each xs (fun x => os_remove (fst x)) t = (r, t') /\
               tracking_data t' = tracking_data t /\
               agree_outside pre (disk t) (disk t').
Proof.
  revert t. induction xs as [|x xs IH]; intros t Hall.
  - eexists _, _. split; [reflexivity|]. split; [reflexivity|apply agree_outside_refl].
  - apply Forall_cons in Hall as [Hx Hall].
    rewrite for_each_cons, os_remove_run.
    destruct (FS.remove (disk t) (fst x)) as [d|e] eqn:E.
    + destruct (IH {| disk := d; tracking_data := tracking_data t |} Hall)
        as (r & t' & -> & Hd & Ha).
      eexists _, _. split; [reflexivity|]. split; [exact Hd|].
      eapply agree_outside_trans; [|exact Ha].
      cbn [disk]. eapply remove_frame; eassumption.
    + eexists _, _. split; [reflexivity|]. split; [reflexivity|apply agree_outside_refl].
Qed.

Lemma backup_entry_noted file t :
  backup_entry tracking_file file t =
  (if is_backup_name file then
     match FS.getmtime (disk t) (Path.join (backup_dir tracking_file) file) with
     | Ok m => Ok (Some (Path.join (backup_dir tracking_file) file, m))
     | Raise e => Raise e
     end
   else Ok None, t).
Proof.
  unfold backup_entry. destruct (is_backup_name file); [|reflexivity].
  rewrite bind_run. unfold os_getmtime at 1, query. cbn [get_disk tracker_disk].
  destruct (FS.getmtime _ _); reflexivity.
Qed.

Lemma collect_backups_fine files t :
  exists r, collect files (backup_entry tracking_file) t = (r, t) /\
            forall l, r = Ok l -> Forall (fun x => under (backup_prefix tracking_file) (fst x)) l.
Proof.
  induction files as [|file files IH]; cbn [collect].
  - eexists. split; [reflexivity|]. intros l [= <-]. constructor.
  - rewrite bind_run, backup_entry_noted. destruct IH as (r' & Hr' & Hall).
    destruct (is_backup_name file) eqn:Hn.
    + destruct (FS.getmtime _ _) as [m|e].
      * rewrite bind_run, Hr'. destruct r' as [ys|e].
        -- eexists. split; [reflexivity|]. intros l [= <-].
           constructor; [now apply backup_name_under|now apply Hall].
        -- eexists. split; [reflexivity|]. intros l [=].
      * eexists. split; [reflexivity|]. intros l [=].
    + rewrite bind_run, Hr'. destruct r' as [ys|e].
      * eexists. split; [reflexivity|]. intros l [= <-]. now apply Hall.
      * eexists. split; [reflexivity|]. intros l [=].
Qed.

Lemma cleanup_old_backups_fine keep t :
  exists t', _cleanup_old_backups tracking_file keep t = (Ok tt, t') /\
             tracking_data t' = tracking_data t /\
             agree_outside (backup_prefix tracking_file) (disk t) (disk t').
Proof.
  unfold _cleanup_old_backups, try_except.
  rewrite bind_run. unfold os_listdir at 1, query. cbn [get_disk tracker_disk].
  destruct (FS.listdir (disk t) (backup_dir tracking_file)) as [files|e].
  2:{ eexists. split; [reflexivity|]. split; [reflexivity|apply agree_outside_refl]. }
  rewrite bind_run.
  destruct (collect_backups_fine files t) as (r & -> & Hr).
  destruct r as [l|e].
  2:{ eexists. split; [reflexivity|]. split; [reflexivity|apply agree_outside_refl]. }
  specialize (Hr l eq_refl).
  destruct (remove_loop_frame (backup_prefix tracking_file)
              (drop keep (stable_sort (fun a b => (snd b <? snd a)%Z) l)) t)
    as (r & t' & -> & Hd & Ha).
  { apply Forall_drop. now apply stable_sort_Forall. }
  destruct r as [[]|]; eexists; (split; [reflexivity|split; [exact Hd|exact Ha]]).
Qed.

Lemma create_backup_fine now t :
  exists t', _create_backup tracking_file now t = (Ok tt, t') /\
             tracking_data t' = tracking_data t /\
             agree_outside (backup_prefix tracking_file) (disk t) (disk t').
Proof.
  unfold _create_backup. rewrite bind_run. unfold os_exists at 1, query.
  cbn [get_disk tracker_disk].
  destruct (FS.path_exists (disk t) tracking_file); cbn [negb].
  2:{ eexists. split; [reflexivity|]. split; [reflexivity|apply agree_outside_refl]. }
  unfold try_except. rewrite bind_run. unfold os_copy2 at 1, update.
  cbn [get_disk set_disk tracker_disk].
  destruct (FS.copy2 (disk t) tracking_file (backup_path tracking_file now)) as [d|e] eqn:E.
  2:{ eexists. split; [reflexivity|]. split; [reflexivity|apply agree_outside_refl]. }
  destruct (cleanup_old_backups_fine 10 {| disk := d; tracking_data := tracking_data t |})
    as (t' & -> & Hd & Ha).
  eexists. split; [reflexivity|]. split; [exact Hd|].
  eapply agree_outside_trans; [|exact Ha].
  cbn [disk]. eapply copy2_frame; [exact E|apply backup_path_fine].
Qed.

(** *** The listing of the backups directory *)

Lemma listdir_facts fs files :
  FS.listdir fs (backup_dir tracking_file) = Ok files ->
  NoDup files /\
  forall n, n ∈ files ->
    Str.has_slash n = false /\
    FS.path_exists fs (Path.join (backup_dir tracking_file) n) = true.
Proof.
  unfold FS.listdir.
  destruct (fs !! backup_dir tracking_file) as [[m|]|]; try discriminate.
  intros [= <-].
  assert (Hentry : forall p n, FS.entry_of (backup_dir tracking_file) p = Some n ->
            p = Path.join (backup_dir tracking_file) n /\ Str.has_slash n = false).
  { intros p n. unfold FS.entry_of. rewrite backup_dir_no_trailing_slash.
    destruct (FS.strip_prefix _ p) as [n'|] eqn:Es; [|discriminate].
    destruct (Str.truthy n' && negb (Str.has_slash n')) eqn:Hc; [|discriminate].
    intros [= ->]. apply andb_true_iff in Hc as [_ Hns]. apply negb_true_iff in Hns.
    split; [|exact Hns].
    rewrite join_backup_dir by now apply no_slash_not_absolute.
    apply strip_prefix_app in Es. now rewrite app_assoc_s in Es. }
  split.
  - apply NoDup_omap_inj; [|apply NoDup_map_to_list].
    intros [p1 v1] [p2 v2] n H1 H2 E1 E2. cbn [fst] in E1, E2.
    destruct (Hentry _ _ E1) as [-> _]. destruct (Hentry _ _ E2) as [-> _].
    f_equal. exact (map_to_list_unique fs _ _ _ H1 H2).
  - intros n Hn. apply list_elem_of_omap in Hn as ([p v] & Hin & E). cbn [fst] in E.
    destruct (Hentry _ _ E) as [-> Hns]. split; [exact Hns|].
    apply elem_of_map_to_list in Hin. unfold FS.path_exists. now rewrite Hin.
Qed.


Lemma collect_backups_noted files t :
  (forall n, n ∈ files ->
     FS.path_exists (disk t) (Path.join (backup_dir tracking_file) n) = true) ->
  collect files (backup_entry tracking_file) t =
    (Ok (omap (noted tracking_file (disk t)) files), t).
Proof.
  induction files as [|file files IH]; intros Hex; [reflexivity|].
  assert (IH' : collect files (backup_entry tracking_file) t =
                (Ok (omap (noted tracking_file (disk t)) files), t)).
  { apply IH. intros n Hn. apply Hex. now apply list_elem_of_further. }
  cbn [collect omap list_omap]. rewrite bind_run, backup_entry_noted.
  unfold noted at 1.
  destruct (is_backup_name file).
  - specialize (Hex file (list_elem_of_here _ _)). unfold FS.path_exists in Hex.
    unfold FS.getmtime.
    destruct (disk t !! Path.join (backup_dir tracking_file) file) as [[]|];
      [| |discriminate]; rewrite bind_run, IH'; reflexivity.
  - rewrite bind_run, IH'. reflexivity.
Qed.




End Rotation2.

Lemma under_length pre p : under pre p -> (String.length pre <= String.length p)%nat.
Proof. intros [rest ->]. rewrite length_app_s. lia. Qed.

Section SaveBackups.
Context `{RT : PyRuntime}.
Variable tracking_file : string.

Lemma prepared_fine now t :
  tracking_data (prepared tracking_file now t) =
    set_last_updated (isoformat now) (tracking_data t) /\
  agree_outside (backup_prefix tracking_file) (disk t) (disk (prepared tracking_file now t)).
Proof.
  unfold prepared.
  destruct (create_backup_fine tracking_file now (stamped now t)) as (t' & -> & Hd & Ha).
  cbn [snd]. split; [exact Hd|exact Ha].
Qed.

Lemma under_backup_prefix p :
  under (backup_prefix tracking_file) p -> under (backup_dir tracking_file +:+ "/") p.
Proof.
  intros [rest ->]. exists ("tracking_backup_" +:+ rest).
  unfold backup_prefix. now rewrite !app_assoc_s.
Qed.

(** X16: in every run of [save_tracking_data], failed or not, the store in
    memory is what it was with [last_updated] set to the time of the
    call, and on disk only the tracking file, its temporary file and the
    files [tracking_backup_*] of the backups directory can differ: no
    downloaded file and no [corrupted_tracking_*] copy is touched. *)
Theorem save_frame now t r t' :
  save_tracking_data tracking_file now t = (r, t') ->
  tracking_data t' = set_last_updated (isoformat now) (tracking_data t) /\
  forall p, p <> tracking_file -> p <> temp_file tracking_file ->
            ~ under (backup_prefix tracking_file) p ->
            disk t' !! p = disk t !! p.
Proof.
  rewrite save_run. cbn zeta. intros Hrun.
  destruct (prepared_fine now t) as [Hdata Hagree].
  destruct (FS.write now (disk (prepared tracking_file now t)) (temp_file tracking_file)
              (json_dump (tracking_data (prepared tracking_file now t)))) as [d2|e] eqn:Ew.
  - destruct (FS.rename d2 (temp_file tracking_file) tracking_file) as [d3|e] eqn:Er.
    + injection Hrun as <- <-. cbn [disk tracking_data]. split; [exact Hdata|].
      intros p H1 H2 H3.
      rewrite (rename_other _ _ _ _ p Er H2 H1), (write_other _ _ _ _ _ p Ew H2).
      now apply Hagree.
    + apply save_handler_effect in Hrun as (_ & _ & Hd & Hfr).
      cbn [disk tracking_data] in Hd, Hfr. split; [now rewrite Hd|].
      intros p H1 H2 H3. rewrite (Hfr p H2), (write_other _ _ _ _ _ p Ew H2).
      now apply Hagree.
  - apply save_handler_effect in Hrun as (_ & _ & Hd & Hfr).
    split; [now rewrite Hd|].
    intros p H1 H2 H3. rewrite (Hfr p H2). now apply Hagree.
Qed.


(** X17: a save keeps the previous version.  When the tracking file
    exists, the backups directory exists, and the backups directory then
    holds at most ten backups, the new one included, every run of
    [save_tracking_data], failed or not, leaves a copy of the previous
    tracking file, content and modification time, at
    [tracking_backup_<timestamp>.json] in the backups directory. *)
Theorem save_backs_up now t old m r t' :
  disk t !! tracking_file = Some (File old m) ->
  FS.is_dir (disk t) (backup_dir tracking_file) = true ->
  FS.is_dir (disk t) (backup_path tracking_file now) = false ->
  Str.has_slash (strftime now) = false ->
  (length (backup_files tracking_file (backed_up tracking_file now old m (disk t))) <= 10)%nat ->
  save_tracking_data tracking_file now t = (r, t') ->
  disk t' !! backup_path tracking_file now = Some (File old m) /\
  backup_path tracking_file now <> tracking_file.
Proof.
  intros Hf Hdir Hfree Hts Hlen Hrun.
  pose proof (backup_path_fine tracking_file now) as Hfine.
  pose proof (under_backup_prefix _ Hfine) as Hunder.
  assert (Hne : backup_path tracking_file now <> tracking_file).
  { intros E. apply (tracking_file_not_backup tracking_file). now rewrite E in Hunder. }
  assert (Hnt : backup_path tracking_file now <> temp_file tracking_file).
  { intros E. apply (temp_file_not_backup tracking_file). now rewrite E in Hunder. }
  split; [|exact Hne].
  (* the copy *)
  assert (Hn : Str.has_slash ("tracking_backup_" +:+ strftime now +:+ ".json") = false).
  { rewrite !has_slash_app, Hts. reflexivity. }
  destruct (backup_entry_split tracking_file _ Hn) as [Hd Hb].
  change (Path.join (backup_dir tracking_file)
            ("tracking_backup_" +:+ strftime now +:+ ".json"))
    with (backup_path tracking_file now) in Hd, Hb.
  assert (Hcopy : FS.copy2 (disk t) tracking_file (backup_path tracking_file now) =
                  Ok (backed_up tracking_file now old m (disk t))).
  { unfold FS.copy2. rewrite Hf, Hfree.
    destruct (String.eqb_spec tracking_file (backup_path tracking_file now))
      as [E|_]; [now contradiction Hne|].
    unfold FS.write, FS.parent_check. rewrite Hd, Hb.
    unfold FS.is_dir in Hdir, Hfree.
    pose proof (backup_dir_truthy tracking_file) as Ht.
    destruct (backup_dir tracking_file) as [|a d] eqn:Hbd; [discriminate|].
    destruct (disk t !! String a d) as [[md|]|] eqn:Hbl; try discriminate.
    assert (En : "tracking_backup_" +:+ strftime now +:+ ".json" =
                 String "t" ("racking_backup_" +:+ strftime now +:+ ".json"))
      by reflexivity.
    rewrite En. unfold backed_up.
    destruct (disk t !! backup_path tracking_file now) as [[]|]; try discriminate;
      reflexivity. }
  (* the rotation deletes nothing *)
  set (d := backed_up tracking_file now old m (disk t)) in *.
  assert (Hrot : forall data,
            _cleanup_old_backups tracking_file 10 {| disk := d; tracking_data := data |} =
            (Ok tt, {| disk := d; tracking_data := data |})).
  { intros data. unfold _cleanup_old_backups, try_except.
    rewrite bind_run. unfold os_listdir at 1, query. cbn [get_disk tracker_disk disk].
    assert (Hdird : FS.is_dir d (backup_dir tracking_file) = true).
    { unfold d, backed_up, FS.is_dir. rewrite lookup_insert_ne; [exact Hdir|].
      intros E. pose proof (under_length _ _ Hunder) as Hul.
      rewrite length_app_s, E in Hul. cbn [String.length] in Hul. lia. }
    destruct (FS.listdir d (backup_dir tracking_file)) as [files|e] eqn:El.
    2:{ unfold FS.listdir, FS.is_dir in *.
        destruct (d !! backup_dir tracking_file) as [[]|]; discriminate. }
    destruct (listdir_facts tracking_file _ _ El) as [_ Hentries].
    rewrite bind_run.
    rewrite (collect_backups_noted tracking_file files {| disk := d; tracking_data := data |})
      by (intros n Hin; now apply Hentries).
    cbn [disk]. unfold backup_files in Hlen. rewrite El in Hlen.
    rewrite drop_ge; [reflexivity|].
    rewrite (Permutation_length (stable_sort_perm _ _)). exact Hlen. }
  assert (Hprep : disk (prepared tracking_file now t) = d).
  { unfold prepared, _create_backup. rewrite bind_run.
    unfold os_exists at 1, query, FS.path_exists. cbn [get_disk tracker_disk stamped disk].
    rewrite Hf. cbn [negb]. unfold try_except. rewrite bind_run.
    unfold os_copy2 at 1, update.
    cbn [get_disk set_disk tracker_disk stamped disk tracking_data].
    rewrite Hcopy. rewrite Hrot. reflexivity. }
  assert (Hbp : disk (prepared tracking_file now t) !! backup_path tracking_file now =
                Some (File old m)).
  { rewrite Hprep. unfold d, backed_up. apply lookup_insert_eq. }
  rewrite save_run in Hrun. cbn zeta in Hrun.
  destruct (FS.write now (disk (prepared tracking_file now t)) (temp_file tracking_file)
              (json_dump (tracking_data (prepared tracking_file now t)))) as [d2|e] eqn:Ew.
  - destruct (FS.rename d2 (temp_file tracking_file) tracking_file) as [d3|e] eqn:Er.
    + injection Hrun as <- <-. cbn [disk].
      rewrite (rename_other _ _ _ _ _ Er Hnt Hne), (write_other _ _ _ _ _ _ Ew Hnt).
      exact Hbp.
    + apply save_handler_effect in Hrun as (_ & _ & _ & Hfr). cbn [disk] in Hfr.
      rewrite (Hfr _ Hnt), (write_other _ _ _ _ _ _ Ew Hnt). exact Hbp.
  - apply save_handler_effect in Hrun as (_ & _ & _ & Hfr).
    rewrite (Hfr _ Hnt). exact Hbp.
Qed.

End SaveBackups.

(** ** The command line *)

Section MainFacts.
Context `{RT : PyRuntime}.


Lemma lift_run {L A} (m : M tracker A) (l : L) (t : tracker) :
  lift m (l, t) = (fst (m t), (l, snd (m t))).
Proof. unfold lift. cbn [fst snd]. destruct (m t); reflexivity. Qed.

(** With a cutoff that can be computed [cleanup_old_files] returns;
    otherwise it raises [OverflowError] at once. *)
Lemma cleanup_old_files_ok now days t :
  match minus_days now days with
  | Ok _ => is_ok (fst (cleanup_old_files now days t)) = true
  | Raise _ => cleanup_old_files now days t = (Raise OverflowError, t)
  end.
Proof.
  rewrite cleanup_old_files_run.
  destruct (minus_days now days) as [c|e] eqn:Hc.
  - destruct (cleanup_old_files_try now (Naive c) (no_removals 0, t)) as [r [l t']].
    reflexivity.
  - now apply minus_days_raises in Hc as ->.
Qed.

Lemma cleanup_by_storage_limit_ok max t : is_ok (fst (cleanup_by_storage_limit max t)) = true.
Proof.
  destruct (get_storage_stats_run t) as (stats & Hs & _).
  destruct (Qle_bool (total_size_mb stats) max) eqn:Hq.
  - unfold cleanup_by_storage_limit. rewrite bind_run, Hs, Hq. reflexivity.
  - rewrite (cleanup_by_storage_limit_run max t stats Hs Hq).
    destruct (cleanup_by_storage_limit_try max (no_removals (total_size_mb stats), t))
      as [r [l t']]. reflexivity.
Qed.

Lemma compress_old_files_ok now days t :
  match minus_days now days with
  | Ok _ => is_ok (fst (compress_old_files now days t)) = true
  | Raise _ => compress_old_files now days t = (Raise OverflowError, t)
  end.
Proof.
  rewrite compress_old_files_run.
  destruct (minus_days now days) as [c|e] eqn:Hc.
  - destruct (compress_old_files_try now (Naive c) (0%Z, 0%Q, t)) as [r [l t']].
    reflexivity.
  - now apply minus_days_raises in Hc as ->.
Qed.

(** The disk of the tracker that the constructor returns is the disk
    that it leaves. *)
Lemma init_disk tracking_file download_dir now fs t fs1 :
  init tracking_file download_dir now fs = (Ok t, fs1) -> disk t = fs1.
Proof.
  unfold init. rewrite bind_run.
  destruct (load_tracking_data _ _ _ fs) as [[data|e] fsa]; [|discriminate].
  rewrite bind_run.
  destruct (_ensure_directories _ _ _ fsa) as [[[]|e] fsb]; [|discriminate].
  rewrite bind_run. unfold get at 1, ret.
  now intros [= <- <-].
Qed.



Lemma report_step_run args out t :
  exists out', report_step args (out, t) = (Ok tt, ((out ++ out')%list, t)) /\
               length out' = if report args then 1%nat else 0%nat.
Proof.
  unfold report_step. destruct (report args).
  - rewrite bind_run, lift_run.
    destruct (get_summary_report_run (args_tracking_file args) (args_download_dir args) t)
      as (rep & ->). cbn [fst snd]. unfold print. cbn [fst snd].
    exists [Report rep]. split; reflexivity.
  - exists []. rewrite app_nil_r. split; reflexivity.
Qed.

Lemma verify_step_main_run args out t :
  exists out',
    (if verify args then
       let* verified := lift verify_files in
       print (VerificationComplete (Z.of_nat (length (fst verified)))
                                   (Z.of_nat (length (snd verified))))
     else ret tt) (out, t) = (Ok tt, ((out ++ out')%list, t)) /\
    length out' = if verify args then 1%nat else 0%nat.
Proof.
  destruct (verify args).
  - rewrite bind_run, lift_run, verify_files_run. cbn [fst snd]. unfold print. cbn [fst snd].
    eexists [_]. split; reflexivity.
  - exists []. rewrite app_nil_r. split; reflexivity.
Qed.

(** X24: without [--cleanup], [main] only reads: once the tracker has
    been constructed, the disk is left as the constructor left it, the
    exit status is 0, and one line is printed for each of [--verify] and
    [--report]. *)
Theorem main_read_only clock args fs t fs1 :
  cleanup args = false ->
  init (args_tracking_file args) (args_download_dir args) (at_init clock) fs = (Ok t, fs1) ->
  exists out,
    main clock args fs = (Ok (0%Z, out), fs1) /\
    length out =
      ((if verify args then 1 else 0) + (if report args then 1 else 0))%nat.
Proof.
  intros Hc Hinit. unfold main. rewrite Hinit. unfold main_try. cbn zeta. rewrite Hc.
  rewrite bind_run.
  destruct (verify_step_main_run args [] t) as (out1 & -> & H1).
  rewrite bind_run. unfold ret at 1.
  fold (report_step args).
  destruct (report_step_run args ([] ++ out1)%list t) as (out2 & -> & H2).
  pose proof (init_disk _ _ _ _ _ _ Hinit) as Hd.
  rewrite Hd. eexists. split; [reflexivity|].
  rewrite !length_app, H1, H2. reflexivity.
Qed.

(** X25: [main --cleanup], once the tracker has been constructed.  When
    both cutoffs can be computed, the age policy, the capacity policy and
    the compression pass run in this order and the store is saved: if the
    save returns, the exit status is 0 and the tracking file holds the
    serialised store that the three passes left; if the save raises, the
    exit status is 1 and the last line of the output reports that
    exception.  When [--cleanup-days] takes the cutoff out of the range
    of [datetime], no pass runs: the exit status is 1, the last line
    reports [OverflowError], and the disk is as the constructor left it.
    When only [--compress-days] does, the two retention policies have run
    but nothing is compressed or saved: the exit status is 1, the last
    line reports [OverflowError], and the disk is the one the retention
    policies left. *)
Theorem main_cleanup_persists clock args fs t fs1 :
  cleanup args = true ->
  init (args_tracking_file args) (args_download_dir args) (at_init clock) fs = (Ok t, fs1) ->
  let t1 := snd (cleanup_old_files (at_cleanup clock) (cleanup_days args) t) in
  let t2 := snd (cleanup_by_storage_limit (max_storage_mb args) t1) in
  let t4 := after_passes clock args t in
  let saved := save_tracking_data (args_tracking_file args) (at_save clock) t4 in
  exists code out,
    match minus_days (at_cleanup clock) (cleanup_days args),
          minus_days (at_compress clock) (compress_days args) with
    | Ok _, Ok _ =>
        main clock args fs = (Ok (code, out), disk (snd saved)) /\
        match fst saved with
        | Ok _ =>
            code = 0%Z /\
            disk (snd saved) !! args_tracking_file args =
              Some (File (json_dump (set_last_updated (isoformat (at_save clock))
                                       (tracking_data t4)))
                         (at_save clock))
        | Raise e => code = 1%Z /\ last out = Some (Error e)
        end
    | Raise _, _ =>
        main clock args fs = (Ok (code, out), fs1) /\
        code = 1%Z /\ last out = Some (Error OverflowError)
    | Ok _, Raise _ =>
        main clock args fs = (Ok (code, out), disk t2) /\
        code = 1%Z /\ last out = Some (Error OverflowError)
    end.
Proof.
  intros Hc Hinit t1 t2 t4 saved. unfold main. rewrite Hinit. unfold main_try. cbn zeta.
  rewrite Hc. rewrite bind_run.
  destruct (verify_step_main_run args [] t) as (out1 & -> & _).
  rewrite bind_run, bind_run, lift_run.
  pose proof (cleanup_old_files_ok (at_cleanup clock) (cleanup_days args) t) as H1.
  destruct (minus_days (at_cleanup clock) (cleanup_days args)) as [c1|e1].
  2:{ rewrite H1. cbn [fst snd]. rewrite (init_disk _ _ _ _ _ _ Hinit).
      eexists _, _. split; [reflexivity|]. split; [reflexivity|]. now rewrite last_snoc. }
  fold t1.
  destruct (fst (cleanup_old_files (at_cleanup clock) (cleanup_days args) t)) as [old|e];
    [|discriminate].
  rewrite bind_run, lift_run.
  pose proof (cleanup_by_storage_limit_ok (max_storage_mb args) t1) as H2.
  fold t2.
  destruct (fst (cleanup_by_storage_limit (max_storage_mb args) t1)) as [storage|e];
    [|discriminate].
  rewrite bind_run, lift_run.
  pose proof (compress_old_files_ok (at_compress clock) (compress_days args) t2) as H3.
  destruct (minus_days (at_compress clock) (compress_days args)) as [c2|e2].
  2:{ rewrite H3. cbn [fst snd].
      eexists _, _. split; [reflexivity|]. split; [reflexivity|]. now rewrite last_snoc. }
  destruct (fst (compress_old_files (at_compress clock) (compress_days args) t2))
    as [packed|e]; [|discriminate].
  rewrite bind_run. unfold print at 1. cbn [fst snd].
  rewrite lift_run.
  change (snd (compress_old_files (at_compress clock) (compress_days args) t2)) with t4.
  fold saved.
  destruct (fst saved) as [[]|e] eqn:Es.
  - fold (report_step args).
    destruct (report_step_run args
                (([] ++ out1) ++ [CleanupComplete (fst old) (snd old) (fst storage)
                                    (snd storage) (fst packed) (snd packed)])%list
                (snd saved)) as (out2 & -> & _).
    eexists _, _. split; [reflexivity|]. split; [reflexivity|].
    assert (Hsave : saved = (Ok tt, snd saved)) by (destruct saved; cbn in *; congruence).
    destruct (save_ok _ _ _ _ Hsave) as [Hfile Hdata].
    now rewrite Hfile, Hdata.
  - eexists _, _. split; [reflexivity|]. split; [reflexivity|].
    now rewrite last_snoc.
Qed.

End MainFacts.

(** ** The theorems at concrete inputs *)

(** Record A is tracked: adding it again is refused. *)
Lemma add_download_duplicate_witness :
  let rt := Demo.runtime [] in
  @add_download rt Scenario.now "A" "other.pdf" "downloads/other.pdf" Scenario.sized_tracker =
    (Ok false, Scenario.sized_tracker).
Proof.
  intros rt.
  apply (proj1 (@add_download_duplicate rt Scenario.now Scenario.now "A" "other.pdf"
                  "other.pdf" "downloads/other.pdf" "downloads/other.pdf"
                  Scenario.sized_tracker)).
  vm_compute. reflexivity.
Defined.

(** A fourth record is added for a file of three bytes. *)
Lemma add_download_new_witness :
  let rt := Demo.runtime [] in
  exists t' r,
    @add_download rt Scenario.now "D" "D.pdf" "downloads/B.pdf" Scenario.sized_tracker =
      (Ok true, t') /\
    map fst (downloads (tracking_data t')) = ["A"; "B"; "C"; "D"] /\
    file_size r = 3 /\
    checksum r = Some "sha256:bbb" /\
    total_downloads (statistics (tracking_data t')) = 4.
Proof.
  intros rt.
  destruct (@add_download_new rt Scenario.now "D" "D.pdf" "downloads/B.pdf"
              Scenario.sized_tracker)
    as (t' & r & Hrun & _ & Hds & _ & _ & _ & _ & _ & Hfile & _ & Htd & _).
  { vm_compute. reflexivity. }
  exists t', r. split; [exact Hrun|].
  destruct (Hfile "bbb" 2) as [Hsize Hsum]; [vm_compute; reflexivity|].
  split; [rewrite Hds, map_app; reflexivity|].
  split; [exact Hsize|]. split; [exact Hsum|].
  rewrite Htd. reflexivity.
Defined.

(** The three ways of asking agree on a tracked id. *)
Lemma accessors_agree_witness :
  exists b ids o,
    fst (is_downloaded "B" Scenario.sized_tracker) = Ok b /\
    fst (get_downloaded_ids Scenario.sized_tracker) = Ok ids /\
    fst (get_download_record "B" Scenario.sized_tracker) = Ok o /\
    b = true /\ "B" ∈ ids /\ o <> None.
Proof.
  destruct (accessors_agree "B" Scenario.sized_tracker)
    as (b & ids & o & H1 & H2 & H3 & Hids & Ho & _).
  exists b, ids, o. rewrite H1, H2, H3. repeat split; try reflexivity.
  - assert (E : fst (is_downloaded "B" Scenario.sized_tracker) = Ok true)
      by (vm_compute; reflexivity).
    rewrite H1 in E. now injection E.
  - apply Hids.
    assert (E : fst (is_downloaded "B" Scenario.sized_tracker) = Ok true)
      by (vm_compute; reflexivity).
    rewrite H1 in E. now injection E.
  - apply Ho.
    assert (E : fst (is_downloaded "B" Scenario.sized_tracker) = Ok true)
      by (vm_compute; reflexivity).
    rewrite H1 in E. now injection E.
Defined.

(** A record added for a path without a file is reported missing and
    not corrupted. *)
Lemma add_download_then_verify_witness :
  let rt := Demo.runtime [] in
  fst (@verify_files rt
         (snd (@add_download rt Scenario.now "D" "D.pdf" "downloads/D.pdf"
                 Scenario.sized_tracker))) = Ok (["D"], []).
Proof.
  intros rt.
  destruct (@add_download_then_verify rt Scenario.now "D" "D.pdf" "downloads/D.pdf"
              Scenario.sized_tracker) as (missing & corrupted & Hbefore & Hafter).
  { vm_compute. reflexivity. }
  rewrite Hafter.
  assert (E : fst (@verify_files rt Scenario.sized_tracker) = Ok ([], []))
    by (vm_compute; reflexivity).
  rewrite Hbefore in E. injection E as -> ->. reflexivity.
Defined.

(** The counter of the store of three records stays right under an
    addition, a compression pass and both retention policies. *)
Lemma counted_preserved_witness :
  let rt := Demo.runtime [] in
  let t := {| disk := disk Scenario.sized_tracker;
              tracking_data := Scenario.store Scenario.sized_records |} in
  counted (tracking_data
             (snd (@add_download rt Scenario.now "D" "D.pdf" "downloads/D.pdf" t))) /\
  counted (tracking_data (snd (@cleanup_old_files rt Scenario.now 30 t))) /\
  counted (tracking_data (snd (@cleanup_by_storage_limit rt (mb 4) t))).
Proof.
  intros rt t.
  destruct (@counted_preserved rt Scenario.now 30 (mb 4) "D" "D.pdf" "downloads/D.pdf" t)
    as (Ha & _ & Hage & Hcap).
  { reflexivity. }
  split; [exact Ha|]. split.
  - apply Hage. intros c Hc.
    assert (E : minus_days Scenario.now 30 = Ok (Scenario.now - 30 * microseconds_per_day)%Z)
      by (vm_compute; reflexivity).
    rewrite E in Hc. injection Hc as <-. vm_compute. reflexivity.
  - apply Hcap. vm_compute. reflexivity.
Defined.

(** After the compression pass record A is the compressed form of what
    it was. *)
Lemma compress_keeps_records_witness :
  let rt := Demo.runtime [] in
  let t' := snd (@compress_old_files rt Scenario.now 7 Scenario.sized_tracker) in
  Dict.keys (downloads (tracking_data t')) = ["A"; "B"; "C"] /\
  exists r', Dict.get "A" (downloads (tracking_data t')) = Some r' /\
             download_date r' = "2025-01-20T12:00:00" /\ checksum r' = None.
Proof.
  intros rt t'.
  destruct (@compress_keeps_records rt Scenario.now 7 Scenario.sized_tracker)
    as [Hk Hrec].
  { solve_wf. }
  split; [exact Hk|].
  destruct (Hrec "A" (Scenario.record "A" "2025-01-20T12:00:00" "downloads/A.pdf" 5))
    as (r' & Hg & _ & _ & Hd & Hc & _).
  { now left. }
  exists r'. split; [exact Hg|]. split; [exact Hd|exact Hc].
Defined.

(** The store of three uncompressed records has the invariant, and so
    has the store after a compression pass. *)
Lemma compressed_paths_invariant_witness :
  let rt := Demo.runtime [] in
  gz_consistent (downloads (tracking_data
    (snd (@compress_old_files rt Scenario.now 7 Scenario.sized_tracker)))).
Proof.
  intros rt.
  destruct (@compressed_paths_invariant rt Scenario.now 7 (mb 4) "D" "D.pdf" "downloads/D.pdf"
              Scenario.sized_tracker) as (_ & _ & _ & H & _).
  - solve_wf.
  - intros id r [E|[E|[E|[]]]] Hc; injection E as <- <-; discriminate Hc.
  - exact H.
Defined.

(** Record B survives the age policy as it was. *)
Lemma retention_only_removes_witness :
  let rt := Demo.runtime [] in
  In ("B", Scenario.record "B" "2025-02-09T12:00:00" "downloads/B.pdf" 3)
     (downloads (tracking_data Scenario.sized_tracker)).
Proof.
  intros rt.
  destruct (@retention_only_removes rt Scenario.now 30 (mb 4) Scenario.sized_tracker)
    as (Hsub & _).
  apply Hsub. vm_compute. now left.
Defined.

(** Loading a damaged tracking file leaves it where it is. *)
Lemma load_frame_witness :
  let rt := Demo.runtime [] in
  let result := @load_tracking_data rt "./tracking.json" "./downloads" Scenario.now
                  Scenario.later_run_disk in
  snd result !! "./tracking.json" = Some (File "{ damaged" 10) /\
  snd result !! "." = Some (Dir 0).
Proof.
  intros rt result.
  destruct (@load_frame rt "./tracking.json" "./downloads" Scenario.now
              Scenario.later_run_disk (fst result) (snd result))
    as (Hagree & Hfile & _).
  { apply surjective_pairing. }
  split; [rewrite Hfile; vm_compute; reflexivity|].
  rewrite Hagree; [vm_compute; reflexivity|].
  intros [rest E]. vm_compute in E. discriminate E.
Defined.

(** The damaged tracking file of a later run is copied to the backups
    directory and an empty store is returned. *)
Lemma load_corrupt_recovers_witness :
  let rt := Demo.runtime [] in
  exists fs',
    @load_tracking_data rt "./tracking.json" "./downloads" Scenario.now
      Scenario.later_run_disk = (Ok (@_create_empty_tracking_data rt Scenario.now), fs') /\
    fs' !! "./backups/corrupted_tracking_20250301_120000.json" =
      Some (File "{ damaged" 10).
Proof.
  intros rt.
  destruct (@load_corrupt_recovers rt "./tracking.json" "./downloads" Scenario.now
              Scenario.later_run_disk "{ damaged" 10)
    as (fs' & Hrun & Hfs & _); try (vm_compute; reflexivity).
  exists fs'. split; [exact Hrun|]. rewrite Hfs. apply lookup_insert_eq.
Defined.

(** The legacy list A, B, A gives two records and a counter of three. *)
Lemma migrate_legacy_list_witness :
  let rt := Demo.runtime [] in
  let d := @_validate_and_migrate_data rt "./downloads" Scenario.now
             Scenario.legacy_document in
  Dict.wf (downloads d) /\
  total_downloads (statistics d) = 3 /\
  ~ counted d.
Proof.
  intros rt d.
  destruct (@migrate_legacy_list rt "./downloads" Scenario.now Scenario.legacy_document
              ["A"; "B"; "A"] eq_refl) as (Hwf & _ & _ & Hst).
  destruct (Hst eq_refl) as [Htd Hiff].
  split; [exact Hwf|]. split; [exact Htd|].
  intros Hc. apply Hiff in Hc. apply NoDup_cons in Hc as [Hc _].
  apply Hc. apply list_elem_of_further, list_elem_of_here.
Defined.

(** The store written by a save comes back from the load. *)
Lemma load_after_save_store_witness :
  let rt := Demo.runtime [Scenario.saved_store] in
  let t' := snd (@save_tracking_data rt "./tracking.json" Scenario.now
                   Scenario.saving_tracker) in
  fst (@load_tracking_data rt "./tracking.json" "./downloads" (Scenario.now + 1) (disk t')) =
    Ok (set_last_updated (Demo.demo_isoformat (Scenario.now + 1))
          (tracking_data Scenario.saving_tracker)).
Proof.
  intros rt t'.
  rewrite (@load_after_save_store rt "./tracking.json" "./downloads" Scenario.now
             (Scenario.now + 1) Scenario.saving_tracker t').
  - reflexivity.
  - vm_compute; reflexivity.
  - vm_compute; reflexivity.
Defined.


(** A save does not touch a downloaded file. *)
Lemma save_frame_witness :
  let rt := Demo.runtime [] in
  let result := @save_tracking_data rt "./tracking.json" Scenario.now
                  Scenario.resaving_tracker in
  disk (snd result) !! "./downloads/A.pdf" = Some (File "aaaaa" 1) /\
  downloads (tracking_data (snd result)) = Scenario.two_records.
Proof.
  intros rt result.
  destruct (@save_frame rt "./tracking.json" Scenario.now Scenario.resaving_tracker
              (fst result) (snd result)) as [Hdata Hdisk].
  { apply surjective_pairing. }
  split.
  - rewrite Hdisk; [vm_compute; reflexivity|discriminate|discriminate|].
    intros [rest E]. vm_compute in E. discriminate E.
  - rewrite Hdata. reflexivity.
Defined.

(** The second save keeps the previous tracking file as a backup. *)
Lemma save_backs_up_witness :
  let rt := Demo.runtime [] in
  let result := @save_tracking_data rt "./tracking.json" Scenario.now
                  Scenario.resaving_tracker in
  disk (snd result) !! "./backups/tracking_backup_20250301_120000.json" =
    Some (File "previous" 5).
Proof.
  intros rt result.
  apply (@save_backs_up rt "./tracking.json" Scenario.now Scenario.resaving_tracker
           "previous" 5 (fst result) (snd result)); try (vm_compute; reflexivity).
  apply Nat.leb_le. vm_compute. reflexivity.
Defined.



(** The dates of the three records lie between the two reported dates. *)
Lemma storage_stats_dates_witness :
  let stats :=
    match fst (get_storage_stats Scenario.sized_tracker) with
    | Ok s => s
    | Raise _ => empty_stats
    end in
  String.ltb "2025-02-09T12:00:00" "2025-01-20T12:00:00" = false /\
  String.ltb "2025-02-27T12:00:00" "2025-02-09T12:00:00" = false.
Proof.
  intros stats.
  destruct (storage_stats_dates Scenario.sized_tracker stats
              "2025-01-20T12:00:00" "2025-02-27T12:00:00") as (_ & _ & Hall).
  - vm_compute. reflexivity.
  - vm_compute. reflexivity.
  - vm_compute. reflexivity.
  - apply (Hall "B" (Scenario.record "B" "2025-02-09T12:00:00" "downloads/B.pdf" 3)).
    + right. left. reflexivity.
    + vm_compute. reflexivity.
Defined.

(** On a first run the two directories are created and the tracking
    file is kept. *)
Lemma ensure_directories_effect_witness :
  let result := _ensure_directories "./tracking.json" "./downloads" Scenario.now
                  Scenario.first_run_disk in
  FS.is_dir (snd result) "./backups" = true /\
  FS.is_dir (snd result) "./downloads" = true /\
  snd result !! "./tracking.json" = Some (File "{ damaged" 10).
Proof.
  intros result.
  destruct (ensure_directories_effect "./tracking.json" "./downloads" Scenario.now
              Scenario.first_run_disk (Ok tt) (snd result)) as [[Hfiles _] Hdirs].
  { vm_compute. reflexivity. }
  destruct (Hdirs eq_refl) as (Hb & Hd & _).
  split; [exact Hb|]. split; [apply Hd; reflexivity|].
  apply Hfiles. vm_compute. reflexivity.
Defined.

(** The tracker constructed in a working directory with a tracking file
    holds the two stored records. *)
Lemma init_effect_witness :
  let rt := Demo.runtime [Scenario.store Scenario.two_records] in
  let result := @init rt "./tracking.json" "./downloads" Scenario.now Scenario.cli_disk in
  exists t,
    fst result = Ok t /\
    map fst (downloads (tracking_data t)) = ["A"; "B"] /\
    FS.is_dir (disk t) "./backups" = true /\
    disk t !! "./downloads/A.pdf" = Some (File "aaaaa" 1).
Proof.
  intros rt result.
  destruct (fst result) as [t|e] eqn:Er.
  2:{ vm_compute in Er. discriminate Er. }
  destruct (@init_effect rt "./tracking.json" "./downloads" Scenario.now Scenario.cli_disk
              t (snd result)) as (Hdisk & Hload & Hb & _ & Hfiles).
  { rewrite <- Er. apply surjective_pairing. }
  exists t. split; [reflexivity|].
  split.
  { assert (E : fst (@load_tracking_data rt "./tracking.json" "./downloads" Scenario.now
                       Scenario.cli_disk) =
                Ok (set_last_updated (Demo.demo_isoformat Scenario.now)
                      (Scenario.store Scenario.two_records)))
      by (vm_compute; reflexivity).
    rewrite Hload in E. injection E as ->. reflexivity. }
  split; [rewrite Hdisk; exact Hb|].
  rewrite Hdisk. apply Hfiles.
  - intros [rest E]. vm_compute in E. discriminate E.
  - vm_compute. reflexivity.
Defined.

(** [main --verify --report] prints two lines and exits with status 0. *)
Lemma main_read_only_witness :
  let rt := Demo.runtime [Scenario.store Scenario.two_records] in
  exists out fs',
    @main rt Scenario.clock Scenario.report_args Scenario.cli_disk = (Ok (0, out), fs') /\
    length out = 2%nat.
Proof.
  intros rt.
  pose (result := @init rt "./tracking.json" "./downloads" Scenario.now Scenario.cli_disk).
  destruct (fst result) as [t|e] eqn:Er.
  2:{ vm_compute in Er. discriminate Er. }
  destruct (@main_read_only rt Scenario.clock Scenario.report_args Scenario.cli_disk
              t (snd result)) as (out & Hrun & Hlen).
  { reflexivity. }
  { change (result = (Ok t, snd result)). rewrite <- Er. apply surjective_pairing. }
  exists out, (snd result). split; [exact Hrun|exact Hlen].
Defined.

(** [main --cleanup]: with the usual day counts the passes run, the
    store is saved and the exit status is 0; with a day count of 1000000
    the exit status is 1, the output ends with the [OverflowError], and
    the tracking file is the one that was there. *)
Lemma main_cleanup_persists_witness :
  let rt := Demo.runtime [Scenario.store Scenario.two_records] in
  (exists out fs',
     @main rt Scenario.clock Scenario.cleanup_args Scenario.cli_disk = (Ok (0, out), fs')) /\
  (exists out fs',
     @main rt Scenario.clock Scenario.overflow_args Scenario.cli_disk = (Ok (1, out), fs') /\
     last out = Some (Error OverflowError) /\
     fs' !! "./tracking.json" = Scenario.cli_disk !! "./tracking.json").
Proof.
  intros rt.
  pose (result := @init rt "./tracking.json" "./downloads" Scenario.now Scenario.cli_disk).
  destruct (fst result) as [t|e] eqn:Er.
  2:{ vm_compute in Er. discriminate Er. }
  assert (Hinit : result = (Ok t, snd result)).
  { rewrite <- Er. apply surjective_pairing. }
  assert (Et : Ok t = fst result) by (symmetry; exact Er).
  split.
  - destruct (@main_cleanup_persists rt Scenario.clock Scenario.cleanup_args Scenario.cli_disk
                t (snd result)) as (code & out & Hm).
    { reflexivity. }
    { exact Hinit. }
    assert (E1 : minus_days (at_cleanup Scenario.clock) (cleanup_days Scenario.cleanup_args) =
                 Ok (Scenario.now + 1 - 30 * microseconds_per_day)%Z)
      by (vm_compute; reflexivity).
    assert (E2 : minus_days (at_compress Scenario.clock) (compress_days Scenario.cleanup_args) =
                 Ok (Scenario.now + 2 - 7 * microseconds_per_day)%Z)
      by (vm_compute; reflexivity).
    rewrite E1, E2 in Hm. destruct Hm as [Hrun Hm].
    assert (Hs : is_ok (fst (@save_tracking_data rt "./tracking.json" (Scenario.now + 3)
                               (@after_passes rt Scenario.clock Scenario.cleanup_args
                                  match fst result with Ok t0 => t0 | Raise _ => t end))) = true).
    { vm_compute. reflexivity. }
    rewrite <- Et in Hs.
    change (Scenario.now + 3) with (at_save Scenario.clock) in Hs.
    change "./tracking.json" with (args_tracking_file Scenario.cleanup_args) in Hs.
    destruct (fst (@save_tracking_data rt (args_tracking_file Scenario.cleanup_args)
                     (at_save Scenario.clock)
                     (@after_passes rt Scenario.clock Scenario.cleanup_args t)))
      as [[]|e]; [|discriminate Hs].
    destruct Hm as [-> _]. eexists _, _. exact Hrun.
  - destruct (@main_cleanup_persists rt Scenario.clock Scenario.overflow_args Scenario.cli_disk
                t (snd result)) as (code & out & Hm).
    { reflexivity. }
    { exact Hinit. }
    assert (E1 : minus_days (at_cleanup Scenario.clock) (cleanup_days Scenario.overflow_args) =
                 Raise OverflowError)
      by (vm_compute; reflexivity).
    rewrite E1 in Hm. destruct Hm as (Hrun & -> & Hlast).
    exists out, (snd result). split; [exact Hrun|]. split; [exact Hlast|].
    vm_compute. reflexivity.
Defined.
